(** * OTLP span export pipeline: endpoint/header resolution, the no-SSL
      delivery client, the result-tracking exporters and the host exit
      contract.

    Shallow embedding of
      - [src/otel_llm_log.py]          (module [Root] below), and
      - [src/langgraph/otel_export.py],
        [src/langgraph/agent_otel.py]  (module [Langgraph] below).

    Python values are modelled as follows.
      - [str]                 : [string]; a character is a code point below
                                256 (Latin-1 range);
      - [bytes]               : [list byte];
      - [os.environ], [dict]  : [gmap string string];
      - [Optional[T]]         : [option T];
      - a call that may raise : a state-passing computation returning an
                                [outcome] ([Return v] or [Raise e]);
      - [requests.Session.post] : a scripted network, which answers the
                                n-th request with the n-th scripted outcome
                                and records every request it receives;
      - [logging]             : a list of records, in emission order;
      - [gzip], [zlib]        : the compressors are parameters ([Codecs]);
                                what a receiver reads back is given by
                                decoders that follow RFC 1950, 1951 and
                                1952 (modules [RFC1950] to [RFC1952]). *)

From Stdlib Require Import ZArith Lia Bool.
From Stdlib Require QArith_base.
From Stdlib Require Import Strings.Ascii Strings.String Strings.Byte.
From stdpp Require Import base option list strings gmap.

Local Open Scope string_scope.
Local Open Scope list_scope.

(** ** Python strings *)

Module PyStr.

(** [str.isspace] on code points below 256: TAB..CR, FS..US, SPACE,
    NEL (0x85) and NBSP (0xA0). *)
Definition isspace (c : ascii) : bool :=
  let n := nat_of_ascii c in
  (((9 <=? n) && (n <=? 13)) || ((28 <=? n) && (n <=? 32))
   || (n =? 133) || (n =? 160))%nat.

Definition is_empty (s : string) : bool :=
  match s with EmptyString => true | String _ _ => false end.

(** Truthiness of a [str]: non-empty. *)
Definition truthy (s : string) : bool := negb (is_empty s).

Fixpoint lstrip_by (p : ascii -> bool) (s : string) : string :=
  match s with
  | EmptyString => EmptyString
  | String c r => if p c then lstrip_by p r else s
  end.

Fixpoint rstrip_by (p : ascii -> bool) (s : string) : string :=
  match s with
  | EmptyString => EmptyString
  | String c r =>
      let r' := rstrip_by p r in
      if is_empty r' && p c then EmptyString else String c r'
  end.

(** [s.strip()] *)
Definition strip (s : string) : string :=
  lstrip_by isspace (rstrip_by isspace s).

(** [s.rstrip(chars)] for a one-character [chars]. *)
Definition rstrip_char (c : ascii) (s : string) : string :=
  rstrip_by (Ascii.eqb c) s.

(** [s.endswith(suffix)] *)
Fixpoint endswith (s suffix : string) : bool :=
  if String.eqb s suffix then true
  else match s with
       | EmptyString => false
       | String _ r => endswith r suffix
       end.

(** [s[:n]] for [0 <= n]. *)
Fixpoint take (n : nat) (s : string) : string :=
  match n, s with
  | O, _ => EmptyString
  | _, EmptyString => EmptyString
  | S k, String c r => String c (take k r)
  end.

(** Last character, if any. *)
Fixpoint last (s : string) : option ascii :=
  match s with
  | EmptyString => None
  | String c EmptyString => Some c
  | String _ r => last r
  end.

Definition head (s : string) : option ascii :=
  match s with EmptyString => None | String c _ => Some c end.

(** No leading and no trailing whitespace. *)
Definition trimmed (s : string) : bool :=
  match head s, last s with
  | Some a, Some b => negb (isspace a) && negb (isspace b)
  | _, _ => true
  end.

End PyStr.

(** ** Exceptions

    The part of the class hierarchy that the handlers of the source
    discriminate: [BaseException] > [Exception] > [RequestException] >
    {[ConnectionError] > {[SSLError], [ProxyError]}, [Timeout] >
    [ReadTimeout], [HTTPError]}, with [ConnectTimeout] below both
    [ConnectionError] and [Timeout]; [KeyboardInterrupt] and [SystemExit]
    derive from [BaseException] only. *)

Inductive exc_class : Type :=
  | KeyboardInterrupt
  | SystemExit (code : Z)
  | OtherException
  | RequestException
  | HTTPError
  | ConnectionError
  | SSLError
  | ProxyError
  | Timeout
  | ConnectTimeout
  | ReadTimeout.

(** The classes named in an [except] clause of the source. *)
Inductive handler : Type :=
  | HException
  | HRequestException
  | HConnectionError
  | HTimeout.

Record exn : Type := Exn { exn_class : exc_class; exn_msg : string }.

Definition is_base_only (c : exc_class) : bool :=
  match c with
  | KeyboardInterrupt | SystemExit _ => true
  | _ => false
  end.

Definition is_request (c : exc_class) : bool :=
  match c with
  | RequestException | HTTPError | ConnectionError | SSLError | ProxyError
  | Timeout | ConnectTimeout | ReadTimeout => true
  | _ => false
  end.

Definition is_connection (c : exc_class) : bool :=
  match c with
  | ConnectionError | SSLError | ProxyError | ConnectTimeout => true
  | _ => false
  end.

Definition is_timeout (c : exc_class) : bool :=
  match c with
  | Timeout | ConnectTimeout | ReadTimeout => true
  | _ => false
  end.

(** [isinstance(e, H)] *)
Definition isinstance (e : exn) (h : handler) : bool :=
  match h with
  | HException => negb (is_base_only (exn_class e))
  | HRequestException => is_request (exn_class e)
  | HConnectionError => is_connection (exn_class e)
  | HTimeout => is_timeout (exn_class e)
  end.

(** ** Computations that may raise *)

Inductive outcome (A : Type) : Type :=
  | Return (a : A)
  | Raise (e : exn).
Arguments Return {A} a.
Arguments Raise {A} e.

(** A computation over a state [S]. *)
Definition M (S A : Type) : Type := S -> outcome A * S.

Definition ret {S A} (a : A) : M S A := fun s => (Return a, s).

Definition raise {S A} (e : exn) : M S A := fun s => (Raise e, s).

Definition bind {S A B} (m : M S A) (k : A -> M S B) : M S B :=
  fun s =>
    match m s with
    | (Return a, s') => k a s'
    | (Raise e, s') => (Raise e, s')
    end.

Definition get {S} : M S S := fun s => (Return s, s).
Definition modify {S} (f : S -> S) : M S unit := fun s => (Return tt, f s).

Declare Scope py_scope.
Delimit Scope py_scope with py.
Notation "x <- m ;; k" := (bind m (fun x => k))
  (at level 100, m at next level, right associativity) : py_scope.
Notation "m ;;; k" := (bind m (fun _ => k))
  (at level 100, right associativity) : py_scope.

(** ** Environment and endpoint resolution *)

Definition DEFAULT_TRACES_ENDPOINT : string :=
  "http://localhost:4318/v1/traces".

(** [os.environ.get(key, "")] *)
Definition environ_get (env : gmap string string) (key : string) : string :=
  default "" (env !! key).

(** [_get_endpoint] of otel_llm_log.py, and, line for line,
    [get_otlp_endpoint] of langgraph/otel_export.py. *)
Definition get_endpoint (env : gmap string string) : string :=
  let endpoint :=
    PyStr.strip (environ_get env "OTEL_EXPORTER_OTLP_TRACES_ENDPOINT") in
  if PyStr.truthy endpoint then endpoint
  else
    let base :=
      PyStr.rstrip_char "/"%char
        (PyStr.strip (environ_get env "OTEL_EXPORTER_OTLP_ENDPOINT")) in
    if negb (PyStr.truthy base) then DEFAULT_TRACES_ENDPOINT
    else if PyStr.endswith base "v1/traces" then base
    else base +:+ "/v1/traces".

(** ** Header resolution *)

(** [_get_headers] of otel_llm_log.py and [get_otlp_headers] of
    langgraph/otel_export.py.  [parse_env_headers] is the function of that
    name in [opentelemetry.util.re] (called with [liberal=True]); it is
    library code and is taken as a parameter. *)
Definition get_headers (parse_env_headers : string -> gmap string string)
    (env : gmap string string) : gmap string string :=
  let s :=
    default (environ_get env "OTEL_EXPORTER_OTLP_HEADERS")
            (env !! "OTEL_EXPORTER_OTLP_TRACES_HEADERS") in
  if PyStr.truthy s then parse_env_headers s else ∅.

(** The header string the lookup above selects. *)
Definition header_string (env : gmap string string) : string :=
  match env !! "OTEL_EXPORTER_OTLP_TRACES_HEADERS" with
  | Some traces => traces
  | None =>
      match env !! "OTEL_EXPORTER_OTLP_HEADERS" with
      | Some generic => generic
      | None => ""
      end
  end.

(** A reference parser for comma-separated [key=value] pairs, used to run
    [get_headers] on concrete environments: items are separated by [,],
    each item is cut at its first [=], items without [=] are skipped and a
    later item overrides an earlier one with the same key. *)
Fixpoint split_on (sep : ascii) (s : string) : list string :=
  match s with
  | EmptyString => [EmptyString]
  | String c r =>
      if Ascii.eqb c sep then EmptyString :: split_on sep r
      else match split_on sep r with
           | [] => [String c EmptyString]
           | h :: t => String c h :: t
           end
  end.

Fixpoint cut_at (sep : ascii) (s : string) : option (string * string) :=
  match s with
  | EmptyString => None
  | String c r =>
      if Ascii.eqb c sep then Some (EmptyString, r)
      else match cut_at sep r with
           | Some (k, v) => Some (String c k, v)
           | None => None
           end
  end.

Definition parse_pairs (s : string) : gmap string string :=
  foldl (fun (m : gmap string string) item =>
           match cut_at "="%char item with
           | Some (k, v) => <[k := v]> m
           | None => m
           end)
        ∅ (split_on ","%char s).

(** ** The exporter object and its transport *)

Definition bytes : Type := list byte.

Definition seconds : Type := QArith_base.Q.

(** [opentelemetry.exporter.otlp.proto.http.Compression] *)
Inductive Compression : Type := NoCompression | Deflate | Gzip.

(** The two standard-library compressors the exporter calls:
    [gzip_write b] is what the [BytesIO] holds once the
    [with gzip.GzipFile(fileobj=..., mode="w")] block that wrote [b] is
    left, [zlib_compress b] is [zlib.compress(b)]. *)
Record Codecs : Type := {
  gzip_write : bytes -> bytes;
  zlib_compress : bytes -> bytes
}.

(** A pair of framing codecs (a fixed header in front of the payload),
    used to run the exporter on inputs where the bytes of the body do
    not matter. *)
Definition gzip_magic : bytes := [x1f; x8b; x08].
Definition zlib_magic : bytes := [x78; x9c].

Definition framing : Codecs := {|
  gzip_write b := (gzip_magic ++ b)%list;
  zlib_compress b := (zlib_magic ++ b)%list
|}.

(** The attributes of [OTLPSpanExporter] that [_export] reads. *)
Record OTLPSpanExporter : Type := {
  _endpoint : string;
  _headers : gmap string string;
  _compression : Compression;
  _timeout : seconds;
  _client_cert : option string
}.

(** What the library constructor settles by itself (from its own
    environment variables and defaults); [sdk_headers] is the mapping
    it falls back to when it is given no headers. *)
Record SdkSettings : Type := {
  sdk_headers : gmap string string;
  sdk_compression : Compression;
  sdk_timeout : seconds;
  sdk_client_cert : option string
}.

(** [headers or None] *)
Definition or_None (headers : option (gmap string string))
  : option (gmap string string) :=
  match headers with
  | Some m => if decide (m = ∅) then None else Some m
  | None => None
  end.

(** [_create_otlp_exporter_no_ssl] / [create_otlp_exporter_no_ssl]:
    [OTLPSpanExporterNoSSL(endpoint=endpoint, headers=headers or None)].
    The constructor keeps a mapping in any case: the one it is given,
    or its own when it is given [None].  Neither the factory nor the
    class takes a transport-security argument. *)
Definition create_otlp_exporter_no_ssl (sdk : SdkSettings)
    (endpoint : string) (headers : option (gmap string string))
  : OTLPSpanExporter :=
  {| _endpoint := endpoint;
     _headers := default (sdk_headers sdk) (or_None headers);
     _compression := sdk_compression sdk;
     _timeout := sdk_timeout sdk;
     _client_cert := sdk_client_cert sdk |}.

Record Response : Type := {
  status_code : Z;
  reason : string;
  text : string;
  ok : bool
}.

(** The keyword arguments of [self._session.post]. *)
Record Request : Type := {
  url : string;
  data : bytes;
  verify : bool;
  timeout : seconds;
  cert : option string
}.

Inductive SpanExportResult : Type := SUCCESS | FAILURE.

Inductive Level : Type := ERROR | WARNING.

Inductive LogArg : Type :=
  | AInt (z : Z)
  | AStr (s : string)
  | ASeconds (q : seconds)
  | AExn (e : exn)
  | AResult (r : SpanExportResult).

Record LogRecord : Type := {
  levelname : Level;
  msg : string;
  args : list LogArg;
  exc_info : bool
}.

(** The world of a delivery: the scripted network answers the n-th
    request with [script n]; [calls] lists the requests made so far and
    [records] the log records emitted so far. *)
Record World : Type := {
  script : nat -> outcome Response;
  calls : list Request;
  records : list LogRecord
}.

Definition session_post (r : Request) : M World Response :=
  fun w =>
    (script w (length (calls w)),
     {| script := script w; calls := (calls w ++ [r])%list; records := records w |}).

Definition emit (r : LogRecord) : M World unit :=
  fun w =>
    (Return tt,
     {| script := script w; calls := calls w; records := (records w ++ [r])%list |}).

(** [logger.error(msg, *args)], [logger.error(..., exc_info=True)] and
    [logger.exception(msg, *args)]. *)
Definition logger_error (m : string) (a : list LogArg) (exc : bool)
  : M World unit :=
  emit {| levelname := ERROR; msg := m; args := a; exc_info := exc |}.

Definition logger_exception (m : string) (a : list LogArg) : M World unit :=
  logger_error m a true.

(** [try: m  except H1 as e: k1 e  except H2 as e: k2 e ...]: the first
    clause whose class the exception is an instance of handles it; an
    exception no clause matches passes through. *)
Fixpoint dispatch {S A} (e : exn) (clauses : list (handler * (exn -> M S A)))
  : M S A :=
  match clauses with
  | [] => raise e
  | (h, k) :: rest => if isinstance e h then k e else dispatch e rest
  end.

Definition try_excepts {S A} (m : M S A)
    (clauses : list (handler * (exn -> M S A))) : M S A :=
  fun s =>
    match m s with
    | (Return a, s') => (Return a, s')
    | (Raise e, s') => dispatch e clauses s'
    end.

(** The compression step shared by both [_export] methods. *)
Definition compress (z : Codecs) (c : Compression) (serialized_data : bytes)
  : bytes :=
  match c with
  | Gzip => gzip_write z serialized_data
  | Deflate => zlib_compress z serialized_data
  | NoCompression => serialized_data
  end.

Definition post_request (self : OTLPSpanExporter) (data : bytes)
    (timeout_sec : seconds) : Request :=
  {| url := _endpoint self;
     data := data;
     verify := false;
     timeout := timeout_sec;
     cert := _client_cert self |}.

(** ** The exporter interface *)

Inductive SpanKind : Type := INTERNAL | CLIENT | SERVER | PRODUCER | CONSUMER.

Record ReadableSpan : Type := {
  span_name : string;
  span_kind : SpanKind;
  span_attributes : list (string * string)
}.

(** [opentelemetry.sdk.trace.export.SpanExporter], over the state [S] of
    the object implementing it. *)
Class SpanExporter (S : Type) : Type := {
  export : list ReadableSpan -> M S SpanExportResult;
  shutdown : M S unit;
  force_flush : Z -> M S bool
}.

Definition SpanExportResult_eqb (a b : SpanExportResult) : bool :=
  match a, b with
  | SUCCESS, SUCCESS | FAILURE, FAILURE => true
  | _, _ => false
  end.

(** [x == SpanExportResult.SUCCESS] for an [Optional[SpanExportResult]]. *)
Definition is_SUCCESS (x : option SpanExportResult) : bool :=
  match x with Some r => SpanExportResult_eqb r SUCCESS | None => false end.

(** [sys.exit(code)] *)
Definition sys_exit {S A} (code : Z) : M S A :=
  raise {| exn_class := SystemExit code; exn_msg := "" |}.

(** The status the interpreter ends with: [0] when the program runs to
    its end, the low eight bits of the argument of [sys.exit] (all the
    operating system keeps of it), and [1] for an uncaught exception (an
    uncaught interrupt also gives a non-zero status). *)
Definition exit_status {A} (o : outcome A) : Z :=
  match o with
  | Return _ => 0
  | Raise e =>
      match exn_class e with
      | SystemExit code => code mod 256
      | _ => 1
      end
  end.

(** A client of an exporter: method calls, and what each call gave. *)
Inductive Call : Type :=
  | CallExport (spans : list ReadableSpan)
  | CallShutdown
  | CallForceFlush (timeout_millis : Z).

Inductive Reply : Type :=
  | ReplyExport (o : outcome SpanExportResult)
  | ReplyShutdown (o : outcome unit)
  | ReplyForceFlush (o : outcome bool).

Definition perform {S} `{SpanExporter S} (c : Call) (s : S) : Reply * S :=
  match c with
  | CallExport spans => let (o, s') := export spans s in (ReplyExport o, s')
  | CallShutdown => let (o, s') := shutdown s in (ReplyShutdown o, s')
  | CallForceFlush t => let (o, s') := force_flush t s in (ReplyForceFlush o, s')
  end.

Fixpoint perform_all {S} `{SpanExporter S} (cs : list Call) (s : S)
  : list Reply * S :=
  match cs with
  | [] => ([], s)
  | c :: rest =>
      let (r, s') := perform c s in
      let (rs, s'') := perform_all rest s' in
      (r :: rs, s'')
  end.

(** ** otel_llm_log.py *)

Module Root.

(** [OTLPSpanExporterNoSSL._export] *)
Definition _export (z : Codecs) (self : OTLPSpanExporter)
    (serialized_data : bytes) (timeout_sec : option seconds)
  : M World Response :=
  let data := compress z (_compression self) serialized_data in
  let timeout_sec := default (_timeout self) timeout_sec in
  try_excepts
    (session_post (post_request self data timeout_sec))
    [(HConnectionError,
      fun _ => session_post (post_request self data timeout_sec))].

(** [TrackingSpanExporter]: the wrapped exporter (of state [D]) and the
    two recorded attributes. *)
Record TrackingSpanExporter (D : Type) : Type := {
  _delegate : D;
  last_result : option SpanExportResult;
  last_error : option exn
}.
Arguments _delegate {D} _.
Arguments last_result {D} _.
Arguments last_error {D} _.

Section Tracking.
Context {D : Type} `{SpanExporter D}.

(** [TrackingSpanExporter.__init__] *)
Definition init (delegate : D) : TrackingSpanExporter D :=
  {| _delegate := delegate; last_result := None; last_error := None |}.

(** [self._delegate.m(...)]: the call runs on the wrapped object. *)
Definition on_delegate {A} (m : M D A) : M (TrackingSpanExporter D) A :=
  fun self =>
    let (o, d) := m (_delegate self) in
    (o, {| _delegate := d;
           last_result := last_result self;
           last_error := last_error self |}).

Definition set_last_error (e : option exn)
  : M (TrackingSpanExporter D) unit :=
  modify (fun self =>
    {| _delegate := _delegate self;
       last_result := last_result self;
       last_error := e |}).

Definition set_last_result (r : option SpanExportResult)
  : M (TrackingSpanExporter D) unit :=
  modify (fun self =>
    {| _delegate := _delegate self;
       last_result := r;
       last_error := last_error self |}).

(** [TrackingSpanExporter.export] *)
Definition tracking_export (spans : list ReadableSpan)
  : M (TrackingSpanExporter D) SpanExportResult :=
  (set_last_error None ;;;
   try_excepts
     (r <- on_delegate (export spans) ;;
      set_last_result (Some r) ;;;
      ret r)
     [(HException,
       fun e =>
         set_last_error (Some e) ;;;
         set_last_result (Some FAILURE) ;;;
         raise e)])%py.

(** [TrackingSpanExporter.shutdown] *)
Definition tracking_shutdown : M (TrackingSpanExporter D) unit :=
  (on_delegate shutdown ;;; ret tt)%py.

(** [TrackingSpanExporter.force_flush]; [None] stands for a call
    that leaves [timeout_millis] to its default. *)
Definition tracking_force_flush (timeout_millis : option Z)
  : M (TrackingSpanExporter D) bool :=
  on_delegate (force_flush (default 30000%Z timeout_millis)).

#[global] Instance TrackingSpanExporter_exporter
  : SpanExporter (TrackingSpanExporter D) := {|
  export := tracking_export;
  shutdown := tracking_shutdown;
  force_flush t := tracking_force_flush (Some t)
|}.

(** The host process: the tracking exporter and what was printed. *)
Record Host : Type := {
  tracking : TrackingSpanExporter D;
  stdout : list string
}.

Definition print (line : string) : M Host unit :=
  modify (fun h =>
    {| tracking := tracking h; stdout := (stdout h ++ [line])%list |}).

Definition on_tracking {A} (m : M (TrackingSpanExporter D) A)
  : M Host A :=
  fun h =>
    let (o, t) := m (tracking h) in
    (o, {| tracking := t; stdout := stdout h |}).

(** The last [try] statement of [main] (lines 200-268).  [produce] is
    what the SDK does between the creation of the spans and the
    return of [provider.shutdown()]: it drives the tracking exporter
    and may raise.  [if tracking.last_error:] tests that an exception
    object is there. *)
Definition main_try (endpoint : string)
    (produce : M (TrackingSpanExporter D) unit) : M Host unit :=
  try_excepts
    (on_tracking produce ;;;
     h <- get ;;
     if is_SUCCESS (last_result (tracking h)) then
       print ("GenAI spans exported (chat + execute_tool) to "
              +:+ endpoint +:+ ". " +:+ "Service: otel-llm-log.")
     else
       (print ("Export failed (SSL or network error). Check logs above. "
               +:+ "Endpoint: " +:+ endpoint) ;;;
        match last_error (tracking h) with
        | Some e => print ("Error: " +:+ exn_msg e)
        | None => ret tt
        end ;;;
        sys_exit 1))%py
    [(HException,
      fun e =>
        (print ("Failed to create or export spans: " +:+ exn_msg e) ;;;
         sys_exit 1)%py)].

(** [main], from the resolution of the endpoint on (the import check
    before it is taken to pass): [delegate] is the exporter the factory
    built, wrapped here in a fresh [TrackingSpanExporter]. *)
Definition main (env : gmap string string) (delegate : D)
    (produce : M (TrackingSpanExporter D) unit) : outcome unit * Host :=
  main_try (get_endpoint env) produce
    {| tracking := init delegate; stdout := [] |}.

End Tracking.

End Root.


(** ** langgraph/otel_export.py and langgraph/agent_otel.py *)

Module Langgraph.

(** The [body_preview] expression of [_export] (line 62). *)
Definition body_preview (text : string) : string :=
  if PyStr.truthy text && (1000 <? String.length text)%nat
  then PyStr.take 1000 text +:+ "..."
  else if PyStr.truthy text then text else "(empty)".

(** [OTLPSpanExporterNoSSL._export] *)
Definition _export (z : Codecs) (self : OTLPSpanExporter)
    (serialized_data : bytes) (timeout_sec : option seconds)
  : M World Response :=
  let data := compress z (_compression self) serialized_data in
  let timeout_sec := default (_timeout self) timeout_sec in
  try_excepts
    (resp <- session_post (post_request self data timeout_sec) ;;
     (if negb (ok resp) then
        logger_error
          ("OTLP trace export HTTP error: status=%s reason=%s url=%s "
           +:+ "request_content_length=%s response_body=%s")
          [AInt (status_code resp); AStr (reason resp);
           AStr (_endpoint self); AInt (Z.of_nat (length data));
           AStr (body_preview (text resp))]
          false
      else ret tt) ;;;
     ret resp)%py
    [(HTimeout,
      fun e =>
        (logger_error
           "OTLP trace export timeout: url=%s timeout_sec=%s error=%s"
           [AStr (_endpoint self); ASeconds timeout_sec; AExn e] true ;;;
         raise e)%py);
     (HConnectionError,
      fun e =>
        (logger_error
           "OTLP trace export connection error: url=%s error=%s"
           [AStr (_endpoint self); AExn e] true ;;;
         raise e)%py);
     (HRequestException,
      fun e =>
        (logger_error
           "OTLP trace export request error: url=%s error=%s"
           [AStr (_endpoint self); AExn e] true ;;;
         raise e)%py);
     (HException,
      fun e =>
        (logger_exception
           "OTLP trace export unexpected error: url=%s error=%s"
           [AStr (_endpoint self); AExn e] ;;;
         raise e)%py)].

(** [LoggingSpanExporter]: the wrapped exporter (of state [D]), the two
    recorded attributes, and the records the module's logger received
    from this object. *)
Record LoggingSpanExporter (D : Type) : Type := {
  _inner : D;
  last_result : option SpanExportResult;
  last_error : option exn;
  logger : list LogRecord
}.
Arguments _inner {D} _.
Arguments last_result {D} _.
Arguments last_error {D} _.
Arguments logger {D} _.

Section Logging.
Context {D : Type} `{SpanExporter D}.

(** [wrap_exporter_with_logging] / [LoggingSpanExporter.__init__] *)
Definition wrap_exporter_with_logging (delegate : D)
  : LoggingSpanExporter D :=
  {| _inner := delegate; last_result := None; last_error := None;
     logger := [] |}.

Definition on_inner {A} (m : M D A) : M (LoggingSpanExporter D) A :=
  fun self =>
    let (o, d) := m (_inner self) in
    (o, {| _inner := d;
           last_result := last_result self;
           last_error := last_error self;
           logger := logger self |}).

Definition set_last_error (e : option exn)
  : M (LoggingSpanExporter D) unit :=
  modify (fun self =>
    {| _inner := _inner self;
       last_result := last_result self;
       last_error := e;
       logger := logger self |}).

Definition set_last_result (r : option SpanExportResult)
  : M (LoggingSpanExporter D) unit :=
  modify (fun self =>
    {| _inner := _inner self;
       last_result := r;
       last_error := last_error self;
       logger := logger self |}).

Definition log (r : LogRecord) : M (LoggingSpanExporter D) unit :=
  modify (fun self =>
    {| _inner := _inner self;
       last_result := last_result self;
       last_error := last_error self;
       logger := (logger self ++ [r])%list |}).

(** [LoggingSpanExporter.export] *)
Definition logging_export (spans : list ReadableSpan)
  : M (LoggingSpanExporter D) SpanExportResult :=
  (set_last_error None ;;;
   try_excepts
     (r <- on_inner (export spans) ;;
      set_last_result (Some r) ;;;
      (if negb (SpanExportResult_eqb r SUCCESS) then
         log {| levelname := WARNING;
                msg := "OTLP span export returned failure: "
                       +:+ "result=%s span_count=%s";
                args := [AResult r; AInt (Z.of_nat (length spans))];
                exc_info := false |}
       else ret tt) ;;;
      ret r)
     [(HException,
       fun e =>
         set_last_error (Some e) ;;;
         log {| levelname := ERROR;
                msg := "OTLP span export raised: %s";
                args := [AExn e];
                exc_info := true |} ;;;
         raise e)])%py.

(** [LoggingSpanExporter.shutdown] *)
Definition logging_shutdown : M (LoggingSpanExporter D) unit :=
  (on_inner shutdown ;;; ret tt)%py.

(** [LoggingSpanExporter.force_flush]; [None] stands for a call that
    leaves [timeout_millis] to its default. *)
Definition logging_force_flush (timeout_millis : option Z)
  : M (LoggingSpanExporter D) bool :=
  on_inner (force_flush (default 30000%Z timeout_millis)).

#[global] Instance LoggingSpanExporter_exporter
  : SpanExporter (LoggingSpanExporter D) := {|
  export := logging_export;
  shutdown := logging_shutdown;
  force_flush t := logging_force_flush (Some t)
|}.

Record Host : Type := {
  exporter : LoggingSpanExporter D;
  stdout : list string
}.

Definition print (line : string) : M Host unit :=
  modify (fun h =>
    {| exporter := exporter h; stdout := (stdout h ++ [line])%list |}).

Definition on_exporter {A} (m : M (LoggingSpanExporter D) A) : M Host A :=
  fun h =>
    let (o, t) := m (exporter h) in
    (o, {| exporter := t; stdout := stdout h |}).

(** The last [try] statement of [main] in agent_otel.py (lines 76-89).
    [produce] is what [run_one()], [provider.force_flush(3000)] and
    [provider.shutdown()] do together: they print ([run_one] and the
    nodes of the graph do), drive the wrapped exporter and may raise. *)
Definition main_try (endpoint : string)
    (produce : M Host unit) : M Host unit :=
  try_excepts
    (produce ;;;
     h <- get ;;
     if is_SUCCESS (last_result (exporter h)) then
       print ("LangChain/LangGraph spans exported to " +:+ endpoint
              +:+ ". Service: langgraph-agent-otel.")
     else
       (print ("Export may have failed. Endpoint: " +:+ endpoint
               +:+ ". Check logs above for OTLP errors.") ;;;
        match last_error (exporter h) with
        | Some e => print ("Last export error: " +:+ exn_msg e)
        | None => ret tt
        end ;;;
        sys_exit 1))%py
    [(HException,
      fun e => (print ("Failed: " +:+ exn_msg e) ;;; sys_exit 1)%py)].

(** [main] of agent_otel.py, from [_setup_tracing()] on (the import
    check before it is taken to pass): [delegate] is the exporter the
    factory built, wrapped here by [wrap_exporter_with_logging]. *)
Definition main (env : gmap string string) (delegate : D)
    (produce : M Host unit) : outcome unit * Host :=
  main_try (get_endpoint env) produce
    {| exporter := wrap_exporter_with_logging delegate; stdout := [] |}.

End Logging.

End Langgraph.


(** ** langgraph/workflow.py *)

Module Workflow.

(** Python values as the nodes handle them: what [json.loads] can return
    and what the dictionaries of the state hold.  Numbers are integers. *)
#[warnings="-register-all"]
Inductive value : Type :=
  | VNone
  | VBool (b : bool)
  | VInt (z : Z)
  | VStr (s : string)
  | VList (l : list value)
  | VDict (d : gmap string value).

Definition DEFAULT_MODEL : string := "gpt-4o".
Definition TOOL_NAME : string := "get_weather".
Definition TOOL_CALL_ID : string := "call_synthetic_xyz".
Definition TOOL_ARGS : gmap string value := {[ "location" := VStr "Paris" ]}.
Definition TOOL_RESULT : gmap string value :=
  {[ "temp" := VInt 18; "unit" := VStr "celsius" ]}.
Definition USER_QUERY : string := "What's the weather in Paris?".

(** [bool(v)] *)
Definition truthy (v : value) : bool :=
  match v with
  | VNone => false
  | VBool b => b
  | VInt z => negb (z =? 0)%Z
  | VStr s => PyStr.truthy s
  | VList l => match l with [] => false | _ :: _ => true end
  | VDict d => (0 <? size d)%nat
  end.

(** [type(v).__name__] *)
Definition type_name (v : value) : string :=
  match v with
  | VNone => "NoneType"
  | VBool _ => "bool"
  | VInt _ => "int"
  | VStr _ => "str"
  | VList _ => "list"
  | VDict _ => "dict"
  end.

Definition AttributeError (v : value) (attr : string) : exn :=
  {| exn_class := OtherException;
     exn_msg := "'" +:+ type_name v +:+ "' object has no attribute '"
                +:+ attr +:+ "'" |}.

Definition TypeError_not_iterable (v : value) : exn :=
  {| exn_class := OtherException;
     exn_msg := "'" +:+ type_name v +:+ "' object is not iterable" |}.

Definition IndexError : exn :=
  {| exn_class := OtherException; exn_msg := "list index out of range" |}.

(** [State(TypedDict, total=False)]: every key may be missing. *)
Record State : Type := {
  user_query : option string;
  agent_output : option (gmap string value);
  tool_result : option (gmap string value);
  messages : option (list value)
}.

Definition empty_state : State :=
  {| user_query := None; agent_output := None; tool_result := None;
     messages := None |}.

(** A piece of a printed line: literal text (or a [str] formatted as it
    is), [repr] of a [str], an integer, or [str] of a value. *)
Inductive Piece : Type :=
  | Lit (s : string)
  | Repr (s : string)
  | Num (n : Z)
  | Shown (v : value).

(** The chat-completion request and the objects of the response. *)
Record LLMRequest : Type := {
  req_base_url : string;
  req_api_key : string;
  req_model : string;
  req_content : string
}.

Record FunctionCall : Type := { fn_name : string; fn_arguments : string }.
Record ToolCall : Type := { tc_id : string; tc_function : FunctionCall }.
Record Message : Type := {
  content : option string;
  tool_calls : option (list ToolCall)
}.
Record ChatCompletion : Type := {
  choices : list Message;
  model : string
}.

(** What a run can be observed to do: the lines it printed and the
    requests it made to the LLM. *)
Record Console : Type := {
  printed : list (list Piece);
  llm_requests : list LLMRequest
}.

Definition say (line : list Piece) : M Console unit :=
  modify (fun c =>
    {| printed := printed c ++ [line]; llm_requests := llm_requests c |}).

Definition lift {S A} (o : outcome A) : M S A := fun s => (o, s).

Fixpoint map_M {S A B} (f : A -> M S B) (l : list A) : M S (list B) :=
  match l with
  | [] => ret []
  | x :: rest => (y <- f x ;; ys <- map_M f rest ;; ret (y :: ys))%py
  end.

(** [(s[:n] + "...") if len(s) > n else s] *)
Definition snippet (n : nat) (s : string) : string :=
  if (n <? String.length s)%nat then PyStr.take n s +:+ "..." else s.

(** [s or other] for strings. *)
Definition str_or (s other : string) : string :=
  if PyStr.truthy s then s else other.

(** [v or other] for values. *)
Definition value_or (v other : value) : value :=
  if truthy v then v else other.

(** The synthetic tool call of lines 56 and 79. *)
Definition synthetic_tool_call : value :=
  VDict {[ "id" := VStr TOOL_CALL_ID; "name" := VStr TOOL_NAME;
           "arguments" := VDict TOOL_ARGS ]}.

(** The synthetic assistant message of [agent_node] (lines 77-81). *)
Definition synthetic_output : gmap string value :=
  {[ "content" := VStr ""; "tool_calls" := VList [synthetic_tool_call];
     "model" := VStr DEFAULT_MODEL ]}.

Section Nodes.
(** [os.environ]; the chat-completion call (lines 41-47: the import, the
    client and [client.chat.completions.create]); and [json.loads]. *)
Context (env : gmap string string).
Context (llm : LLMRequest -> outcome ChatCompletion).
Context (json_loads : string -> outcome value).

Definition create_completion (r : LLMRequest) : M Console ChatCompletion :=
  fun c =>
    (llm r, {| printed := printed c; llm_requests := llm_requests c ++ [r] |}).

(** One element of the list comprehension of line 57. *)
Definition convert_tool_call (tc : ToolCall) : M Console value :=
  (arguments <-
     lift (json_loads (str_or (fn_arguments (tc_function tc)) "{}")) ;;
   ret (VDict {[ "id" := VStr (tc_id tc);
                 "name" := VStr (fn_name (tc_function tc));
                 "arguments" := arguments ]}))%py.

(** [_call_local_llm_if_configured] *)
Definition _call_local_llm_if_configured (query : string)
  : M Console (option (gmap string value)) :=
  let base_url := PyStr.strip (environ_get env "OPENAI_BASE_URL") in
  if negb (PyStr.truthy base_url) then
    (say [Lit ("[workflow] Local LLM not configured "
               +:+ "(OPENAI_BASE_URL unset), using synthetic response")] ;;;
     ret None)%py
  else
    let query_snippet := snippet 80 query in
    (say [Lit "[workflow] Calling local LLM (OPENAI_BASE_URL=";
          Lit base_url; Lit ") for query: "; Lit query_snippet] ;;;
     try_excepts
       (let model := default "local" (env !! "OPENAI_MODEL") in
        resp <- create_completion
                  {| req_base_url := base_url;
                     req_api_key := default "lm-studio"
                                      (env !! "OPENAI_API_KEY");
                     req_model := model;
                     req_content := query |} ;;
        message <- lift (match choices resp with
                         | [] => Raise IndexError
                         | m :: _ => Return m
                         end) ;;
        let content := str_or (default "" (Workflow.content message)) "" in
        let tool_calls :=
          default [] (Workflow.tool_calls message) in
        let content_preview := snippet 200 content in
        say [Lit "[workflow] Local LLM response: model=";
             Lit (str_or (Workflow.model resp) model);
             Lit ", content_length=";
             Num (Z.of_nat (String.length content));
             Lit ", tool_calls="; Num (Z.of_nat (length tool_calls));
             Lit ", content_preview="; Repr content_preview] ;;;
        calls <- match tool_calls with
                 | [] => ret [synthetic_tool_call]
                 | _ :: _ => map_M convert_tool_call tool_calls
                 end ;;
        ret (Some ({[ "content" := VStr content;
                      "tool_calls" := VList calls;
                      "model" := VStr (str_or (Workflow.model resp)
                                              DEFAULT_MODEL) ]}
                   : gmap string value)))
       [(HException,
         fun e =>
           say [Lit "[workflow] Local LLM call failed: "; Lit (exn_msg e)] ;;;
           ret None)])%py.

(** [state.get("user_query") or USER_QUERY] *)
Definition query_of (state : State) : string :=
  str_or (default "" (user_query state)) USER_QUERY.

(** [agent_node]; the dictionary it returns has the one key
    [agent_output]. *)
Definition agent_node (state : State) : M Console State :=
  let query := query_of state in
  (say [Lit "[workflow] agent_node called, user_query=";
        Repr (snippet 80 query)] ;;;
   out <- _call_local_llm_if_configured query ;;
   ret {| user_query := None;
          agent_output := Some (default synthetic_output out);
          tool_result := None;
          messages := None |})%py.

(** [for tc in tool_calls]: what the loop iterates over. *)
Definition elements (v : value) : outcome (list value) :=
  match v with
  | VList l => Return l
  | VStr s => Return (map (fun c => VStr (String c EmptyString))
                          (list_ascii_of_string s))
  | VDict d => Return (map (fun kv => VStr (fst kv)) (map_to_list d))
  | _ => Raise (TypeError_not_iterable v)
  end.

(** [tc.get("name") == TOOL_NAME] on the result of the lookup. *)
Definition is_tool_name (name : option value) : bool :=
  match name with
  | Some (VStr s) => String.eqb s TOOL_NAME
  | _ => false
  end.

(** The loop of [tools_node] (lines 95-99): the arguments and the name of
    the first call whose name is [TOOL_NAME], if the loop meets one. *)
Fixpoint first_weather_call (calls : list value)
  : outcome (option (value * value)) :=
  match calls with
  | [] => Return None
  | tc :: rest =>
      match tc with
      | VDict d =>
          if is_tool_name (d !! "name") then
            Return (Some (value_or (default VNone (d !! "arguments"))
                                   (VDict TOOL_ARGS),
                          default (VStr TOOL_NAME) (d !! "name")))
          else first_weather_call rest
      | _ => Raise (AttributeError tc "get")
      end
  end.

(** [agent_out.get("tool_calls") or [{"name": ..., "arguments": ...}]] *)
Definition tool_calls_of (state : State) : value :=
  let agent_out := default ∅ (agent_output state) in
  value_or (default VNone (agent_out !! "tool_calls"))
           (VList [VDict {[ "name" := VStr TOOL_NAME;
                            "arguments" := VDict TOOL_ARGS ]}]).

(** [{**TOOL_RESULT, "location": args.get("location", "Paris")}] *)
Definition weather_result (args : value)
  : outcome (gmap string value) :=
  match args with
  | VDict a =>
      Return (<["location" := default (VStr "Paris") (a !! "location")]>
                TOOL_RESULT)
  | _ => Raise (AttributeError args "get")
  end.

(** [tools_node]; the dictionary it returns has the one key
    [tool_result]. *)
Definition tools_node (state : State) : M Console State :=
  (calls <- lift (elements (tool_calls_of state)) ;;
   found <- lift (first_weather_call calls) ;;
   let args := match found with
               | Some (a, _) => a
               | None => VDict TOOL_ARGS
               end in
   let tool_name := match found with
                    | Some (_, n) => n
                    | None => VStr TOOL_NAME
                    end in
   say [Lit "[workflow] tools_node called, tool="; Shown tool_name;
        Lit ", arguments="; Shown args] ;;;
   result <- lift (weather_result args) ;;
   ret {| user_query := None; agent_output := None;
          tool_result := Some result; messages := None |})%py.

(** What the compiled graph does with the dictionary a node returns:
    the keys it holds replace those of the state. *)
Definition update (state returned : State) : State :=
  {| user_query := from_option Some (user_query state) (user_query returned);
     agent_output :=
       from_option Some (agent_output state) (agent_output returned);
     tool_result :=
       from_option Some (tool_result state) (tool_result returned);
     messages := from_option Some (messages state) (messages returned) |}.

(** [build_graph().invoke(initial)] for the graph
    [START -> agent -> tools -> END]. *)
Definition invoke (initial : State) : M Console State :=
  (a <- agent_node initial ;;
   let state := update initial a in
   t <- tools_node state ;;
   ret (update state t))%py.

(** [run_one] *)
Definition run_one (query : option string) : M Console State :=
  invoke {| user_query := Some (str_or (default "" query) USER_QUERY);
            agent_output := None; tool_result := None; messages := None |}.

End Nodes.

End Workflow.

(** ** langgraph/agent_confident.py *)

Module Confident.

Section Nodes.
Context (env : gmap string string).
Context (llm : Workflow.LLMRequest -> outcome Workflow.ChatCompletion).
Context (json_loads : string -> outcome Workflow.value).

(** [agent_node]; the [@observe()] decorator adds tracing around the
    call, which is outside this model. *)
Definition agent_node (state : Workflow.State)
  : M Workflow.Console Workflow.State :=
  (Workflow.say [Workflow.Lit "[agent_confident] agent_node entered"] ;;;
   let query := Workflow.query_of state in
   out <- Workflow._call_local_llm_if_configured env llm json_loads query ;;
   ret {| Workflow.user_query := None;
          Workflow.agent_output :=
            Some (default Workflow.synthetic_output out);
          Workflow.tool_result := None;
          Workflow.messages := None |})%py.

(** The loop of [tools_node] (lines 66-69), which keeps the arguments
    only. *)
Fixpoint first_weather_args (calls : list Workflow.value)
  : outcome (option Workflow.value) :=
  match calls with
  | [] => Return None
  | tc :: rest =>
      match tc with
      | Workflow.VDict d =>
          if Workflow.is_tool_name (d !! "name") then
            Return (Some (Workflow.value_or
                            (default Workflow.VNone (d !! "arguments"))
                            (Workflow.VDict Workflow.TOOL_ARGS)))
          else first_weather_args rest
      | _ => Raise (Workflow.AttributeError tc "get")
      end
  end.

(** [tools_node], decorated like [agent_node]. *)
Definition tools_node (state : Workflow.State)
  : M Workflow.Console Workflow.State :=
  (Workflow.say [Workflow.Lit "[agent_confident] tools_node entered"] ;;;
   calls <- Workflow.lift (Workflow.elements (Workflow.tool_calls_of state)) ;;
   found <- Workflow.lift (first_weather_args calls) ;;
   let args := default (Workflow.VDict Workflow.TOOL_ARGS) found in
   result <- Workflow.lift (Workflow.weather_result args) ;;
   ret {| Workflow.user_query := None; Workflow.agent_output := None;
          Workflow.tool_result := Some result;
          Workflow.messages := None |})%py.

(** [run_one]: the same graph over the two nodes above. *)
Definition run_one (query : option string)
  : M Workflow.Console Workflow.State :=
  let initial :=
    {| Workflow.user_query :=
         Some (Workflow.str_or (default "" query) Workflow.USER_QUERY);
       Workflow.agent_output := None; Workflow.tool_result := None;
       Workflow.messages := None |} in
  (a <- agent_node initial ;;
   let state := Workflow.update initial a in
   t <- tools_node state ;;
   ret (Workflow.update state t))%py.

(** [_setup_tracing]: [None] when it returns, the message of the
    [ValueError] when it raises. *)
Definition _setup_tracing : option string :=
  if negb (PyStr.truthy (PyStr.strip (environ_get env "CONFIDENT_API_KEY")))
  then Some "Set CONFIDENT_API_KEY for Confident AI tracing."
  else None.

(** [main]: the exit status and the console it leaves.  The
    [ValueError] of [_setup_tracing] is printed as it is; an [Exception]
    of [run_one] is printed after [Failed: ]. *)
Definition main (c : Workflow.Console) : outcome unit * Workflow.Console :=
  match _setup_tracing with
  | Some message =>
      (Workflow.say [Workflow.Lit message] ;;; sys_exit 1)%py c
  | None =>
      try_excepts
        (run_one None ;;;
         Workflow.say [Workflow.Lit
           ("Confident AI trace (agent + tools spans) sent. "
            +:+ "Check the Observatory.")])%py
        [(HException,
          fun e =>
            (Workflow.say [Workflow.Lit "Failed: ";
                           Workflow.Lit (exn_msg e)] ;;;
             sys_exit 1)%py)]
        c
  end.

End Nodes.

End Confident.

(** ** The receiving side

    What a receiver does with a request body: the decoders of RFC 1951
    (DEFLATE), RFC 1950 (the zlib format, read by [zlib.decompress]) and
    RFC 1952 (the gzip format, read by [gzip.decompress]), each for a
    stream that is alone in its input. *)

Module RFC1951.

Local Open Scope N_scope.

(** The bits of a byte, least significant first (RFC 1951, 3.1.1). *)
Definition bits_of_byte (x : byte) : list bool :=
  map (N.testbit (Byte.to_N x)) [0; 1; 2; 3; 4; 5; 6; 7].

Definition bits_of_bytes (b : bytes) : list bool := flat_map bits_of_byte b.

(** [need n s]: the integer held in the next [n] bits, least significant
    bit first, and the bits after it. *)
Fixpoint need (n : nat) (s : list bool) : option (N * list bool) :=
  match n, s with
  | O, _ => Some (0, s)
  | S _, [] => None
  | S n', b :: s' =>
      match need n' s' with
      | Some (v, r) => Some (N.b2n b + 2 * v, r)
      | None => None
      end
  end.

(** What is left of the current byte is skipped. *)
Definition align (s : list bool) : list bool :=
  drop (length s mod 8)%nat s.

(** [n] whole bytes. *)
Fixpoint need_bytes (n : nat) (s : list bool) : option (bytes * list bool) :=
  match n with
  | O => Some ([], s)
  | S n' =>
      match need 8 s with
      | Some (v, r) =>
          match Byte.of_N v, need_bytes n' r with
          | Some x, Some (xs, r') => Some (x :: xs, r')
          | _, _ => None
          end
      | None => None
      end
  end.

(** A canonical Huffman code (RFC 1951, 3.2.2): [count] gives the number
    of codes of each length from 1 to 15, [symbol] the symbols in the
    order of their codes. *)
Record Huffman : Type := {
  count : list N;
  symbol : list N
}.

Definition code_lengths : list N := [1; 2; 3; 4; 5; 6; 7; 8; 9; 10; 11; 12; 13; 14; 15].

Definition symbols_of_length (lengths : list N) (len : N) : list N :=
  omap (fun '(i, l) => if l =? len then Some (N.of_nat i) else None)
       (imap pair lengths).

Definition construct (lengths : list N) : Huffman :=
  {| count := map (fun len => N.of_nat (length (symbols_of_length lengths len)))
                  code_lengths;
     symbol := flat_map (symbols_of_length lengths) code_lengths |}.

(** The code words still free after each length: [None] when the
    lengths ask for more code words than there are. *)
Fixpoint left_over (counts : list N) (free : N) : option N :=
  match counts with
  | [] => Some free
  | c :: rest => if 2 * free <? c then None else left_over rest (2 * free - c)
  end.

Definition complete (h : Huffman) : bool :=
  match left_over (count h) 1 with Some 0 => true | _ => false end.

(** A set of lengths is accepted when its code is complete, or when no
    code is longer than one bit (a single code, or none at all). *)
Definition usable (h : Huffman) : bool :=
  match left_over (count h) 1 with
  | Some 0 => true
  | Some _ =>
      match count h with
      | _ :: longer => forallb (N.eqb 0) longer
      | [] => false
      end
  | None => false
  end.

Fixpoint decode_from (counts symbols : list N) (code first index : N)
    (s : list bool) : option (N * list bool) :=
  match counts, s with
  | cnt :: rest, b :: s' =>
      let code := code + N.b2n b in
      if code <? first + cnt then
        match symbols !! N.to_nat (index + (code - first)) with
        | Some sym => Some (sym, s')
        | None => None
        end
      else decode_from rest symbols (2 * code) (2 * (first + cnt))
                       (index + cnt) s'
  | _, _ => None
  end.

Definition decode (h : Huffman) (s : list bool) : option (N * list bool) :=
  decode_from (count h) (symbol h) 0 0 0 s.

(** Base values and extra bits of the length and distance codes
    (RFC 1951, 3.2.5). *)
Definition lbase : list N :=
  [3; 4; 5; 6; 7; 8; 9; 10; 11; 13; 15; 17; 19; 23; 27; 31; 35; 43; 51; 59;
   67; 83; 99; 115; 131; 163; 195; 227; 258].
Definition lext : list nat :=
  [0; 0; 0; 0; 0; 0; 0; 0; 1; 1; 1; 1; 2; 2; 2; 2; 3; 3; 3; 3; 4; 4; 4; 4;
   5; 5; 5; 5; 0]%nat.
Definition dbase : list N :=
  [1; 2; 3; 4; 5; 7; 9; 13; 17; 25; 33; 49; 65; 97; 129; 193; 257; 385; 513;
   769; 1025; 1537; 2049; 3073; 4097; 6145; 8193; 12289; 16385; 24577].
Definition dext : list nat :=
  [0; 0; 0; 0; 1; 1; 2; 2; 3; 3; 4; 4; 5; 5; 6; 6; 7; 7; 8; 8; 9; 9; 10; 10;
   11; 11; 12; 12; 13; 13]%nat.

(** A base value followed by its extra bits. *)
Definition extended (base : list N) (ext : list nat) (i : N) (s : list bool)
  : option (N * list bool) :=
  match base !! N.to_nat i, ext !! N.to_nat i with
  | Some b, Some e =>
      match need e s with
      | Some (x, r) => Some (b + x, r)
      | None => None
      end
  | _, _ => None
  end.

(** [len] bytes repeated from [dist] bytes back; [out] is the output so
    far, last byte first. *)
Fixpoint copy (len : nat) (dist : nat) (out : bytes) : option bytes :=
  match len with
  | O => Some out
  | S len' =>
      match out !! pred dist with
      | Some x => copy len' dist (x :: out)
      | None => None
      end
  end.

(** The symbols of a compressed block, up to its end-of-block symbol. *)
Fixpoint codes (fuel : nat) (lencode distcode : Huffman) (s : list bool)
    (out : bytes) : option (bytes * list bool) :=
  match fuel with
  | O => None
  | S fuel' =>
      match decode lencode s with
      | None => None
      | Some (sym, s1) =>
          match Byte.of_N sym with
          | Some x => codes fuel' lencode distcode s1 (x :: out)
          | None =>
              if sym =? 256 then Some (out, s1)
              else
                match extended lbase lext (sym - 257) s1 with
                | None => None
                | Some (len, s2) =>
                    match decode distcode s2 with
                    | None => None
                    | Some (dsym, s3) =>
                        match extended dbase dext dsym s3 with
                        | None => None
                        | Some (dist, s4) =>
                            match copy (N.to_nat len) (N.to_nat dist) out with
                            | Some out' => codes fuel' lencode distcode s4 out'
                            | None => None
                            end
                        end
                    end
                end
          end
      end
  end.

Definition fixed_lencode : Huffman :=
  construct (replicate 144 8 ++ replicate 112 9 ++ replicate 24 7
             ++ replicate 8 8).
Definition fixed_distcode : Huffman := construct (replicate 30 5).

(** The order in which the lengths of the code length code are stored
    (RFC 1951, 3.2.7). *)
Definition order : list nat :=
  [16; 17; 18; 0; 8; 7; 9; 6; 10; 5; 11; 4; 12; 3; 13; 2; 14; 1; 15]%nat.

Fixpoint need_each (k : nat) (n : nat) (s : list bool)
  : option (list N * list bool) :=
  match n with
  | O => Some ([], s)
  | S n' =>
      match need k s with
      | Some (v, r) =>
          match need_each k n' r with
          | Some (vs, r') => Some (v :: vs, r')
          | None => None
          end
      | None => None
      end
  end.

(** The code length code, from the lengths stored for the first symbols
    of [order]; the other symbols have length 0. *)
Definition code_length_code (stored : list N) : Huffman :=
  construct (foldl (fun lengths '(sym, len) => <[sym := len]> lengths)
                   (replicate 19 0) (zip order stored)).

(** The [total] code lengths of a dynamic block; [acc] holds those read
    so far, last first. *)
Fixpoint read_lengths (fuel : nat) (lencode : Huffman) (total : nat)
    (acc : list N) (s : list bool) : option (list N * list bool) :=
  if decide (length acc = total) then Some (rev acc, s)
  else
    match fuel with
    | O => None
    | S fuel' =>
        match decode lencode s with
        | None => None
        | Some (sym, s1) =>
            if sym <? 16 then read_lengths fuel' lencode total (sym :: acc) s1
            else
              let repeated (len : N) (base : N) (extra : nat) :=
                match need extra s1 with
                | None => None
                | Some (x, s2) =>
                    let n := N.to_nat (base + x) in
                    if decide (length acc + n <= total)%nat
                    then read_lengths fuel' lencode total
                                      (replicate n len ++ acc) s2
                    else None
                end in
              if sym =? 16 then
                match acc with
                | [] => None
                | last :: _ => repeated last 3 2%nat
                end
              else if sym =? 17 then repeated 0 3 3%nat
              else repeated 0 11 7%nat
        end
    end.

Definition dynamic (s : list bool) (out : bytes) : option (bytes * list bool) :=
  hdr ← need 5 s; let '(nlen, s) := hdr in
  hdr ← need 5 s; let '(ndist, s) := hdr in
  hdr ← need 4 s; let '(ncode, s) := hdr in
  let nlen := N.to_nat (nlen + 257) in
  let ndist := N.to_nat (ndist + 1) in
  let ncode := N.to_nat (ncode + 4) in
  if decide (286 < nlen \/ 30 < ndist)%nat then None
  else
    hdr ← need_each 3 ncode s; let '(stored, s) := hdr in
    let clc := code_length_code stored in
    if negb (complete clc) then None
    else
      hdr ← read_lengths (nlen + ndist) clc (nlen + ndist) [] s;
      let '(lengths, s) := hdr in
      let lencode := construct (take nlen lengths) in
      let distcode := construct (drop nlen lengths) in
      match lengths !! 256%nat with
      | Some 0 | None => None
      | Some _ =>
          if usable lencode && usable distcode
          then codes (S (length s)) lencode distcode s out
          else None
      end.

Definition stored (s : list bool) (out : bytes) : option (bytes * list bool) :=
  let s := align s in
  hdr ← need 16 s; let '(len, s) := hdr in
  hdr ← need 16 s; let '(nlen, s) := hdr in
  if negb (len + nlen =? 65535) then None
  else
    hdr ← need_bytes (N.to_nat len) s; let '(b, s) := hdr in
    Some (rev b ++ out, s).

(** The blocks of a stream, up to its final one (RFC 1951, 3.2.3). *)
Fixpoint blocks (fuel : nat) (s : list bool) (out : bytes)
  : option (bytes * list bool) :=
  match fuel with
  | O => None
  | S fuel' =>
      match s with
      | final :: t0 :: t1 :: s1 =>
          let block :=
            match t1, t0 with
            | false, false => stored s1 out
            | false, true => codes (S (length s1)) fixed_lencode fixed_distcode
                                   s1 out
            | true, false => dynamic s1 out
            | true, true => None
            end in
          match block with
          | Some (out', s2) =>
              if final then Some (out', s2) else blocks fuel' s2 out'
          | None => None
          end
      | _ => None
      end
  end.

(** The data a DEFLATE stream holds, and the bits after its final
    block. *)
Definition inflate (s : list bool) : option (bytes * list bool) :=
  match blocks (S (length s)) s [] with
  | Some (out, r) => Some (rev out, r)
  | None => None
  end.

End RFC1951.

(** Check values (RFC 1950, 8.2 and RFC 1952, 8). *)
Definition adler32 (b : bytes) : N :=
  let '(s1, s2) :=
    foldl (fun '(s1, s2) x =>
             let s1 := ((s1 + Byte.to_N x) mod 65521)%N in
             (s1, ((s2 + s1) mod 65521)%N))
          (1%N, 0%N) b in
  (s2 * 65536 + s1)%N.

Definition crc32_step (c : N) : N :=
  if N.testbit c 0 then N.lxor (N.shiftr c 1) 3988292384 else N.shiftr c 1.

Definition crc32 (b : bytes) : N :=
  N.lxor
    (foldl (fun c x => Nat.iter 8 crc32_step (N.lxor c (Byte.to_N x)))
           4294967295%N b)
    4294967295%N.

Module RFC1950.
Local Open Scope N_scope.

(** [zlib.decompress]: RFC 1950, for a stream that is alone in its
    input. *)
Definition decompress (body : bytes) : option bytes :=
  match body with
  | cmf :: flg :: data =>
      let c := Byte.to_N cmf in
      let f := Byte.to_N flg in
      if (c mod 16 =? 8) && (c / 16 <=? 7) && ((256 * c + f) mod 31 =? 0)
         && negb (N.testbit f 5)
      then
        match RFC1951.inflate (RFC1951.bits_of_bytes data) with
        | Some (out, s) =>
            match RFC1951.need_bytes 4 (RFC1951.align s) with
            | Some (check, []) =>
                if decide (foldl (fun v x => 256 * v + Byte.to_N x) 0 check
                           = adler32 out)
                then Some out else None
            | _ => None
            end
        | None => None
        end
      else None
  | _ => None
  end.

End RFC1950.

Module RFC1952.
Local Open Scope N_scope.

Fixpoint after_zero (b : bytes) : option bytes :=
  match b with
  | [] => None
  | x :: b' => if Byte.eqb x x00 then Some b' else after_zero b'
  end.

Definition skip_if (flag : bool) (skip : bytes -> option bytes) (b : bytes)
  : option bytes :=
  if flag then skip b else Some b.

Definition extra_field (b : bytes) : option bytes :=
  match b with
  | lo :: hi :: b' =>
      let n := N.to_nat (Byte.to_N lo + 256 * Byte.to_N hi) in
      if decide (n <= length b')%nat then Some (drop n b') else None
  | _ => None
  end.

(** [gzip.decompress]: RFC 1952, for a single member that is alone in
    its input. *)
Definition decompress (body : bytes) : option bytes :=
  match body with
  | id1 :: id2 :: cm :: flg :: _ :: _ :: _ :: _ :: _ :: _ :: b0 =>
      let f := Byte.to_N flg in
      if Byte.eqb id1 x1f && Byte.eqb id2 x8b && Byte.eqb cm x08 && (f <? 32)
      then
        b1 ← skip_if (N.testbit f 2) extra_field b0;
        b2 ← skip_if (N.testbit f 3) after_zero b1;
        b3 ← skip_if (N.testbit f 4) after_zero b2;
        b4 ← skip_if (N.testbit f 1)
               (fun b =>
                  match b with
                  | lo :: hi :: b' =>
                      if decide (Byte.to_N lo + 256 * Byte.to_N hi
                                 = crc32 (take (length body - length b3) body)
                                   mod 65536)
                      then Some b' else None
                  | _ => None
                  end) b3;
        match RFC1951.inflate (RFC1951.bits_of_bytes b4) with
        | Some (out, s) =>
            let s := RFC1951.align s in
            hdr ← RFC1951.need 32 s; let '(crc, s) := hdr in
            hdr ← RFC1951.need 32 s; let '(isize, s) := hdr in
            if decide (crc = crc32 out
                       /\ isize = N.of_nat (length out) mod 4294967296
                       /\ s = [])
            then Some out else None
        | None => None
        end
      else None
  | _ => None
  end.

End RFC1952.

(** The decoder that goes with each [Content-Encoding]. *)
Definition wire_decode (c : Compression) (body : bytes) : option bytes :=
  match c with
  | NoCompression => Some body
  | Gzip => RFC1952.decompress body
  | Deflate => RFC1950.decompress body
  end.


(** ** Compression level 0

    The codecs as they behave at compression level 0, for a payload
    shorter than 64 KiB: the payload in one stored block (RFC 1951,
    3.2.4), in the zlib wrapper as [zlib.compress(b, 0)] gives it and in
    the gzip wrapper as [GzipFile(..., compresslevel=0, mtime=0)] gives
    it. *)

(** [n] bytes of [v], least significant first. *)
Fixpoint le (n : nat) (v : N) : bytes :=
  match n with
  | O => []
  | S n' => default x00 (Byte.of_N (v mod 256)) :: le n' (v / 256)
  end.

Definition stored_block (b : bytes) : bytes :=
  let len := N.of_nat (length b) in
  (x01 :: le 2 len ++ le 2 (65535 - len) ++ b)%list.

Definition level0 : Codecs := {|
  gzip_write b :=
    ([x1f; x8b; x08; x00; x00; x00; x00; x00; x00; xff] ++ stored_block b
     ++ le 4 (crc32 b) ++ le 4 (N.of_nat (length b)))%list;
  zlib_compress b :=
    ([x78; x01] ++ stored_block b ++ rev (le 4 (adler32 b)))%list
|}.


(** ** Observations and concrete inputs *)

(** The requests a computation adds to the network's record. *)
Definition sent {A} (m : M World A) (w : World) : list Request :=
  drop (length (calls w)) (calls (snd (m w))).

(** The log records a computation emits. *)
Definition logged {A} (m : M World A) (w : World) : list LogRecord :=
  drop (length (records w)) (records (snd (m w))).

(** A fresh world whose network answers its n-th request with the n-th
    element of [answers], and with [otherwise] once they are used up. *)
Definition world_of (answers : list (outcome Response))
    (otherwise : outcome Response) : World :=
  {| script n := nth n answers otherwise; calls := []; records := [] |}.

Definition sdk_defaults : SdkSettings :=
  {| sdk_headers := ∅;
     sdk_compression := NoCompression;
     sdk_timeout := QArith_base.Qmake 10 1;
     sdk_client_cert := None |}.

Definition connection_refused : exn :=
  {| exn_class := ConnectionError; exn_msg := "Connection refused" |}.

Definition read_timed_out : exn :=
  {| exn_class := ReadTimeout; exn_msg := "Read timed out." |}.

Definition interrupted : exn :=
  {| exn_class := KeyboardInterrupt; exn_msg := "" |}.

Definition service_unavailable (body : string) : Response :=
  {| status_code := 503; reason := "Service Unavailable"; text := body;
     ok := false |}.

Definition accepted : Response :=
  {| status_code := 200; reason := "OK"; text := ""; ok := true |}.

(** [n] copies of a character. *)
Fixpoint replicate_char (n : nat) (c : ascii) : string :=
  match n with
  | O => EmptyString
  | S k => String c (replicate_char k c)
  end.

(** An exporter that replays a list of outcomes, one per [export] call
    ([SUCCESS] once the list is used up), and counts the calls it gets. *)
Record Scripted : Type := {
  pending : list (outcome SpanExportResult);
  exported : nat;
  flushed : nat;
  closed : bool
}.

Definition scripted_export (spans : list ReadableSpan)
  : M Scripted SpanExportResult :=
  fun s =>
    (match pending s with [] => Return SUCCESS | o :: _ => o end,
     {| pending := tail (pending s); exported := S (exported s);
        flushed := flushed s; closed := closed s |}).

Definition scripted_shutdown : M Scripted unit :=
  fun s =>
    (Return tt,
     {| pending := pending s; exported := exported s;
        flushed := flushed s; closed := true |}).

Definition scripted_force_flush (timeout_millis : Z) : M Scripted bool :=
  fun s =>
    (Return (0 <? timeout_millis)%Z,
     {| pending := pending s; exported := exported s;
        flushed := S (flushed s); closed := closed s |}).

#[global] Instance Scripted_exporter : SpanExporter Scripted := {|
  export := scripted_export;
  shutdown := scripted_shutdown;
  force_flush := scripted_force_flush
|}.

Definition scripted (outcomes : list (outcome SpanExportResult)) : Scripted :=
  {| pending := outcomes; exported := 0; flushed := 0; closed := false |}.

(** The resolution order in the words of the specification: the explicit
    value when non-empty, as it is; else the generic value, when
    non-empty, without its trailing slashes and with [/v1/traces]
    appended; else the default. *)
Definition endpoint_as_specified (env : gmap string string) : string :=
  let traces := environ_get env "OTEL_EXPORTER_OTLP_TRACES_ENDPOINT" in
  if PyStr.truthy traces then traces
  else
    let generic := environ_get env "OTEL_EXPORTER_OTLP_ENDPOINT" in
    if PyStr.truthy generic
    then PyStr.rstrip_char "/"%char generic +:+ "/v1/traces"
    else DEFAULT_TRACES_ENDPOINT.

(** The fields of a tracking exporter that a client can read. *)
Definition recorded {D} (t : Root.TrackingSpanExporter D)
  : option SpanExportResult * option exn :=
  (Root.last_result t, Root.last_error t).


(** The outcome the network has in store for the [k]-th request from
    now: [answer w 0] is what the next attempt gets, [answer w 1] what an
    attempt right after it gets. *)
Definition answer (w : World) (k : nat) : outcome Response :=
  script w (length (calls w) + k).

(** Whether an attempt's outcome is a connection error. *)
Definition connection_failed (o : outcome Response) : bool :=
  match o with
  | Raise e => isinstance e HConnectionError
  | Return _ => false
  end.

(** The record [Langgraph._export] logs for a response that is not ok. *)
Definition http_error_record (self : OTLPSpanExporter) (body : bytes)
    (resp : Response) : LogRecord :=
  {| levelname := ERROR;
     msg := "OTLP trace export HTTP error: status=%s reason=%s url=%s "
            +:+ "request_content_length=%s response_body=%s";
     args := [AInt (status_code resp); AStr (reason resp);
              AStr (_endpoint self); AInt (Z.of_nat (length body));
              AStr (Langgraph.body_preview (text resp))];
     exc_info := false |}.

(** A producer for concrete runs: one batch is exported, an exception of
    that export is dropped (the batch processor's worker catches it),
    and the exporter is shut down. *)
Definition flush_and_shutdown {S} `{SpanExporter S}
    (batch : list ReadableSpan) : M S unit :=
  (try_excepts (export batch ;;; ret tt) [(HException, fun _ => ret tt)] ;;;
   shutdown)%py.

(** The same at the host of agent_otel.py, after the line [run_one]
    prints first. *)
Definition run_and_shutdown {D} `{SpanExporter D}
    (batch : list ReadableSpan) : M (@Langgraph.Host D) unit :=
  (Langgraph.print "[agent_otel] run_one starting" ;;;
   Langgraph.on_exporter (flush_and_shutdown batch))%py.

(** The batch of the reference producer: a chat span and the
    execute_tool span nested in it. *)
Definition reference_batch : list ReadableSpan :=
  [ {| span_name := "execute_tool get_weather"; span_kind := INTERNAL;
       span_attributes := [("gen_ai.operation.name", "execute_tool");
                           ("gen_ai.tool.name", "get_weather")] |};
    {| span_name := "chat gpt-4o"; span_kind := CLIENT;
       span_attributes := [("gen_ai.operation.name", "chat");
                           ("gen_ai.request.model", "gpt-4o")] |} ].

(** The exporter both hosts build from the environment
    (otel_llm_log.py, lines 156-158; agent_otel.py, [_setup_tracing],
    lines 33-35): [endpoint = get_endpoint()], [headers = get_headers()],
    [create_otlp_exporter_no_ssl(endpoint, headers or None)]. *)
Definition exporter_from_env (sdk : SdkSettings)
    (parse_env_headers : string -> gmap string string)
    (env : gmap string string) : OTLPSpanExporter :=
  let endpoint := get_endpoint env in
  let headers := get_headers parse_env_headers env in
  create_otlp_exporter_no_ssl sdk endpoint (or_None (Some headers)).

(** A console on which nothing has happened yet. *)
Definition fresh_console : Workflow.Console :=
  {| Workflow.printed := []; Workflow.llm_requests := [] |}.

(** One console after another: what both printed and requested, in
    order. *)
Definition console_app (c d : Workflow.Console) : Workflow.Console :=
  {| Workflow.printed := Workflow.printed c ++ Workflow.printed d;
     Workflow.llm_requests :=
       Workflow.llm_requests c ++ Workflow.llm_requests d |}.

(** A computation only adds to the console: run from any console, it
    gives the result it gives from a fresh one and appends what it prints
    and requests there to what the console already holds. *)
Definition appends_only {A} (m : M Workflow.Console A) : Prop :=
  forall c,
    m c = (fst (m fresh_console), console_app c (snd (m fresh_console))).

(** An LLM endpoint that is down, one that answers with the given tool
    calls, and a [json.loads] that knows three documents. *)
Definition llm_down (r : Workflow.LLMRequest)
  : outcome Workflow.ChatCompletion :=
  Raise connection_refused.

Definition llm_answering (calls : list Workflow.ToolCall)
    (r : Workflow.LLMRequest) : outcome Workflow.ChatCompletion :=
  Return {| Workflow.choices :=
              [ {| Workflow.content := None;
                   Workflow.tool_calls := Some calls |} ];
            Workflow.model := "local-model" |}.

Definition quote : string := String "034"%char EmptyString.

Definition oslo_document : string :=
  "{" +:+ quote +:+ "location" +:+ quote +:+ ": "
  +:+ quote +:+ "Oslo" +:+ quote +:+ "}".

Definition json_loads_sample (s : string) : outcome Workflow.value :=
  if String.eqb s "{}" then Return (Workflow.VDict ∅)
  else if String.eqb s oslo_document
  then Return (Workflow.VDict {[ "location" := Workflow.VStr "Oslo" ]})
  else if String.eqb s "[1]"
  then Return (Workflow.VList [Workflow.VInt 1])
  else Raise {| exn_class := OtherException;
                exn_msg := "Expecting value: line 1 column 1 (char 0)" |}.

(** A tool call as the agent node hands it on: a dictionary with an id,
    a name and arguments. *)
Definition is_tool_call (v : Workflow.value) : Prop :=
  exists d i n a,
    v = Workflow.VDict d
    /\ d !! "id" = Some (Workflow.VStr i)
    /\ d !! "name" = Some (Workflow.VStr n)
    /\ d !! "arguments" = Some a.

(** A tool call the loop of the tools node passes over: a dictionary
    whose name is not [TOOL_NAME]. *)
Definition is_other_call (v : Workflow.value) : Prop :=
  exists d, v = Workflow.VDict d
            /\ Workflow.is_tool_name (d !! "name") = false.

(** The dictionary a node returns, with its one key. *)
Definition agent_returns (d : gmap string Workflow.value) : Workflow.State :=
  {| Workflow.user_query := None; Workflow.agent_output := Some d;
     Workflow.tool_result := None; Workflow.messages := None |}.

Definition tools_returns (r : gmap string Workflow.value) : Workflow.State :=
  {| Workflow.user_query := None; Workflow.agent_output := None;
     Workflow.tool_result := Some r; Workflow.messages := None |}.

(** * Properties *)

(** ** Strings *)

Lemma rstrip_by_last (p : ascii -> bool) (s : string) (c : ascii) :
  PyStr.last s = Some c -> p c = false -> PyStr.rstrip_by p s = s.
Proof.
  induction s as [|a r IH]; intros Hl Hp; [done|].
  cbn [PyStr.rstrip_by]. destruct r as [|b r'].
  - cbn in Hl. injection Hl as ->. cbn. by rewrite Hp.
  - rewrite IH; [done| exact Hl | exact Hp].
Qed.

Lemma rstrip_by_no_trailing (p : ascii -> bool) (s : string) (c : ascii) :
  PyStr.last (PyStr.rstrip_by p s) = Some c -> p c = false.
Proof.
  induction s as [|a r IH]; [done|].
  cbn [PyStr.rstrip_by].
  destruct (PyStr.rstrip_by p r) as [|b r'] eqn:E.
  - cbn. destruct (p a) eqn:Ea; [done|]. cbn. by intros [= <-].
  - cbn [PyStr.is_empty andb]. intros Hl. apply IH. exact Hl.
Qed.

Lemma last_cons_Some (a : ascii) (r : string) :
  is_Some (PyStr.last (String a r)).
Proof.
  revert a. induction r as [|b r IH]; intros a; [by eexists|].
  change (PyStr.last (String a (String b r))) with (PyStr.last (String b r)).
  apply IH.
Qed.

Lemma strip_trimmed (s : string) :
  PyStr.trimmed s = true -> PyStr.strip s = s.
Proof.
  unfold PyStr.trimmed, PyStr.strip. destruct s as [|a r]; [done|].
  cbn [PyStr.head]. destruct (PyStr.last (String a r)) as [b|] eqn:El.
  - intros [Ha Hb]%andb_true_iff.
    apply negb_true_iff in Ha. apply negb_true_iff in Hb.
    rewrite (rstrip_by_last _ _ b El Hb). cbn. by rewrite Ha.
  - destruct (last_cons_Some a r) as [b Hb]. congruence.
Qed.

Lemma endswith_refl (s : string) : PyStr.endswith s s = true.
Proof. destruct s; cbn [PyStr.endswith]; by rewrite String.eqb_refl. Qed.

Lemma endswith_cons (c : ascii) (s suffix : string) :
  PyStr.endswith s suffix = true ->
  PyStr.endswith (String c s) suffix = true.
Proof. intros E. cbn [PyStr.endswith]. rewrite E. by case String.eqb. Qed.

Lemma endswith_app (a s suffix : string) :
  PyStr.endswith s suffix = true ->
  PyStr.endswith (a +:+ s) suffix = true.
Proof. intros E. induction a; [done|]. cbn. by apply endswith_cons. Qed.

Lemma truthy_false (s : string) : PyStr.truthy s = false <-> s = "".
Proof. by destruct s. Qed.

Lemma truthy_true (s : string) : PyStr.truthy s = true <-> s <> "".
Proof. by destruct s. Qed.

(** ** Endpoint resolution *)

(** An explicit value without surrounding whitespace is used as it is. *)
Lemma get_endpoint_explicit (env : gmap string string) (v : string) :
  env !! "OTEL_EXPORTER_OTLP_TRACES_ENDPOINT" = Some v ->
  v <> "" -> PyStr.trimmed v = true ->
  get_endpoint env = v.
Proof.
  intros Hv Hne Ht. unfold get_endpoint, environ_get. rewrite Hv.
  change (default "" (Some v)) with v. rewrite (strip_trimmed v Ht). by apply truthy_true in Hne as ->.
Qed.

(** C6 (as amended): the explicit traces value is used once stripped of
    surrounding whitespace, when that leaves something; otherwise the
    generic value, stripped of surrounding whitespace and then of its
    trailing slashes, is used when that leaves something, unchanged if it
    already ends with [v1/traces] and with [/v1/traces] appended if not;
    otherwise the default is used.  Whenever the explicit value is not
    used, the endpoint ends with [v1/traces]. *)
Theorem endpoint_resolution (env : gmap string string) :
  let traces :=
    PyStr.strip (environ_get env "OTEL_EXPORTER_OTLP_TRACES_ENDPOINT") in
  let base :=
    PyStr.rstrip_char "/"%char
      (PyStr.strip (environ_get env "OTEL_EXPORTER_OTLP_ENDPOINT")) in
  (traces <> "" -> get_endpoint env = traces) /\
  (traces = "" -> base <> "" -> PyStr.endswith base "v1/traces" = true ->
   get_endpoint env = base) /\
  (traces = "" -> base <> "" -> PyStr.endswith base "v1/traces" = false ->
   get_endpoint env = base +:+ "/v1/traces") /\
  (traces = "" -> base = "" -> get_endpoint env = DEFAULT_TRACES_ENDPOINT) /\
  (traces = "" -> PyStr.endswith (get_endpoint env) "v1/traces" = true).
Proof.
  intros traces base. unfold get_endpoint. fold traces. fold base.
  repeat split.
  - intros Ht%truthy_true. by rewrite Ht.
  - intros -> Hb%truthy_true E. cbn. by rewrite Hb, E.
  - intros -> Hb%truthy_true E. cbn. by rewrite Hb, E.
  - intros -> ->. done.
  - intros ->. cbn. destruct (PyStr.truthy base) eqn:Hb; cbn; [|done].
    destruct (PyStr.endswith base "v1/traces") eqn:E; [done|].
    by apply endswith_app.
Qed.

Lemma endpoint_resolution_witness :
  get_endpoint {[ "OTEL_EXPORTER_OTLP_ENDPOINT" := " http://collector:4318// " ]}
  = "http://collector:4318/v1/traces".
Proof.
  refine (eq_trans (proj1 (proj2 (proj2
    (endpoint_resolution
       {[ "OTEL_EXPORTER_OTLP_ENDPOINT" := " http://collector:4318// " ]})))
    _ _ _) _); vm_compute; done.
Defined.

(** C6 (as stated) fails: a generic value that already ends with
    [v1/traces] gets no second suffix, and an explicit value is not used
    as it is when whitespace surrounds it. *)
Lemma endpoint_as_specified_differs :
  let e1 : gmap string string :=
    {[ "OTEL_EXPORTER_OTLP_ENDPOINT" := "http://collector:4318/v1/traces" ]} in
  let e2 : gmap string string :=
    {[ "OTEL_EXPORTER_OTLP_TRACES_ENDPOINT" := " http://c/t " ]} in
  (get_endpoint e1 = "http://collector:4318/v1/traces"
   /\ endpoint_as_specified e1 = "http://collector:4318/v1/traces/v1/traces"
   /\ get_endpoint e1 <> endpoint_as_specified e1)
  /\ (get_endpoint e2 = "http://c/t"
      /\ endpoint_as_specified e2 = " http://c/t "
      /\ get_endpoint e2 <> endpoint_as_specified e2).
Proof. vm_compute. done. Qed.

(** ** Header resolution *)

Lemma header_string_lookup (env : gmap string string) :
  default (environ_get env "OTEL_EXPORTER_OTLP_HEADERS")
          (env !! "OTEL_EXPORTER_OTLP_TRACES_HEADERS")
  = header_string env.
Proof.
  unfold header_string, environ_get.
  destruct (env !! "OTEL_EXPORTER_OTLP_TRACES_HEADERS"); [done|].
  by destruct (env !! "OTEL_EXPORTER_OTLP_HEADERS").
Qed.

Lemma get_headers_unfold (parse : string -> gmap string string)
    (env : gmap string string) :
  get_headers parse env
  = if PyStr.truthy (header_string env) then parse (header_string env)
    else ∅.
Proof. unfold get_headers. by rewrite header_string_lookup. Qed.

(** C9: for a parser that maps the empty string to the empty mapping (as
    the library's does), the header mapping is the parse of the header
    string, which is the traces-specific variable when it is set and the
    generic one otherwise; it is empty when each of the two variables is
    unset or empty. *)
Theorem headers_resolution (parse : string -> gmap string string)
    (env : gmap string string) :
  parse "" = ∅ ->
  get_headers parse env = parse (header_string env)
  /\ (forall v, env !! "OTEL_EXPORTER_OTLP_TRACES_HEADERS" = Some v ->
      header_string env = v)
  /\ (env !! "OTEL_EXPORTER_OTLP_TRACES_HEADERS" = None ->
      header_string env = environ_get env "OTEL_EXPORTER_OTLP_HEADERS")
  /\ (env !! "OTEL_EXPORTER_OTLP_TRACES_HEADERS" = None
        \/ env !! "OTEL_EXPORTER_OTLP_TRACES_HEADERS" = Some "" ->
      env !! "OTEL_EXPORTER_OTLP_HEADERS" = None
        \/ env !! "OTEL_EXPORTER_OTLP_HEADERS" = Some "" ->
      get_headers parse env = ∅).
Proof.
  intros Hparse. rewrite get_headers_unfold. unfold header_string, environ_get.
  repeat split.
  - destruct (PyStr.truthy _) eqn:E; [done|].
    apply truthy_false in E. by rewrite E.
  - by intros v ->.
  - by intros ->.
  - intros [HT | HT] [HG | HG]; rewrite HT, ?HG; done.
Qed.

Lemma headers_resolution_witness :
  get_headers parse_pairs
    {[ "OTEL_EXPORTER_OTLP_HEADERS" := "api-key=secret,x-team=obs" ]}
  = {[ "api-key" := "secret"; "x-team" := "obs" ]}.
Proof.
  rewrite (proj1 (headers_resolution parse_pairs
    {[ "OTEL_EXPORTER_OTLP_HEADERS" := "api-key=secret,x-team=obs" ]}
    eq_refl)).
  vm_compute. reflexivity.
Defined.

(** The traces-specific variable wins whenever it is set, even to the
    empty string. *)
Example headers_precedence :
  get_headers parse_pairs
    {[ "OTEL_EXPORTER_OTLP_TRACES_HEADERS" := "a=1";
       "OTEL_EXPORTER_OTLP_HEADERS" := "b=2" ]} = {[ "a" := "1" ]}
  /\ get_headers parse_pairs
       {[ "OTEL_EXPORTER_OTLP_TRACES_HEADERS" := "";
          "OTEL_EXPORTER_OTLP_HEADERS" := "b=2" ]} = ∅.
Proof. split; vm_compute; reflexivity. Qed.

(** ** The delivery client *)

Section Delivery.
Context (z : Codecs) (self : OTLPSpanExporter).
Context (serialized_data : bytes) (timeout_sec : option seconds).

Let body : bytes := compress z (_compression self) serialized_data.
Let req : Request :=
  post_request self body (default (_timeout self) timeout_sec).

Lemma root_export_run (w : World) :
  Root._export z self serialized_data timeout_sec w
  = if connection_failed (answer w 0)
    then (answer w 1,
          {| script := script w; calls := (calls w ++ [req; req])%list;
             records := records w |})
    else (answer w 0,
          {| script := script w; calls := (calls w ++ [req])%list;
             records := records w |}).
Proof.
  unfold Root._export, try_excepts, session_post, answer, connection_failed.
  rewrite Nat.add_0_r. fold body. fold req. cbn [script calls records].
  destruct (script w (length (calls w))) as [r|e]; [done|].
  cbn [dispatch]. destruct (isinstance e HConnectionError); [|done].
  cbn [script calls records]. rewrite length_app. cbn [length].
  by rewrite <- app_assoc.
Qed.

Lemma langgraph_export_return (w : World) (resp : Response) :
  answer w 0 = Return resp ->
  Langgraph._export z self serialized_data timeout_sec w
  = (Return resp,
     {| script := script w; calls := (calls w ++ [req])%list;
        records := (records w ++
                    if ok resp then []
                    else [http_error_record self body resp])%list |}).
Proof.
  unfold answer. rewrite Nat.add_0_r. intros E.
  unfold Langgraph._export, try_excepts, bind, session_post.
  fold body. fold req. rewrite E.
  destruct (ok resp); cbn; [by rewrite app_nil_r | done].
Qed.

Lemma langgraph_export_raise (w : World) (e : exn) :
  answer w 0 = Raise e ->
  fst (Langgraph._export z self serialized_data timeout_sec w) = Raise e
  /\ calls (snd (Langgraph._export z self serialized_data timeout_sec w))
     = (calls w ++ [req])%list.
Proof.
  unfold answer. rewrite Nat.add_0_r. intros E.
  unfold Langgraph._export, try_excepts, bind, session_post.
  fold body. fold req. rewrite E. cbn [dispatch].
  destruct (isinstance e HTimeout); [done|].
  destruct (isinstance e HConnectionError); [done|].
  destruct (isinstance e HRequestException); [done|].
  destruct (isinstance e HException); done.
Qed.

Lemma root_export_sent (w : World) :
  sent (Root._export z self serialized_data timeout_sec) w
  = if connection_failed (answer w 0) then [req; req] else [req].
Proof.
  unfold sent. rewrite root_export_run.
  destruct (connection_failed _); cbn [snd calls]; by rewrite drop_app_length.
Qed.

Lemma langgraph_export_sent (w : World) :
  sent (Langgraph._export z self serialized_data timeout_sec) w = [req].
Proof.
  unfold sent. destruct (answer w 0) as [r|e] eqn:E.
  - rewrite (langgraph_export_return w r E). cbn [snd calls].
    by rewrite drop_app_length.
  - destruct (langgraph_export_raise w e E) as [_ ->].
    by rewrite drop_app_length.
Qed.

Lemma langgraph_export_outcome (w : World) :
  fst (Langgraph._export z self serialized_data timeout_sec w) = answer w 0.
Proof.
  destruct (answer w 0) as [r|e] eqn:E.
  - by rewrite (langgraph_export_return w r E).
  - by destruct (langgraph_export_raise w e E) as [-> _].
Qed.

End Delivery.

(** C1 (as amended): a send makes at most two requests.  The exporter of
    otel_llm_log.py repeats its request once, unchanged and at once, when
    and only when the first attempt raised a connection error, and what
    the caller gets is then the outcome of the second attempt, be it a
    response or an exception; in every other case the caller gets the
    outcome of the single attempt.  The exporter of
    langgraph/otel_export.py always makes exactly one request and gives
    the caller the outcome of that attempt: a connection error is raised
    again without a retry. *)
Theorem delivery_attempts (z : Codecs) (self : OTLPSpanExporter)
    (serialized_data : bytes) (timeout_sec : option seconds) (w : World) :
  let req :=
    post_request self (compress z (_compression self) serialized_data)
      (default (_timeout self) timeout_sec) in
  let root := Root._export z self serialized_data timeout_sec in
  let langgraph := Langgraph._export z self serialized_data timeout_sec in
  sent root w = (if connection_failed (answer w 0) then [req; req] else [req])
  /\ fst (root w)
     = (if connection_failed (answer w 0) then answer w 1 else answer w 0)
  /\ sent langgraph w = [req]
  /\ fst (langgraph w) = answer w 0
  /\ (length (sent root w) <= 2)%nat
  /\ (length (sent langgraph w) <= 2)%nat.
Proof.
  intros req root langgraph. subst root langgraph.
  rewrite root_export_sent, langgraph_export_sent, langgraph_export_outcome,
    root_export_run.
  repeat split; destruct (connection_failed (answer w 0)); cbn; lia || done.
Qed.

(** C1 (as stated) fails for langgraph/otel_export.py: the collector
    refuses every connection and one attempt is made, not two. *)
Lemma langgraph_connection_error_not_retried :
  let w := world_of [] (Raise connection_refused) in
  let self :=
    create_otlp_exporter_no_ssl sdk_defaults DEFAULT_TRACES_ENDPOINT None in
  connection_failed (answer w 0) = true
  /\ length (sent (Langgraph._export framing self [] None) w) = 1%nat
  /\ fst (Langgraph._export framing self [] None w) = Raise connection_refused.
Proof. vm_compute. done. Qed.

(** The same collector, seen by otel_llm_log.py: two attempts, and the
    second connection error reaches the caller. *)
Example root_connection_refused_twice :
  let w := world_of [] (Raise connection_refused) in
  let self :=
    create_otlp_exporter_no_ssl sdk_defaults DEFAULT_TRACES_ENDPOINT None in
  length (sent (Root._export framing self [] None) w) = 2%nat
  /\ fst (Root._export framing self [] None w) = Raise connection_refused.
Proof. vm_compute. done. Qed.

(** A read timeout, an HTTP error status and an unexpected error are not
    retried by otel_llm_log.py; a connect timeout is a connection error
    by its class, and is. *)
Example root_no_retry_otherwise :
  let self :=
    create_otlp_exporter_no_ssl sdk_defaults DEFAULT_TRACES_ENDPOINT None in
  let attempts o :=
    length (sent (Root._export framing self [] None)
                 (world_of [o] (Return accepted))) in
  attempts (Raise read_timed_out) = 1%nat
  /\ attempts (Return (service_unavailable "")) = 1%nat
  /\ attempts (Raise {| exn_class := OtherException; exn_msg := "" |}) = 1%nat
  /\ attempts (Raise connection_refused) = 2%nat
  /\ attempts (Raise {| exn_class := ConnectTimeout; exn_msg := "" |}) = 2%nat.
Proof. vm_compute. done. Qed.

(** ** The response body preview *)

Lemma length_append (a b : string) :
  String.length (a +:+ b) = (String.length a + String.length b)%nat.
Proof.
  induction a as [|c a IH]; [done|].
  change (String c a +:+ b) with (String c (a +:+ b)).
  cbn [String.length]. by rewrite IH.
Qed.

Lemma length_take (n : nat) (s : string) :
  String.length (PyStr.take n s) = (n `min` String.length s)%nat.
Proof.
  revert s. induction n as [|n IH]; intros [|c s]; cbn [PyStr.take]; try done.
  cbn [String.length]. rewrite IH. lia.
Qed.

Lemma body_preview_long (t : string) :
  (1000 < String.length t)%nat ->
  Langgraph.body_preview t = PyStr.take 1000 t +:+ "...".
Proof.
  intros Hl. unfold Langgraph.body_preview.
  destruct t as [|c t]; [cbn in Hl; lia|].
  cbn [PyStr.truthy PyStr.is_empty negb andb].
  by apply Nat.ltb_lt in Hl as ->.
Qed.

Lemma body_preview_short (t : string) :
  t <> "" -> (String.length t <= 1000)%nat -> Langgraph.body_preview t = t.
Proof.
  intros Hne Hl. unfold Langgraph.body_preview.
  destruct t as [|c t]; [done|].
  cbn [PyStr.truthy PyStr.is_empty negb andb].
  by apply Nat.ltb_ge in Hl as ->.
Qed.

Lemma body_preview_length (t : string) :
  (String.length (Langgraph.body_preview t) <= 1003)%nat.
Proof.
  destruct (decide (1000 < String.length t)%nat) as [Hl|Hl].
  - rewrite (body_preview_long t Hl), length_append, length_take.
    change (String.length "...") with 3%nat. lia.
  - destruct t as [|c t]; [vm_compute; lia|].
    rewrite body_preview_short; [lia | done | lia].
Qed.

(** C3 (as amended): a response is returned to the caller whatever its
    status, never raised.  The exporter of otel_llm_log.py logs nothing.
    The exporter of langgraph/otel_export.py logs, for a response that is
    not ok, one error record with the status, the reason, the endpoint,
    the size of the request body and a preview of the response text: the
    text itself when it has at most 1000 characters, its first 1000
    characters followed by [...] when it has more (1003 characters in
    all), and [(empty)] when there is none. *)
Theorem http_failure_is_returned (z : Codecs) (self : OTLPSpanExporter)
    (serialized_data : bytes) (timeout_sec : option seconds) (w : World)
    (resp : Response) :
  let body := compress z (_compression self) serialized_data in
  let root := Root._export z self serialized_data timeout_sec in
  let langgraph := Langgraph._export z self serialized_data timeout_sec in
  ((if connection_failed (answer w 0) then answer w 1 else answer w 0)
     = Return resp ->
   fst (root w) = Return resp /\ logged root w = [])
  /\ (answer w 0 = Return resp -> ok resp = false ->
      fst (langgraph w) = Return resp
      /\ map levelname (logged langgraph w) = [ERROR]
      /\ map args (logged langgraph w)
         = [[AInt (status_code resp); AStr (reason resp);
             AStr (_endpoint self); AInt (Z.of_nat (length body));
             AStr (Langgraph.body_preview (text resp))]])
  /\ (String.length (Langgraph.body_preview (text resp)) <= 1003)%nat
  /\ (text resp <> "" -> (String.length (text resp) <= 1000)%nat ->
      Langgraph.body_preview (text resp) = text resp)
  /\ ((1000 < String.length (text resp))%nat ->
      Langgraph.body_preview (text resp)
      = PyStr.take 1000 (text resp) +:+ "...")
  /\ (text resp = "" -> Langgraph.body_preview (text resp) = "(empty)").
Proof.
  intros body root langgraph. subst root langgraph.
  split; [|split; [|split; [|split; [|split]]]].
  - intros E. unfold logged. rewrite root_export_run.
    destruct (connection_failed (answer w 0)); cbn [fst snd records];
      by rewrite drop_all.
  - intros E Hok. unfold logged.
    rewrite (langgraph_export_return z self serialized_data timeout_sec w resp E).
    rewrite Hok. cbn [fst snd records]. by rewrite drop_app_length.
  - apply body_preview_length.
  - apply body_preview_short.
  - apply body_preview_long.
  - by intros ->.
Qed.

Lemma http_failure_is_returned_witness :
  let w := world_of [Return (service_unavailable "upstream down")]
                    (Return accepted) in
  let self :=
    create_otlp_exporter_no_ssl sdk_defaults DEFAULT_TRACES_ENDPOINT None in
  fst (Langgraph._export framing self [x0a; x00] None w)
    = Return (service_unavailable "upstream down")
  /\ map args (logged (Langgraph._export framing self [x0a; x00] None) w)
     = [[AInt 503; AStr "Service Unavailable";
         AStr "http://localhost:4318/v1/traces"; AInt 2;
         AStr "upstream down"]].
Proof.
  intros w self.
  destruct (proj1 (proj2 (http_failure_is_returned framing self [x0a; x00]
                            None w (service_unavailable "upstream down")))
              eq_refl eq_refl) as (A & _ & C).
  split; [exact A | exact C].
Defined.

(** C3 (as stated) fails: otel_llm_log.py logs nothing for a 503, and the
    preview langgraph/otel_export.py logs for a text of 1001 characters
    has 1003 characters. *)
Lemma http_failure_logging_differs :
  let w := world_of [Return (service_unavailable "upstream down")]
                    (Return accepted) in
  let self :=
    create_otlp_exporter_no_ssl sdk_defaults DEFAULT_TRACES_ENDPOINT None in
  (fst (Root._export framing self [] None w)
     = Return (service_unavailable "upstream down")
   /\ logged (Root._export framing self [] None) w = [])
  /\ String.length (Langgraph.body_preview (replicate_char 1001 "x"))
     = 1003%nat.
Proof. vm_compute. done. Qed.

(** ** Compression *)

(** *** The decoders on a stored block *)

Lemma need_byte (x : byte) (s : list bool) :
  RFC1951.need 8 (RFC1951.bits_of_byte x ++ s) = Some (Byte.to_N x, s).
Proof. destruct x; reflexivity. Qed.

Lemma bits_of_bytes_app (a b : bytes) :
  RFC1951.bits_of_bytes (a ++ b)
  = RFC1951.bits_of_bytes a ++ RFC1951.bits_of_bytes b.
Proof. apply flat_map_app. Qed.

Lemma bits_of_bytes_length (b : bytes) :
  length (RFC1951.bits_of_bytes b) = (8 * length b)%nat.
Proof.
  induction b as [|x b IH]; [done|].
  change (RFC1951.bits_of_bytes (x :: b))
    with (RFC1951.bits_of_byte x ++ RFC1951.bits_of_bytes b).
  rewrite length_app, IH. cbn [length]. unfold RFC1951.bits_of_byte.
  rewrite length_map. cbn [length]. lia.
Qed.

Lemma need_bytes_bits (b : bytes) (s : list bool) :
  RFC1951.need_bytes (length b) (RFC1951.bits_of_bytes b ++ s) = Some (b, s).
Proof.
  induction b as [|x b IH]; [done|].
  change (RFC1951.bits_of_bytes (x :: b))
    with (RFC1951.bits_of_byte x ++ RFC1951.bits_of_bytes b).
  rewrite <- app_assoc. cbn [length RFC1951.need_bytes].
  rewrite need_byte, Byte.of_to_N, IH. done.
Qed.

Lemma need_add (n m : nat) (s : list bool) :
  RFC1951.need (n + m) s
  = match RFC1951.need n s with
    | Some (v, r) =>
        match RFC1951.need m r with
        | Some (v', r') => Some (v + 2 ^ N.of_nat n * v', r')%N
        | None => None
        end
    | None => None
    end.
Proof.
  revert s. induction n as [|n IH]; intros s.
  - cbn [Nat.add RFC1951.need]. destruct (RFC1951.need m s) as [[v r]|]; [|done].
    f_equal. f_equal. cbn. lia.
  - cbn [Nat.add RFC1951.need]. destruct s as [|b s]; [done|].
    rewrite IH. destruct (RFC1951.need n s) as [[v r]|]; [|done].
    destruct (RFC1951.need m r) as [[v' r']|]; [|done].
    f_equal. f_equal. rewrite Nat2N.inj_succ, N.pow_succ_r'. lia.
Qed.

Lemma to_N_le_byte (v : N) :
  Byte.to_N (default x00 (Byte.of_N (v mod 256))) = (v mod 256)%N.
Proof.
  destruct (Byte.of_N (v mod 256)) as [x|] eqn:E.
  - by apply Byte.to_of_N.
  - apply Byte.of_N_None_iff in E.
    pose proof (N.mod_lt v 256). lia.
Qed.

Lemma need_le (n : nat) (v : N) (s : list bool) :
  (v < 2 ^ N.of_nat (8 * n))%N ->
  RFC1951.need (8 * n) (RFC1951.bits_of_bytes (le n v) ++ s) = Some (v, s).
Proof.
  revert v. induction n as [|n IH]; intros v Hv.
  - cbn in *. f_equal. f_equal. lia.
  - replace (8 * S n)%nat with (8 + 8 * n)%nat by lia.
    rewrite need_add. cbn [le].
    change (RFC1951.bits_of_bytes (?x :: ?b))
      with (RFC1951.bits_of_byte x ++ RFC1951.bits_of_bytes b).
    rewrite <- app_assoc, need_byte, to_N_le_byte, IH.
    + f_equal. f_equal. change (2 ^ N.of_nat 8)%N with 256%N.
      pose proof (N.div_mod v 256). lia.
    + replace (N.of_nat (8 * S n)) with (8 + N.of_nat (8 * n))%N in Hv by lia.
      rewrite N.pow_add_r in Hv. change (2 ^ 8)%N with 256%N in Hv.
      apply N.Div0.div_lt_upper_bound. lia.
Qed.

Lemma need_16 (v : N) (s : list bool) :
  (v < 65536)%N ->
  RFC1951.need 16 (RFC1951.bits_of_bytes (le 2 v) ++ s) = Some (v, s).
Proof. intros Hv. by apply (need_le 2). Qed.

Lemma need_32 (v : N) (s : list bool) :
  (v < 4294967296)%N ->
  RFC1951.need 32 (RFC1951.bits_of_bytes (le 4 v) ++ s) = Some (v, s).
Proof. intros Hv. by apply (need_le 4). Qed.

Lemma stored_run (b : bytes) (r : bytes) (out : bytes) (pad : list bool) :
  (N.of_nat (length b) <= 65535)%N -> length pad = 5%nat ->
  RFC1951.stored
    (pad ++ RFC1951.bits_of_bytes
              (le 2 (N.of_nat (length b))
               ++ le 2 (65535 - N.of_nat (length b)) ++ b ++ r)) out
  = Some (rev b ++ out, RFC1951.bits_of_bytes r).
Proof.
  intros Hb Hpad. unfold RFC1951.stored, RFC1951.align.
  rewrite length_app, bits_of_bytes_length, Hpad.
  rewrite (Nat.mul_comm 8), Nat.Div0.mod_add.
  change (5 mod 8)%nat with 5%nat.
  rewrite (drop_app_length' pad _ 5 (eq_sym Hpad)).
  rewrite !bits_of_bytes_app.
  rewrite need_16 by lia. cbn [mbind option_bind].
  rewrite need_16 by lia. cbn [mbind option_bind].
  replace (N.of_nat (length b) + (65535 - N.of_nat (length b)))%N
    with 65535%N by lia.
  cbn [N.eqb Pos.eqb negb]. rewrite Nat2N.id, need_bytes_bits.
  done.
Qed.

Lemma inflate_stored_block (b r : bytes) :
  (N.of_nat (length b) <= 65535)%N ->
  RFC1951.inflate (RFC1951.bits_of_bytes (stored_block b ++ r))
  = Some (b, RFC1951.bits_of_bytes r).
Proof.
  intros Hb. unfold RFC1951.inflate, stored_block. cbv zeta.
  rewrite <- !app_comm_cons, <- !app_assoc.
  change (RFC1951.bits_of_bytes (x01 :: ?l))
    with ([true; false; false] ++ [false; false; false; false; false]
          ++ RFC1951.bits_of_bytes l).
  cbn [app length RFC1951.blocks].
  change (false :: false :: false :: false :: false :: ?l)
    with ([false; false; false; false; false] ++ l).
  rewrite stored_run by done.
  by rewrite app_nil_r, rev_involutive.
Qed.

Lemma le_length (n : nat) (v : N) : length (le n v) = n.
Proof. revert v. induction n as [|n IH]; intros v; cbn; by rewrite ?IH. Qed.

Lemma be_le (n : nat) (v : N) :
  (v < 2 ^ N.of_nat (8 * n))%N ->
  foldl (fun a x => 256 * a + Byte.to_N x)%N 0%N (rev (le n v)) = v.
Proof.
  revert v. induction n as [|n IH]; intros v Hv.
  - cbn in *. lia.
  - cbn [le rev]. rewrite foldl_app. cbn [foldl].
    rewrite to_N_le_byte, IH.
    + pose proof (N.div_mod v 256). lia.
    + replace (N.of_nat (8 * S n)) with (8 + N.of_nat (8 * n))%N in Hv by lia.
      rewrite N.pow_add_r in Hv. change (2 ^ 8)%N with 256%N in Hv.
      apply N.Div0.div_lt_upper_bound. lia.
Qed.

Lemma adler32_bound (b : bytes) : (adler32 b < 4294967296)%N.
Proof.
  unfold adler32.
  assert (forall s1 s2 : N, (s1 < 65521)%N -> (s2 < 65521)%N ->
            let '(a, c) :=
              foldl (fun '(s1, s2) x =>
                       let s1 := ((s1 + Byte.to_N x) mod 65521)%N in
                       (s1, ((s2 + s1) mod 65521)%N)) (s1, s2) b in
            (a < 65521)%N /\ (c < 65521)%N) as Inv.
  { induction b as [|x b IH]; intros s1 s2 H1 H2; [done|].
    cbn [foldl]. apply IH; by apply N.mod_lt. }
  specialize (Inv 1%N 0%N). destruct (foldl _ _ b) as [a c].
  destruct Inv as [Ha Hc]; lia.
Qed.

Lemma lxor_bound (a b : N) :
  (a < 4294967296)%N -> (b < 4294967296)%N -> (N.lxor a b < 4294967296)%N.
Proof.
  intros Ha Hb. change 4294967296%N with (2 ^ 32)%N in *.
  destruct (N.eq_dec (N.lxor a b) 0%N) as [->|Hne]; [done|].
  apply N.log2_lt_pow2; [lia|].
  pose proof (N.log2_lxor a b) as Hl.
  assert (forall c, (c < 2 ^ 32)%N -> (N.log2 c < 32)%N) as Hlog.
  { intros c Hc. destruct (N.eq_dec c 0%N) as [->|Hc0]; [done|].
    apply N.log2_lt_pow2; lia. }
  pose proof (Hlog a Ha). pose proof (Hlog b Hb). lia.
Qed.

Lemma crc32_step_bound (c : N) :
  (c < 4294967296)%N -> (crc32_step c < 4294967296)%N.
Proof.
  intros Hc. unfold crc32_step.
  assert (N.shiftr c 1 < 4294967296)%N as Hs.
  { rewrite N.shiftr_div_pow2. change (2 ^ 1)%N with 2%N.
    pose proof (N.Div0.div_le_upper_bound c 2 c). lia. }
  destruct (N.testbit c 0); [by apply lxor_bound|done].
Qed.

Lemma crc32_bound (b : bytes) : (crc32 b < 4294967296)%N.
Proof.
  unfold crc32. apply lxor_bound; [|done].
  assert (forall c : N, (c < 4294967296)%N ->
            (foldl (fun c x => Nat.iter 8 crc32_step (N.lxor c (Byte.to_N x)))
                   c b < 4294967296)%N) as Inv.
  { induction b as [|x b IH]; intros c Hc; [done|].
    cbn [foldl]. apply IH.
    assert (N.lxor c (Byte.to_N x) < 4294967296)%N as Hx.
    { apply lxor_bound; [done|]. pose proof (Byte.to_N_bounded x). lia. }
    cbn [Nat.iter]. by do 8 apply crc32_step_bound. }
  by apply Inv.
Qed.

Lemma align_whole (b : bytes) :
  RFC1951.align (RFC1951.bits_of_bytes b) = RFC1951.bits_of_bytes b.
Proof.
  unfold RFC1951.align. rewrite bits_of_bytes_length, Nat.mul_comm,
    Nat.Div0.mod_mul. done.
Qed.

(** At level 0 the compressors keep their contract, for every payload
    that fits one stored block: the decoders give the payload back. *)
Lemma level0_zlib_round_trip (b : bytes) :
  (N.of_nat (length b) <= 65535)%N ->
  RFC1950.decompress (zlib_compress level0 b) = Some b.
Proof.
  intros Hb. unfold RFC1950.decompress, level0, zlib_compress. cbn [app].
  rewrite inflate_stored_block, align_whole by done.
  rewrite <- (app_nil_r (RFC1951.bits_of_bytes _)).
  rewrite <- (le_length 4 (adler32 b)) at 1. rewrite <- length_rev.
  rewrite need_bytes_bits, (be_le 4) by apply adler32_bound.
  by rewrite decide_True.
Qed.

Lemma gzip_no_fields (m0 m1 m2 m3 xfl os : byte) (data : bytes) :
  RFC1952.decompress
    (x1f :: x8b :: x08 :: x00 :: m0 :: m1 :: m2 :: m3 :: xfl :: os :: data)
  = match RFC1951.inflate (RFC1951.bits_of_bytes data) with
    | Some (out, s) =>
        hdr ← RFC1951.need 32 (RFC1951.align s); let '(crc, s) := hdr in
        hdr ← RFC1951.need 32 s; let '(isize, s) := hdr in
        if decide (crc = crc32 out
                   /\ isize = (N.of_nat (length out) mod 4294967296)%N
                   /\ s = [])
        then Some out else None
    | None => None
    end.
Proof. reflexivity. Qed.

Lemma level0_gzip_round_trip (b : bytes) :
  (N.of_nat (length b) <= 65535)%N ->
  RFC1952.decompress (gzip_write level0 b) = Some b.
Proof.
  intros Hb. unfold level0, gzip_write. cbn [app].
  rewrite gzip_no_fields, inflate_stored_block, align_whole by done.
  rewrite bits_of_bytes_app.
  rewrite need_32 by apply crc32_bound. cbn [mbind option_bind].
  rewrite <- (app_nil_r (RFC1951.bits_of_bytes _)).
  rewrite need_32 by lia. cbn [mbind option_bind].
  rewrite decide_True; [done|].
  split; [done|]. split; [|done]. rewrite N.mod_small; lia.
Qed.

(** So with these compressors every body either exporter sends is read
    back as the payload, whatever the algorithm and the network do. *)
Corollary level0_bodies_decode (self : OTLPSpanExporter)
    (serialized_data : bytes) (timeout_sec : option seconds) (w : World) :
  (N.of_nat (length serialized_data) <= 65535)%N ->
  Forall (fun r => wire_decode (_compression self) (data r)
                   = Some serialized_data)
         (sent (Root._export level0 self serialized_data timeout_sec) w
          ++ sent (Langgraph._export level0 self serialized_data timeout_sec)
                  w).
Proof.
  intros Hb. rewrite root_export_sent, langgraph_export_sent.
  assert (wire_decode (_compression self)
            (compress level0 (_compression self) serialized_data)
          = Some serialized_data) as Hd.
  { unfold wire_decode, compress. destruct (_compression self).
    - done.
    - by apply level0_zlib_round_trip.
    - by apply level0_gzip_round_trip. }
  destruct (connection_failed _); repeat constructor; exact Hd.
Qed.

(** *** What the exporters send *)



Example gzip_body_on_the_wire :
  let self :=
    create_otlp_exporter_no_ssl
      {| sdk_headers := ∅; sdk_compression := Gzip;
         sdk_timeout := QArith_base.Qmake 10 1; sdk_client_cert := None |}
      DEFAULT_TRACES_ENDPOINT None in
  map data (sent (Langgraph._export framing self [x0a; x02] None)
                 (world_of [] (Return accepted)))
  = [[x1f; x8b; x08; x0a; x02]].
Proof. vm_compute. reflexivity. Qed.

(** The decoders read what CPython 3.11 (zlib 1.2.13) writes at the
    levels the exporters use: [zlib.compress] of a short payload (a
    block with fixed codes) and of a longer one (dynamic codes and
    repeats), and what [gzip.GzipFile(mode="w")] wrote for the short
    payload. *)
Example decoders_read_cpython_output :
  RFC1950.decompress
    [x78; x9c; xe3; x62; xe2; x60; x04; x00; x00; x43; x00; x16]
  = Some [x0a; x02; x08; x01]
  /\ RFC1952.decompress
       [x1f; x8b; x08; x00; x1e; x9e; xea; x6a; x02; xff; xe3; x62; xe2;
        x60; x04; x00; x88; x51; xa3; xf2; x04; x00; x00; x00]
     = Some [x0a; x02; x08; x01]
  /\ RFC1950.decompress
       [x78; x9c; x35; xc8; x41; x0e; x80; x20; x0c; x04; xc0; xaf; xf0;
        x01; x7b; xf2; x3f; x4d; x83; x1b; x20; x01; x8a; xb8; x44; x9f;
        xaf; x17; x6f; x93; x89; xd9; x18; xd2; xe0; xb6; x7b; xc0; x83;
        xb8; x08; xa5; x7b; x0d; x09; xd4; x1b; xc6; x8c; xf9; xb9; xab;
        x15; xf1; x81; x69; x2c; xde; xa5; x5b; xc3; xbf; x13; xe7; xc2;
        x45; x69; x7e; xa0; xbe; xa4; x7c; x1e; x05]
     = Some (list_byte_of_string
               ("chat gpt-4o execute_tool get_weather "
                +:+ "gen_ai.operation.name gen_ai.request.model")).
Proof. vm_compute. done. Qed.

(** They refuse a body that is not in their format, among them what
    the other compressor wrote and the bare payload. *)
Example decoders_refuse_other_bodies :
  RFC1952.decompress (zlib_compress level0 [x0a; x02; x08; x01]) = None
  /\ RFC1950.decompress (gzip_write level0 [x0a; x02; x08; x01]) = None
  /\ RFC1952.decompress [x0a; x02; x08; x01] = None
  /\ RFC1950.decompress [x0a; x02; x08; x01] = None
  /\ RFC1952.decompress (gzip_write framing [x0a; x02; x08; x01]) = None
  /\ RFC1950.decompress (zlib_compress framing [x0a; x02; x08; x01]) = None
  /\ RFC1950.decompress
       [x78; x9c; xe3; x62; xe2; x60; x04; x00; x00; x43; x00; x17]
     = None.
Proof. vm_compute. done. Qed.

(** ** Transport security *)

(** C8 (as amended): certificate validation is disabled on every request
    either exporter sends, whatever the exporter was built from; the
    exporter has no setting that turns it on. *)
Theorem certificate_validation_disabled (z : Codecs) (self : OTLPSpanExporter)
    (serialized_data : bytes) (timeout_sec : option seconds) (w : World) :
  let root := Root._export z self serialized_data timeout_sec in
  let langgraph := Langgraph._export z self serialized_data timeout_sec in
  sent root w <> [] /\ sent langgraph w <> []
  /\ Forall (fun r => verify r = false) (sent root w ++ sent langgraph w).
Proof.
  intros root langgraph. subst root langgraph.
  rewrite root_export_sent, langgraph_export_sent.
  destruct (connection_failed _); repeat split; try done;
    repeat constructor.
Qed.

(** C8 (as stated) fails: an exporter built by the factory from an
    endpoint alone, with the library's defaults, posts with
    [verify=False]. *)
Lemma default_exporter_skips_validation :
  let self := create_otlp_exporter_no_ssl sdk_defaults "http://dummy" None in
  let w := world_of [] (Return accepted) in
  map verify (sent (Root._export framing self [] None) w) = [false]
  /\ map verify (sent (Langgraph._export framing self [] None) w) = [false].
Proof. vm_compute. done. Qed.

(** ** The result-tracking wrappers *)

Section Wrappers.
Context {D : Type} `{SpanExporter D}.

Lemma tracking_export_run (spans : list ReadableSpan)
    (t : Root.TrackingSpanExporter D) :
  Root.tracking_export spans t
  = match export spans (Root._delegate t) with
    | (Return r, d) =>
        (Return r,
         {| Root._delegate := d; Root.last_result := Some r;
            Root.last_error := None |})
    | (Raise e, d) =>
        if isinstance e HException
        then (Raise e,
              {| Root._delegate := d; Root.last_result := Some FAILURE;
                 Root.last_error := Some e |})
        else (Raise e,
              {| Root._delegate := d; Root.last_result := Root.last_result t;
                 Root.last_error := None |})
    end.
Proof.
  unfold Root.tracking_export, bind, try_excepts, Root.on_delegate,
    Root.set_last_error, Root.set_last_result, modify, ret, raise.
  cbn [Root._delegate Root.last_result Root.last_error].
  destruct (export spans (Root._delegate t)) as [[r|e] d]; [done|].
  cbn [dispatch]. by destruct (isinstance e HException).
Qed.

Lemma logging_export_run (spans : list ReadableSpan)
    (l : Langgraph.LoggingSpanExporter D) :
  Langgraph.logging_export spans l
  = match export spans (Langgraph._inner l) with
    | (Return r, d) =>
        (Return r,
         {| Langgraph._inner := d; Langgraph.last_result := Some r;
            Langgraph.last_error := None;
            Langgraph.logger :=
              Langgraph.logger l ++
              if SpanExportResult_eqb r SUCCESS then []
              else [ {| levelname := WARNING;
                        msg := "OTLP span export returned failure: "
                               +:+ "result=%s span_count=%s";
                        args := [AResult r; AInt (Z.of_nat (length spans))];
                        exc_info := false |} ] |})
    | (Raise e, d) =>
        if isinstance e HException
        then (Raise e,
              {| Langgraph._inner := d;
                 Langgraph.last_result := Langgraph.last_result l;
                 Langgraph.last_error := Some e;
                 Langgraph.logger :=
                   Langgraph.logger l ++
                   [ {| levelname := ERROR;
                        msg := "OTLP span export raised: %s";
                        args := [AExn e]; exc_info := true |} ] |})
        else (Raise e,
              {| Langgraph._inner := d;
                 Langgraph.last_result := Langgraph.last_result l;
                 Langgraph.last_error := None;
                 Langgraph.logger := Langgraph.logger l |})
    end.
Proof.
  unfold Langgraph.logging_export, bind, try_excepts, Langgraph.on_inner,
    Langgraph.set_last_error, Langgraph.set_last_result, Langgraph.log,
    modify, ret, raise.
  cbn [Langgraph._inner Langgraph.last_result Langgraph.last_error
       Langgraph.logger].
  destruct (export spans (Langgraph._inner l)) as [[r|e] d].
  - destruct r; cbn; [by rewrite app_nil_r | done].
  - cbn [dispatch]. by destruct (isinstance e HException).
Qed.

(** C4: when the wrapped exporter's [export] raises, the wrapper's
    [export] raises the same exception, whatever its class; and when it
    is an exception in the sense of the handler ([except Exception]),
    the wrapper has recorded it as [last_error] by then. *)
Theorem export_records_then_reraises (spans : list ReadableSpan)
    (t : Root.TrackingSpanExporter D) (l : Langgraph.LoggingSpanExporter D)
    (e : exn) :
  fst (export spans (Root._delegate t)) = Raise e ->
  fst (export spans (Langgraph._inner l)) = Raise e ->
  fst (Root.tracking_export spans t) = Raise e
  /\ fst (Langgraph.logging_export spans l) = Raise e
  /\ (isinstance e HException = true ->
      Root.last_error (snd (Root.tracking_export spans t)) = Some e
      /\ Langgraph.last_error (snd (Langgraph.logging_export spans l))
         = Some e).
Proof.
  intros Ht Hl. rewrite tracking_export_run, logging_export_run.
  destruct (export spans (Root._delegate t)) as [o d].
  destruct (export spans (Langgraph._inner l)) as [o' d'].
  cbn in Ht, Hl. subst o o'.
  destruct (isinstance e HException); repeat split; done.
Qed.

Lemma tracking_perform (c : Call) (t : Root.TrackingSpanExporter D) :
  fst (perform c t) = fst (perform c (Root._delegate t))
  /\ Root._delegate (snd (perform c t)) = snd (perform c (Root._delegate t)).
Proof.
  destruct c as [spans| |tm]; cbn [perform export shutdown force_flush
    Root.TrackingSpanExporter_exporter].
  - rewrite tracking_export_run.
    destruct (export spans (Root._delegate t)) as [[r|e] d]; [done|].
    by destruct (isinstance e HException).
  - unfold Root.tracking_shutdown, bind, Root.on_delegate, ret.
    by destruct (shutdown (Root._delegate t)) as [[[]|e] d].
  - unfold Root.tracking_force_flush, Root.on_delegate.
    change (default 30000%Z (Some tm)) with tm.
    by destruct (force_flush tm (Root._delegate t)) as [o d].
Qed.

Lemma logging_perform (c : Call) (l : Langgraph.LoggingSpanExporter D) :
  fst (perform c l) = fst (perform c (Langgraph._inner l))
  /\ Langgraph._inner (snd (perform c l))
     = snd (perform c (Langgraph._inner l)).
Proof.
  destruct c as [spans| |tm]; cbn [perform export shutdown force_flush
    Langgraph.LoggingSpanExporter_exporter].
  - rewrite logging_export_run.
    destruct (export spans (Langgraph._inner l)) as [[r|e] d]; [done|].
    by destruct (isinstance e HException).
  - unfold Langgraph.logging_shutdown, bind, Langgraph.on_inner, ret.
    by destruct (shutdown (Langgraph._inner l)) as [[[]|e] d].
  - unfold Langgraph.logging_force_flush, Langgraph.on_inner.
    change (default 30000%Z (Some tm)) with tm.
    by destruct (force_flush tm (Langgraph._inner l)) as [o d].
Qed.

Lemma tracking_perform_all (cs : list Call) (t : Root.TrackingSpanExporter D) :
  fst (perform_all cs t) = fst (perform_all cs (Root._delegate t))
  /\ Root._delegate (snd (perform_all cs t))
     = snd (perform_all cs (Root._delegate t)).
Proof.
  revert t. induction cs as [|c cs IH]; intros t; [done|].
  cbn [perform_all]. destruct (tracking_perform c t) as [Hr Hd].
  destruct (perform c t) as [r t1].
  destruct (perform c (Root._delegate t)) as [r' d1].
  cbn in Hr, Hd. subst r' d1. destruct (IH t1) as [Hrs Hds].
  destruct (perform_all cs t1) as [rs t2].
  destruct (perform_all cs (Root._delegate t1)) as [rs' d2].
  cbn in *. by subst.
Qed.

Lemma logging_perform_all (cs : list Call)
    (l : Langgraph.LoggingSpanExporter D) :
  fst (perform_all cs l) = fst (perform_all cs (Langgraph._inner l))
  /\ Langgraph._inner (snd (perform_all cs l))
     = snd (perform_all cs (Langgraph._inner l)).
Proof.
  revert l. induction cs as [|c cs IH]; intros l; [done|].
  cbn [perform_all]. destruct (logging_perform c l) as [Hr Hd].
  destruct (perform c l) as [r l1].
  destruct (perform c (Langgraph._inner l)) as [r' d1].
  cbn in Hr, Hd. subst r' d1. destruct (IH l1) as [Hrs Hds].
  destruct (perform_all cs l1) as [rs l2].
  destruct (perform_all cs (Langgraph._inner l1)) as [rs' d2].
  cbn in *. by subst.
Qed.

(** C5: a client that makes any sequence of [export], [shutdown] and
    [force_flush] calls on a wrapper gets, call by call, the outcomes
    (return values and exceptions) it would get from the wrapped exporter
    itself, and leaves the wrapped exporter in the same state; a
    [force_flush] without argument is forwarded with the default of
    30000 ms. *)
Theorem wrapping_preserves_semantics (cs : list Call) (d : D) :
  fst (perform_all cs (Root.init d)) = fst (perform_all cs d)
  /\ Root._delegate (snd (perform_all cs (Root.init d)))
     = snd (perform_all cs d)
  /\ fst (perform_all cs (Langgraph.wrap_exporter_with_logging d))
     = fst (perform_all cs d)
  /\ Langgraph._inner
       (snd (perform_all cs (Langgraph.wrap_exporter_with_logging d)))
     = snd (perform_all cs d)
  /\ (forall t : Root.TrackingSpanExporter D,
        fst (Root.tracking_force_flush None t)
        = fst (force_flush 30000 (Root._delegate t)))
  /\ (forall l : Langgraph.LoggingSpanExporter D,
        fst (Langgraph.logging_force_flush None l)
        = fst (force_flush 30000 (Langgraph._inner l))).
Proof.
  destruct (tracking_perform_all cs (Root.init d)) as [? ?].
  destruct (logging_perform_all cs (Langgraph.wrap_exporter_with_logging d))
    as [? ?].
  repeat split; try done.
  - intros t. unfold Root.tracking_force_flush, Root.on_delegate.
    change (default 30000%Z None) with 30000%Z.
    by destruct (force_flush _ (Root._delegate t)).
  - intros l. unfold Langgraph.logging_force_flush, Langgraph.on_inner.
    change (default 30000%Z None) with 30000%Z.
    by destruct (force_flush _ (Langgraph._inner l)).
Qed.

(** The invariant of [TrackingSpanExporter]. *)
Lemma tracking_export_invariant (spans : list ReadableSpan)
    (t : Root.TrackingSpanExporter D) :
  is_Some (Root.last_error (snd (Root.tracking_export spans t))) ->
  Root.last_result (snd (Root.tracking_export spans t)) = Some FAILURE.
Proof.
  rewrite tracking_export_run.
  destruct (export spans (Root._delegate t)) as [[r|e] d].
  - by intros [? ?].
  - destruct (isinstance e HException); [done | by intros [? ?]].
Qed.

Lemma tracking_perform_invariant (c : Call) (t : Root.TrackingSpanExporter D) :
  (is_Some (Root.last_error t) -> Root.last_result t = Some FAILURE) ->
  is_Some (Root.last_error (snd (perform c t))) ->
  Root.last_result (snd (perform c t)) = Some FAILURE.
Proof.
  intros Inv. destruct c as [spans| |tm]; cbn [perform export shutdown
    force_flush Root.TrackingSpanExporter_exporter].
  - pose proof (tracking_export_invariant spans t) as Hx.
    by destruct (Root.tracking_export spans t).
  - unfold Root.tracking_shutdown, bind, Root.on_delegate, ret.
    by destruct (shutdown (Root._delegate t)) as [[[]|e] d].
  - unfold Root.tracking_force_flush, Root.on_delegate.
    by destruct (force_flush _ (Root._delegate t)) as [o d].
Qed.

Lemma tracking_perform_all_invariant (cs : list Call)
    (t : Root.TrackingSpanExporter D) :
  (is_Some (Root.last_error t) -> Root.last_result t = Some FAILURE) ->
  is_Some (Root.last_error (snd (perform_all cs t))) ->
  Root.last_result (snd (perform_all cs t)) = Some FAILURE.
Proof.
  revert t. induction cs as [|c cs IH]; intros t Inv; [done|].
  cbn [perform_all]. pose proof (tracking_perform_invariant c t Inv) as Hc.
  destruct (perform c t) as [r t1]. cbn [snd] in Hc.
  specialize (IH t1 Hc). by destruct (perform_all cs t1).
Qed.

(** C10: after an [export] call of [TrackingSpanExporter], whatever
    [last_error] was before, [last_error] is set exactly when the wrapped
    [export] of that call raised an exception (in the sense of the
    handler, [except Exception]), and it is then that exception; and in
    every state the object reaches from its construction, [last_error]
    set implies [last_result = FAILURE]. *)
Theorem tracking_last_error_invariant (spans : list ReadableSpan)
    (t : Root.TrackingSpanExporter D) (cs : list Call) (d : D) :
  let t' := snd (Root.tracking_export spans t) in
  (forall e, Root.last_error t' = Some e <->
             fst (export spans (Root._delegate t)) = Raise e
             /\ isinstance e HException = true)
  /\ (is_Some (Root.last_error t') -> Root.last_result t' = Some FAILURE)
  /\ (is_Some (Root.last_error (snd (perform_all cs (Root.init d)))) ->
      Root.last_result (snd (perform_all cs (Root.init d))) = Some FAILURE).
Proof.
  intros t'. subst t'. split; [|split].
  - intros e0. rewrite tracking_export_run.
    destruct (export spans (Root._delegate t)) as [[r|e] d0];
      cbn [fst snd Root.last_error].
    + split; [done | by intros [? _]].
    + destruct (isinstance e HException) eqn:E; cbn [fst snd Root.last_error].
      * split; [by intros [= <-] | by intros [[= <-] _]].
      * split; [done | intros [[= <-] E']; congruence].
  - apply tracking_export_invariant.
  - apply tracking_perform_all_invariant. by intros [? ?].
Qed.

(** ** The host's exit status *)

Lemma is_SUCCESS_iff (x : option SpanExportResult) :
  is_SUCCESS x = true <-> x = Some SUCCESS.
Proof. destruct x as [[]|]; cbn; split; done. Qed.

Lemma root_main_try_run (endpoint : string)
    (produce : M (Root.TrackingSpanExporter D) unit) (h : Root.Host)
    (t' : Root.TrackingSpanExporter D) :
  produce (Root.tracking h) = (Return tt, t') ->
  Root.main_try endpoint produce h
  = if is_SUCCESS (Root.last_result t')
    then (Return tt,
          {| Root.tracking := t';
             Root.stdout := Root.stdout h ++
               ["GenAI spans exported (chat + execute_tool) to "
                +:+ endpoint +:+ ". " +:+ "Service: otel-llm-log."] |})
    else (Raise {| exn_class := SystemExit 1; exn_msg := "" |},
          {| Root.tracking := t';
             Root.stdout := (Root.stdout h ++
               ["Export failed (SSL or network error). Check logs above. "
                +:+ "Endpoint: " +:+ endpoint]) ++
               match Root.last_error t' with
               | Some e => ["Error: " +:+ exn_msg e]
               | None => []
               end |}).
Proof.
  intros E. unfold Root.main_try, try_excepts, bind, Root.on_tracking, get.
  rewrite E. cbn [Root.tracking].
  destruct (is_SUCCESS (Root.last_result t')); [done|].
  unfold Root.print, modify, sys_exit, raise, ret.
  destruct (Root.last_error t') as [e|]; cbn; [done|].
  by rewrite app_nil_r.
Qed.

Lemma langgraph_main_try_run (endpoint : string)
    (produce : M (@Langgraph.Host D) unit) (g g' : @Langgraph.Host D) :
  produce g = (Return tt, g') ->
  Langgraph.main_try endpoint produce g
  = if is_SUCCESS (Langgraph.last_result (Langgraph.exporter g'))
    then (Return tt,
          {| Langgraph.exporter := Langgraph.exporter g';
             Langgraph.stdout := Langgraph.stdout g' ++
               ["LangChain/LangGraph spans exported to " +:+ endpoint
                +:+ ". Service: langgraph-agent-otel."] |})
    else (Raise {| exn_class := SystemExit 1; exn_msg := "" |},
          {| Langgraph.exporter := Langgraph.exporter g';
             Langgraph.stdout := (Langgraph.stdout g' ++
               ["Export may have failed. Endpoint: " +:+ endpoint
                +:+ ". Check logs above for OTLP errors."]) ++
               match Langgraph.last_error (Langgraph.exporter g') with
               | Some e => ["Last export error: " +:+ exn_msg e]
               | None => []
               end |}).
Proof.
  intros E.
  unfold Langgraph.main_try, try_excepts, bind, get.
  rewrite E.
  destruct (is_SUCCESS (Langgraph.last_result (Langgraph.exporter g')));
    [done|].
  unfold Langgraph.print, modify, sys_exit, raise, ret.
  destruct (Langgraph.last_error (Langgraph.exporter g')) as [e|]; cbn;
    [done|].
  by rewrite app_nil_r.
Qed.

Lemma status_nonzero_iff (x : option SpanExportResult) :
  (if is_SUCCESS x then 0 else 1)%Z <> 0%Z <-> x <> Some SUCCESS.
Proof. destruct x as [[]|]; cbn; split; done. Qed.

(** C2: once the flush and the shutdown have returned, the host reads
    the [last_result] the wrapper recorded: it ends with status 0 when
    that is [SUCCESS], and with status 1 in every other case, after
    printing the recorded [last_error] when there is one.  This holds
    whatever the run before the report printed and did to the
    exporter. *)
Theorem host_exit_status (env : gmap string string) (delegate : D)
    (produce_root : M (Root.TrackingSpanExporter D) unit)
    (produce_langgraph : M (@Langgraph.Host D) unit)
    (t' : Root.TrackingSpanExporter D)
    (g' : @Langgraph.Host D) :
  produce_root (Root.init delegate) = (Return tt, t') ->
  produce_langgraph
    {| Langgraph.exporter := Langgraph.wrap_exporter_with_logging delegate;
       Langgraph.stdout := [] |}
    = (Return tt, g') ->
  let root := Root.main env delegate produce_root in
  let langgraph := Langgraph.main env delegate produce_langgraph in
  let l' := Langgraph.exporter g' in
  (exit_status (fst root)
     = if is_SUCCESS (Root.last_result t') then 0 else 1)%Z
  /\ (exit_status (fst langgraph)
      = if is_SUCCESS (Langgraph.last_result l') then 0 else 1)%Z
  /\ (exit_status (fst root) <> 0%Z <-> Root.last_result t' <> Some SUCCESS)
  /\ (exit_status (fst langgraph) <> 0%Z
      <-> Langgraph.last_result l' <> Some SUCCESS)
  /\ (forall e, Root.last_result t' <> Some SUCCESS ->
                Root.last_error t' = Some e ->
                last (Root.stdout (snd root)) = Some ("Error: " +:+ exn_msg e))
  /\ (forall e, Langgraph.last_result l' <> Some SUCCESS ->
                Langgraph.last_error l' = Some e ->
                last (Langgraph.stdout (snd langgraph))
                = Some ("Last export error: " +:+ exn_msg e)).
Proof.
  intros Hr Hl root langgraph l'. subst root langgraph.
  unfold Root.main, Langgraph.main.
  rewrite (root_main_try_run (get_endpoint env) produce_root
             {| Root.tracking := Root.init delegate; Root.stdout := [] |}
             t' Hr).
  rewrite (langgraph_main_try_run (get_endpoint env) produce_langgraph
             {| Langgraph.exporter :=
                  Langgraph.wrap_exporter_with_logging delegate;
                Langgraph.stdout := [] |}
             g' Hl).
  fold l'.
  pose proof (status_nonzero_iff (Root.last_result t')) as Sr.
  pose proof (status_nonzero_iff (Langgraph.last_result l')) as Sl.
  pose proof (is_SUCCESS_iff (Root.last_result t')) as Tr.
  pose proof (is_SUCCESS_iff (Langgraph.last_result l')) as Tl.
  destruct (is_SUCCESS (Root.last_result t'));
    destruct (is_SUCCESS (Langgraph.last_result l'));
    cbn [fst snd exit_status exn_class Root.stdout Langgraph.stdout];
    (split; [done|]); (split; [done|]); (split; [exact Sr|]);
    (split; [exact Sl|]); split; intros e Hne He;
    try (exfalso; apply Hne; (by apply Tr) || (by apply Tl));
    rewrite He; by rewrite last_snoc.
Qed.

End Wrappers.

(** ** Concrete runs *)

Lemma export_records_then_reraises_witness :
  let t := Root.init (scripted [Raise connection_refused]) in
  let l :=
    Langgraph.wrap_exporter_with_logging
      (scripted [Raise connection_refused]) in
  fst (Root.tracking_export reference_batch t) = Raise connection_refused
  /\ fst (Langgraph.logging_export reference_batch l)
     = Raise connection_refused
  /\ Root.last_error (snd (Root.tracking_export reference_batch t))
     = Some connection_refused
  /\ Langgraph.last_error (snd (Langgraph.logging_export reference_batch l))
     = Some connection_refused.
Proof.
  intros t l.
  pose proof (@export_records_then_reraises Scripted Scripted_exporter
                reference_batch t l connection_refused) as P.
  destruct (P eq_refl eq_refl) as (A & B & C).
  destruct (C eq_refl) as [E F]. repeat split; assumption.
Defined.

(** An interrupt is not an [Exception]: it passes through both wrappers
    and neither records it. *)
Example interrupt_passes_unrecorded :
  let t := Root.init (scripted [Raise interrupted]) in
  let l := Langgraph.wrap_exporter_with_logging (scripted [Raise interrupted]) in
  fst (Root.tracking_export [] t) = Raise interrupted
  /\ recorded (snd (Root.tracking_export [] t)) = (None, None)
  /\ fst (Langgraph.logging_export [] l) = Raise interrupted
  /\ Langgraph.last_error (snd (Langgraph.logging_export [] l)) = None.
Proof. vm_compute. done. Qed.

Lemma tracking_last_error_invariant_witness :
  let s :=
    snd (perform_all
           [CallExport reference_batch; CallForceFlush 3000; CallShutdown]
           (Root.init (scripted [Raise connection_refused]))) in
  recorded s = (Some FAILURE, Some connection_refused)
  /\ Root.last_result s = Some FAILURE.
Proof.
  intros s. split; [reflexivity|].
  apply (proj2 (proj2 (@tracking_last_error_invariant Scripted
    Scripted_exporter [] (Root.init (scripted []))
    [CallExport reference_batch; CallForceFlush 3000; CallShutdown]
    (scripted [Raise connection_refused])))).
  by eexists.
Defined.

(** The wrapper of langgraph/otel_export.py leaves [last_result] as it
    was when an export raises: after a success and then an exception,
    [last_error] is set and [last_result] is still [SUCCESS]. *)
Example logging_exporter_keeps_earlier_result :
  let s :=
    snd (perform_all [CallExport reference_batch; CallExport []]
           (Langgraph.wrap_exporter_with_logging
              (scripted [Return SUCCESS; Raise connection_refused]))) in
  Langgraph.last_result s = Some SUCCESS
  /\ Langgraph.last_error s = Some connection_refused.
Proof. vm_compute. done. Qed.

Lemma host_exit_status_witness :
  let env : gmap string string :=
    {[ "OTEL_EXPORTER_OTLP_ENDPOINT" := "http://collector:4318" ]} in
  exit_status
    (fst (Root.main env (scripted [Return FAILURE])
            (flush_and_shutdown reference_batch))) = 1%Z
  /\ exit_status
       (fst (Langgraph.main env (scripted [Return FAILURE])
               (run_and_shutdown reference_batch))) = 1%Z.
Proof.
  intros env.
  pose proof (@host_exit_status Scripted env (scripted [Return FAILURE])
                (flush_and_shutdown reference_batch)
                (run_and_shutdown reference_batch)
                (snd (flush_and_shutdown reference_batch
                        (Root.init (scripted [Return FAILURE]))))
                (snd (run_and_shutdown reference_batch
                        {| Langgraph.exporter :=
                             Langgraph.wrap_exporter_with_logging
                               (scripted [Return FAILURE]);
                           Langgraph.stdout := [] |}))) as P.
  cbv zeta in P. destruct (P eq_refl eq_refl) as (A & B & _).
  split; [exact A | exact B].
Defined.

(** Scenario A and scenario B at the host: a collector that accepts gives
    status 0, a failed export gives status 1. *)
Example host_scenarios :
  let env : gmap string string := ∅ in
  let status outcomes :=
    (exit_status (fst (Root.main env (scripted outcomes)
                         (flush_and_shutdown reference_batch))),
     exit_status (fst (Langgraph.main env (scripted outcomes)
                         (run_and_shutdown reference_batch)))) in
  status [Return SUCCESS] = (0%Z, 0%Z)
  /\ status [Return FAILURE] = (1%Z, 1%Z)
  /\ status [Raise connection_refused] = (1%Z, 1%Z).
Proof. vm_compute. done. Qed.

(** What the host prints in the three outcomes of a delivery. *)
Example host_output :
  let run outcomes :=
    Root.main_try "http://c:4318/v1/traces"
      (flush_and_shutdown reference_batch)
      {| Root.tracking := Root.init (scripted outcomes); Root.stdout := [] |} in
  (exit_status (fst (run [Return SUCCESS])),
   Root.stdout (snd (run [Return SUCCESS])))
  = (0%Z, ["GenAI spans exported (chat + execute_tool) to "
           +:+ "http://c:4318/v1/traces. Service: otel-llm-log."])
  /\ (exit_status (fst (run [Return FAILURE])),
      Root.stdout (snd (run [Return FAILURE])))
     = (1%Z, ["Export failed (SSL or network error). Check logs above. "
              +:+ "Endpoint: http://c:4318/v1/traces"])
  /\ (exit_status (fst (run [Raise connection_refused])),
      Root.stdout (snd (run [Raise connection_refused])))
     = (1%Z, ["Export failed (SSL or network error). Check logs above. "
              +:+ "Endpoint: http://c:4318/v1/traces";
              "Error: Connection refused"]).
Proof. vm_compute. done. Qed.

(** * Further properties of the modelled code *)

(** ** What langgraph/otel_export.py logs for a failed attempt *)

(** X1: when the request raises, [_export] raises the same exception
    after logging it once, with its traceback, under the first handler
    that matches: a timeout report (which also names the timeout in
    force) for every instance of [Timeout], a connect timeout included;
    else a connection-error report; else a request-error report; else an
    unexpected-error report.  Nothing is logged for an exception that is
    not an instance of [Exception]. *)
Theorem langgraph_export_failure_logged (z : Codecs) (self : OTLPSpanExporter)
    (serialized_data : bytes) (timeout_sec : option seconds) (w : World)
    (e : exn) :
  answer w 0 = Raise e ->
  let run := Langgraph._export z self serialized_data timeout_sec in
  fst (run w) = Raise e
  /\ (isinstance e HException = false -> logged run w = [])
  /\ (isinstance e HException = true ->
      map levelname (logged run w) = [ERROR]
      /\ map exc_info (logged run w) = [true])
  /\ (isinstance e HTimeout = true ->
      map msg (logged run w)
        = ["OTLP trace export timeout: url=%s timeout_sec=%s error=%s"]
      /\ map args (logged run w)
         = [[AStr (_endpoint self);
             ASeconds (default (_timeout self) timeout_sec); AExn e]])
  /\ (isinstance e HTimeout = false -> isinstance e HConnectionError = true ->
      map msg (logged run w)
        = ["OTLP trace export connection error: url=%s error=%s"]
      /\ map args (logged run w) = [[AStr (_endpoint self); AExn e]])
  /\ (isinstance e HConnectionError = false ->
      isinstance e HTimeout = false ->
      isinstance e HRequestException = true ->
      map msg (logged run w)
        = ["OTLP trace export request error: url=%s error=%s"]
      /\ map args (logged run w) = [[AStr (_endpoint self); AExn e]])
  /\ (isinstance e HRequestException = false ->
      isinstance e HException = true ->
      map msg (logged run w)
        = ["OTLP trace export unexpected error: url=%s error=%s"]
      /\ map args (logged run w) = [[AStr (_endpoint self); AExn e]]).
Proof.
  intros E run. subst run. unfold answer in E. rewrite Nat.add_0_r in E.
  unfold logged, Langgraph._export, try_excepts, bind, session_post.
  rewrite E. cbn [dispatch].
  destruct e as [c m].
  destruct c; cbn; rewrite ?drop_app_length, ?drop_all;
    repeat split; intros; done.
Qed.

Lemma langgraph_export_failure_logged_witness :
  let self :=
    create_otlp_exporter_no_ssl sdk_defaults DEFAULT_TRACES_ENDPOINT None in
  let e := {| exn_class := ConnectTimeout; exn_msg := "timed out" |} in
  let run := Langgraph._export framing self [] None in
  fst (run (world_of [] (Raise e))) = Raise e
  /\ map msg (logged run (world_of [] (Raise e)))
     = ["OTLP trace export timeout: url=%s timeout_sec=%s error=%s"].
Proof.
  intros self e run.
  pose proof (langgraph_export_failure_logged framing self [] None
                (world_of [] (Raise e)) e eq_refl) as P.
  cbv zeta in P. destruct P as (A & _ & _ & B & _).
  split; [exact A | exact (proj1 (B eq_refl))].
Defined.

(** X2: a send logs at most one record, and none exactly when the
    response is ok or the request raised something that is not an
    [Exception]. *)
Theorem langgraph_export_log_count (z : Codecs) (self : OTLPSpanExporter)
    (serialized_data : bytes) (timeout_sec : option seconds) (w : World) :
  let run := Langgraph._export z self serialized_data timeout_sec in
  (length (logged run w) <= 1)%nat
  /\ (logged run w = [] <->
      match answer w 0 with
      | Return resp => ok resp = true
      | Raise e => isinstance e HException = false
      end).
Proof.
  intros run. subst run. destruct (answer w 0) as [resp|e] eqn:E.
  - unfold logged.
    rewrite (langgraph_export_return z self serialized_data timeout_sec
               w resp E).
    cbn [snd records]. rewrite drop_app_length.
    destruct (ok resp); cbn; split; (lia || done).
  - pose proof (langgraph_export_failure_logged z self serialized_data
                  timeout_sec w e E) as P.
    cbv zeta in P. destruct P as (_ & Hn & Hy & _).
    destruct (isinstance e HException) eqn:Ex.
    + destruct (Hy eq_refl) as [Hl _].
      destruct (logged _ w) as [|r [|r' rs]]; cbn in *; try done;
        try (split; [lia | done]).
    + rewrite (Hn eq_refl). cbn. split; [lia | done].
Qed.

(** ** What the wrappers record and log *)

Section WrapperRecords.
Context {D : Type} `{SpanExporter D}.

(** X3: [shutdown] and [force_flush] never touch what was recorded:
    after any sequence of such calls, whether they return or raise, both
    wrappers still hold the [last_result] and [last_error] (and the log)
    they held before. *)
Theorem recorded_state_survives_shutdown (cs : list Call)
    (t : Root.TrackingSpanExporter D) (l : Langgraph.LoggingSpanExporter D) :
  Forall (fun c => forall spans, c <> CallExport spans) cs ->
  recorded (snd (perform_all cs t)) = recorded t
  /\ Langgraph.last_result (snd (perform_all cs l)) = Langgraph.last_result l
  /\ Langgraph.last_error (snd (perform_all cs l)) = Langgraph.last_error l
  /\ Langgraph.logger (snd (perform_all cs l)) = Langgraph.logger l.
Proof.
  intros Hcs. revert t l. induction Hcs as [|c cs Hc _ IH]; intros t l; [done|].
  cbn [perform_all].
  assert (recorded (snd (perform c t)) = recorded t
          /\ Langgraph.last_result (snd (perform c l)) = Langgraph.last_result l
          /\ Langgraph.last_error (snd (perform c l)) = Langgraph.last_error l
          /\ Langgraph.logger (snd (perform c l)) = Langgraph.logger l)
    as (Ht & Hl1 & Hl2 & Hl3).
  { destruct c as [spans| |tm]; [by destruct (Hc spans)| |];
      cbn [perform export shutdown force_flush
           Root.TrackingSpanExporter_exporter
           Langgraph.LoggingSpanExporter_exporter].
    - unfold Root.tracking_shutdown, Langgraph.logging_shutdown, bind,
        Root.on_delegate, Langgraph.on_inner, ret.
      destruct (shutdown (Root._delegate t)) as [[[]|e] d];
        by destruct (shutdown (Langgraph._inner l)) as [[[]|e'] d'].
    - unfold Root.tracking_force_flush, Langgraph.logging_force_flush,
        Root.on_delegate, Langgraph.on_inner.
      destruct (force_flush _ (Root._delegate t)) as [o d];
        by destruct (force_flush _ (Langgraph._inner l)) as [o' d']. }
  destruct (perform c t) as [r t1]. destruct (perform c l) as [r' l1].
  destruct (IH t1 l1) as (It & Il1 & Il2 & Il3).
  destruct (perform_all cs t1) as [rs t2].
  destruct (perform_all cs l1) as [rs' l2].
  cbn [snd] in *. repeat split; congruence.
Qed.

(** X4: an export that returns overwrites what was recorded, whatever
    it was: both wrappers then hold the returned result as [last_result]
    and no [last_error]. *)
Theorem returned_export_overwrites_record (spans : list ReadableSpan)
    (t : Root.TrackingSpanExporter D) (l : Langgraph.LoggingSpanExporter D)
    (r : SpanExportResult) :
  fst (export spans (Root._delegate t)) = Return r ->
  fst (export spans (Langgraph._inner l)) = Return r ->
  recorded (snd (Root.tracking_export spans t)) = (Some r, None)
  /\ Langgraph.last_result (snd (Langgraph.logging_export spans l)) = Some r
  /\ Langgraph.last_error (snd (Langgraph.logging_export spans l)) = None.
Proof.
  intros Ht Hl. rewrite tracking_export_run, logging_export_run.
  destruct (export spans (Root._delegate t)) as [o d].
  destruct (export spans (Langgraph._inner l)) as [o' d'].
  cbn in Ht, Hl. by subst o o'.
Qed.

(** X5: when the wrapped [export] raises an [Exception],
    [TrackingSpanExporter] records [FAILURE] with it, while
    [LoggingSpanExporter] records the exception and keeps the
    [last_result] of the export before; a host that then finds
    [last_result = SUCCESS] ends with status 0 and adds the success line,
    and nothing else, to what the run printed. *)
Theorem raised_export_record (spans : list ReadableSpan)
    (t : Root.TrackingSpanExporter D) (l : Langgraph.LoggingSpanExporter D)
    (e : exn) :
  isinstance e HException = true ->
  fst (export spans (Root._delegate t)) = Raise e ->
  fst (export spans (Langgraph._inner l)) = Raise e ->
  recorded (snd (Root.tracking_export spans t)) = (Some FAILURE, Some e)
  /\ Langgraph.last_error (snd (Langgraph.logging_export spans l)) = Some e
  /\ Langgraph.last_result (snd (Langgraph.logging_export spans l))
     = Langgraph.last_result l
  /\ (forall (env : gmap string string) (delegate : D)
             (produce : M (@Langgraph.Host D) unit) (g' : @Langgraph.Host D),
        produce {| Langgraph.exporter :=
                     Langgraph.wrap_exporter_with_logging delegate;
                   Langgraph.stdout := [] |}
          = (Return tt, g') ->
        Langgraph.last_result (Langgraph.exporter g') = Some SUCCESS ->
        exit_status (fst (Langgraph.main env delegate produce)) = 0%Z
        /\ Langgraph.stdout (snd (Langgraph.main env delegate produce))
           = Langgraph.stdout g'
             ++ ["LangChain/LangGraph spans exported to " +:+ get_endpoint env
                 +:+ ". Service: langgraph-agent-otel."]).
Proof.
  intros Hx Ht Hl. rewrite tracking_export_run, logging_export_run.
  destruct (export spans (Root._delegate t)) as [o d].
  destruct (export spans (Langgraph._inner l)) as [o' d'].
  cbn in Ht, Hl. subst o o'. rewrite Hx.
  split; [done|]. split; [done|]. split; [done|].
  intros env delegate produce g' Hp Hs. unfold Langgraph.main.
  rewrite (langgraph_main_try_run (get_endpoint env) produce
             {| Langgraph.exporter :=
                  Langgraph.wrap_exporter_with_logging delegate;
                Langgraph.stdout := [] |} g' Hp), Hs.
  done.
Qed.

(** X6: what [LoggingSpanExporter.export] logs: nothing when the wrapped
    export returns [SUCCESS]; one warning with the result and the number
    of spans when it returns anything else; one error record with the
    traceback when it raises an [Exception]; nothing when it raises
    something else.  Earlier records stay in place. *)
Theorem logging_export_log (spans : list ReadableSpan)
    (l : Langgraph.LoggingSpanExporter D) :
  let o := fst (export spans (Langgraph._inner l)) in
  let l' := snd (Langgraph.logging_export spans l) in
  exists new,
    Langgraph.logger l' = Langgraph.logger l ++ new
    /\ (o = Return SUCCESS -> new = [])
    /\ (o = Return FAILURE ->
        map levelname new = [WARNING]
        /\ map args new
           = [[AResult FAILURE; AInt (Z.of_nat (length spans))]])
    /\ (forall e, o = Raise e -> isinstance e HException = true ->
        map levelname new = [ERROR] /\ map exc_info new = [true]
        /\ map args new = [[AExn e]])
    /\ (forall e, o = Raise e -> isinstance e HException = false ->
        new = []).
Proof.
  intros o l'. subst o l'. rewrite logging_export_run.
  destruct (export spans (Langgraph._inner l)) as [[[]|e] d];
    cbn [fst snd Langgraph.logger].
  - exists []. split; [cbn; by rewrite !app_nil_r|].
    repeat split; intros; try congruence; done.
  - eexists. split; [reflexivity|].
    repeat split; intros; try congruence; done.
  - destruct (isinstance e HException) eqn:E; cbn [snd Langgraph.logger].
    + eexists. split; [reflexivity|].
      split; [congruence|]. split; [congruence|].
      split; [by intros e0 [= <-] _ | intros e0 [= <-] ?; congruence].
    + exists []. split; [by rewrite app_nil_r|].
      split; [done|]. split; [congruence|].
      split; [intros e0 [= <-] ?; congruence | done].
Qed.

(** ** The host's other exits *)

(** X7: when the part of the run before the report raises an
    [Exception], both hosts add one line that carries its message to
    what that part printed (nothing, in otel_llm_log.py) and end with
    status 1; anything else that is raised there ([SystemExit], an
    interrupt) passes through [main], which prints nothing of its
    own. *)
Theorem host_failure_path (env : gmap string string) (delegate : D)
    (produce_root : M (Root.TrackingSpanExporter D) unit)
    (produce_langgraph : M (@Langgraph.Host D) unit)
    (e : exn) (t' : Root.TrackingSpanExporter D)
    (g' : @Langgraph.Host D) :
  produce_root (Root.init delegate) = (Raise e, t') ->
  produce_langgraph
    {| Langgraph.exporter := Langgraph.wrap_exporter_with_logging delegate;
       Langgraph.stdout := [] |}
    = (Raise e, g') ->
  let root := Root.main env delegate produce_root in
  let langgraph := Langgraph.main env delegate produce_langgraph in
  (isinstance e HException = true ->
   exit_status (fst root) = 1%Z
   /\ Root.stdout (snd root)
      = ["Failed to create or export spans: " +:+ exn_msg e]
   /\ exit_status (fst langgraph) = 1%Z
   /\ Langgraph.stdout (snd langgraph)
      = Langgraph.stdout g' ++ ["Failed: " +:+ exn_msg e])
  /\ (isinstance e HException = false ->
      fst root = Raise e /\ Root.stdout (snd root) = []
      /\ fst langgraph = Raise e
      /\ Langgraph.stdout (snd langgraph) = Langgraph.stdout g').
Proof.
  intros Hr Hl root langgraph. subst root langgraph.
  unfold Root.main, Langgraph.main, Root.main_try, Langgraph.main_try,
    try_excepts, bind, Root.on_tracking.
  cbn [Root.tracking]. rewrite Hr, Hl. cbn [dispatch].
  destruct (isinstance e HException); split; intros; done.
Qed.

End WrapperRecords.

Section HostExit.
Context {D : Type} `{SpanExporter D}.

(** X8: [main] of either host returns exactly when the run before the
    report returned and left [last_result = SUCCESS]; an exception that
    leaves [main] is the [SystemExit(1)] that [main] raises itself, or
    something that run raised and that is not an [Exception]. *)
Theorem host_outcomes (env : gmap string string) (delegate : D)
    (produce_root : M (Root.TrackingSpanExporter D) unit)
    (produce_langgraph : M (@Langgraph.Host D) unit) :
  let root := Root.main env delegate produce_root in
  let langgraph := Langgraph.main env delegate produce_langgraph in
  let started : @Langgraph.Host D :=
    {| Langgraph.exporter := Langgraph.wrap_exporter_with_logging delegate;
       Langgraph.stdout := [] |} in
  let exit_1 := {| exn_class := SystemExit 1; exn_msg := "" |} in
  (fst root = Return tt
   <-> exists t', produce_root (Root.init delegate) = (Return tt, t')
                  /\ Root.last_result t' = Some SUCCESS)
  /\ (fst langgraph = Return tt
      <-> exists g', produce_langgraph started = (Return tt, g')
                     /\ Langgraph.last_result (Langgraph.exporter g')
                        = Some SUCCESS)
  /\ (forall e, fst root = Raise e ->
                e = exit_1
                \/ (isinstance e HException = false
                    /\ exists t', produce_root (Root.init delegate)
                                  = (Raise e, t')))
  /\ (forall e, fst langgraph = Raise e ->
                e = exit_1
                \/ (isinstance e HException = false
                    /\ exists g', produce_langgraph started = (Raise e, g'))).
Proof.
  intros root langgraph started exit_1.
  assert (fst root
          = match produce_root (Root.init delegate) with
            | (Return _, t') =>
                if is_SUCCESS (Root.last_result t') then Return tt
                else Raise exit_1
            | (Raise e, _) =>
                if isinstance e HException then Raise exit_1 else Raise e
            end) as Hroot.
  { subst root. destruct (produce_root (Root.init delegate))
      as [[[]|e] t'] eqn:E.
    - unfold Root.main.
      rewrite (root_main_try_run (get_endpoint env) produce_root
                 {| Root.tracking := Root.init delegate; Root.stdout := [] |}
                 t' E).
      by destruct (is_SUCCESS (Root.last_result t')).
    - unfold Root.main, Root.main_try, try_excepts, bind, Root.on_tracking.
      cbn [Root.tracking]. rewrite E. cbn [dispatch].
      by destruct (isinstance e HException). }
  assert (fst langgraph
          = match produce_langgraph started with
            | (Return _, g') =>
                if is_SUCCESS (Langgraph.last_result (Langgraph.exporter g'))
                then Return tt else Raise exit_1
            | (Raise e, _) =>
                if isinstance e HException then Raise exit_1 else Raise e
            end) as Hlang.
  { subst langgraph started.
    destruct (produce_langgraph _) as [[[]|e] g'] eqn:E.
    - unfold Langgraph.main.
      rewrite (langgraph_main_try_run (get_endpoint env) produce_langgraph
                 _ g' E).
      by destruct (is_SUCCESS (Langgraph.last_result (Langgraph.exporter g'))).
    - unfold Langgraph.main, Langgraph.main_try, try_excepts, bind.
      rewrite E. cbn [dispatch].
      by destruct (isinstance e HException). }
  rewrite Hroot, Hlang. clear Hroot Hlang.
  split; [|split; [|split]].
  - destruct (produce_root (Root.init delegate)) as [[[]|e] t'].
    + pose proof (is_SUCCESS_iff (Root.last_result t')) as [T1 T2].
      destruct (is_SUCCESS (Root.last_result t')).
      * split; [intros _; exists t'; by split; [|apply T1]|done].
      * split; [done|]. intros (t0 & [= <-] & S). by specialize (T2 S).
    + split; [by destruct (isinstance e HException)|].
      by intros (t0 & [=] & _).
  - destruct (produce_langgraph started) as [[[]|e] g'].
    + pose proof (is_SUCCESS_iff
                    (Langgraph.last_result (Langgraph.exporter g')))
        as [T1 T2].
      destruct (is_SUCCESS (Langgraph.last_result (Langgraph.exporter g'))).
      * split; [intros _; exists g'; by split; [|apply T1]|done].
      * split; [done|]. intros (g0 & [= <-] & S). by specialize (T2 S).
    + split; [by destruct (isinstance e HException)|].
      by intros (g0 & [=] & _).
  - intros e0. destruct (produce_root (Root.init delegate)) as [[[]|e] t'].
    + destruct (is_SUCCESS (Root.last_result t')); [done|].
      intros [= <-]. by left.
    + destruct (isinstance e HException) eqn:E.
      * intros [= <-]. by left.
      * intros [= <-]. right. split; [done|]. by exists t'.
  - intros e0. destruct (produce_langgraph started) as [[[]|e] g'].
    + destruct (is_SUCCESS (Langgraph.last_result (Langgraph.exporter g')));
        [done|].
      intros [= <-]. by left.
    + destruct (isinstance e HException) eqn:E.
      * intros [= <-]. by left.
      * intros [= <-]. right. split; [done|]. by exists g'.
Qed.

End HostExit.

Lemma recorded_state_survives_shutdown_witness :
  let t : Root.TrackingSpanExporter Scripted :=
    snd (Root.tracking_export reference_batch
           (Root.init (scripted [Raise connection_refused]))) in
  recorded (snd (perform_all [CallForceFlush 3000; CallShutdown] t))
  = (Some FAILURE, Some connection_refused).
Proof.
  intros t.
  refine (eq_trans (proj1 (@recorded_state_survives_shutdown Scripted
            Scripted_exporter [CallForceFlush 3000; CallShutdown] t
            (Langgraph.wrap_exporter_with_logging (scripted [])) _)) _);
    [|reflexivity].
  repeat constructor; intros spans; discriminate.
Defined.

Lemma returned_export_overwrites_record_witness :
  let t : Root.TrackingSpanExporter Scripted :=
    snd (Root.tracking_export []
           (Root.init (scripted [Raise connection_refused; Return SUCCESS]))) in
  recorded t = (Some FAILURE, Some connection_refused)
  /\ recorded (snd (Root.tracking_export reference_batch t))
     = (Some SUCCESS, None).
Proof.
  intros t. split; [reflexivity|].
  exact (proj1 (@returned_export_overwrites_record Scripted Scripted_exporter
                  reference_batch t
                  (Langgraph.wrap_exporter_with_logging (scripted []))
                  SUCCESS eq_refl eq_refl)).
Defined.

Lemma raised_export_record_witness :
  let l : Langgraph.LoggingSpanExporter Scripted :=
    snd (Langgraph.logging_export reference_batch
           (Langgraph.wrap_exporter_with_logging
              (scripted [Return SUCCESS; Raise connection_refused]))) in
  Langgraph.last_result (snd (Langgraph.logging_export [] l))
  = Some SUCCESS
  /\ Langgraph.last_error (snd (Langgraph.logging_export [] l))
     = Some connection_refused.
Proof.
  intros l.
  destruct (@raised_export_record Scripted Scripted_exporter []
              (Root.init (scripted [Raise connection_refused])) l
              connection_refused eq_refl eq_refl eq_refl)
    as (_ & A & B & _).
  split; [exact B | exact A].
Defined.

Lemma host_failure_path_witness :
  let boom : exn := {| exn_class := OtherException; exn_msg := "boom" |} in
  let run_one : M (@Langgraph.Host Scripted) unit :=
    (Langgraph.print "[agent_otel] run_one starting" ;;; raise boom)%py in
  Root.stdout
    (snd (Root.main ∅ (scripted []) (fun t => (Raise boom, t))))
  = ["Failed to create or export spans: boom"]
  /\ Langgraph.stdout (snd (Langgraph.main ∅ (scripted []) run_one))
     = ["[agent_otel] run_one starting"; "Failed: boom"].
Proof.
  intros boom run_one.
  pose proof (@host_failure_path Scripted ∅ (scripted [])
                (fun t => (Raise boom, t)) run_one boom
                (Root.init (scripted []))
                (snd (run_one
                        {| Langgraph.exporter :=
                             Langgraph.wrap_exporter_with_logging (scripted []);
                           Langgraph.stdout := [] |}))
                eq_refl eq_refl) as P.
  cbv zeta in P. destruct P as [P _].
  destruct (P eq_refl) as (_ & A & _ & B).
  split; [exact A | exact B].
Defined.

(** An interrupt during the run: [main] lets it through and adds
    nothing to the line [run_one] had printed. *)
Example host_interrupted :
  let run_one : M (@Langgraph.Host Scripted) unit :=
    (Langgraph.print "[agent_otel] run_one starting" ;;; raise interrupted)%py in
  fst (Langgraph.main ∅ (scripted []) run_one) = Raise interrupted
  /\ Langgraph.stdout (snd (Langgraph.main ∅ (scripted []) run_one))
     = ["[agent_otel] run_one starting"].
Proof. vm_compute. done. Qed.

(** ** More on endpoint resolution *)

Lemma lstrip_by_head (p : ascii -> bool) (s : string) (c : ascii) :
  PyStr.head (PyStr.lstrip_by p s) = Some c -> p c = false.
Proof.
  induction s as [|a r IH]; [done|]. cbn [PyStr.lstrip_by].
  destruct (p a) eqn:E; [exact IH|]. cbn. by intros [= <-].
Qed.

Lemma lstrip_by_last (p : ascii -> bool) (s : string) :
  PyStr.lstrip_by p s <> "" ->
  PyStr.last (PyStr.lstrip_by p s) = PyStr.last s.
Proof.
  induction s as [|a r IH]; [done|]. cbn [PyStr.lstrip_by].
  destruct (p a); [|done]. intros Hne. rewrite (IH Hne).
  destruct r as [|b r']; [done|]. reflexivity.
Qed.

Lemma rstrip_by_head (p : ascii -> bool) (s : string) :
  PyStr.rstrip_by p s <> "" ->
  PyStr.head (PyStr.rstrip_by p s) = PyStr.head s.
Proof.
  destruct s as [|a r]; [done|]. cbn [PyStr.rstrip_by].
  by destruct (PyStr.is_empty (PyStr.rstrip_by p r) && p a).
Qed.

Lemma trimmed_intro (s : string) (a b : ascii) :
  PyStr.head s = Some a -> PyStr.last s = Some b ->
  PyStr.isspace a = false -> PyStr.isspace b = false ->
  PyStr.trimmed s = true.
Proof. unfold PyStr.trimmed. by intros -> -> -> ->. Qed.

Lemma trimmed_head (s : string) (a : ascii) :
  PyStr.trimmed s = true -> PyStr.head s = Some a -> PyStr.isspace a = false.
Proof.
  unfold PyStr.trimmed. intros Ht Hh. rewrite Hh in Ht.
  destruct s as [|c r]; [done|].
  destruct (last_cons_Some c r) as [b Hb]. rewrite Hb in Ht.
  apply andb_true_iff in Ht as [Ht _]. by apply negb_true_iff in Ht.
Qed.

Lemma trimmed_last (s : string) (b : ascii) :
  PyStr.trimmed s = true -> PyStr.last s = Some b -> PyStr.isspace b = false.
Proof.
  unfold PyStr.trimmed. intros Ht Hl. rewrite Hl in Ht.
  destruct s as [|c r]; [done|]. cbn [PyStr.head] in Ht.
  apply andb_true_iff in Ht as [_ Ht]. by apply negb_true_iff in Ht.
Qed.

Lemma trimmed_strip (s : string) : PyStr.trimmed (PyStr.strip s) = true.
Proof.
  unfold PyStr.strip.
  destruct (PyStr.lstrip_by PyStr.isspace
              (PyStr.rstrip_by PyStr.isspace s)) as [|a r] eqn:E; [done|].
  destruct (last_cons_Some a r) as [b Hb].
  apply (trimmed_intro _ a b); [done | done | |].
  - apply (lstrip_by_head PyStr.isspace (PyStr.rstrip_by PyStr.isspace s)).
    by rewrite E.
  - apply (rstrip_by_no_trailing PyStr.isspace s).
    rewrite <- (lstrip_by_last PyStr.isspace
                  (PyStr.rstrip_by PyStr.isspace s)); by rewrite E.
Qed.

Lemma last_append (a b : string) :
  b <> "" -> PyStr.last (a +:+ b) = PyStr.last b.
Proof.
  intros Hb. induction a as [|c a IH]; [done|].
  change (String c a +:+ b) with (String c (a +:+ b)).
  destruct (a +:+ b) as [|x y] eqn:E.
  - destruct a as [|x a'].
    + destruct (Hb E).
    + change (String x a' +:+ b) with (String x (a' +:+ b)) in E.
      discriminate E.
  - exact IH.
Qed.

Lemma head_append (a b : string) :
  a <> "" -> PyStr.head (a +:+ b) = PyStr.head a.
Proof. by destruct a. Qed.

Lemma endswith_last (s suffix : string) :
  PyStr.endswith s suffix = true -> suffix <> "" ->
  PyStr.last s = PyStr.last suffix.
Proof.
  intros E Hs. induction s as [|c r IH].
  - cbn in E. destruct suffix; [done | discriminate].
  - cbn [PyStr.endswith] in E.
    destruct (String.eqb (String c r) suffix) eqn:Q.
    + apply String.eqb_eq in Q. by subst suffix.
    + specialize (IH E). destruct r as [|x y]; [|exact IH].
      cbn in E. destruct suffix; [done | discriminate].
Qed.

Lemma get_endpoint_nonempty (env : gmap string string) :
  get_endpoint env <> "".
Proof.
  unfold get_endpoint.
  destruct (PyStr.truthy (PyStr.strip _)) eqn:T; [by apply truthy_true|].
  destruct (PyStr.truthy (PyStr.rstrip_char _ _)) eqn:B; [|done].
  cbn [negb]. apply truthy_true in B.
  destruct (PyStr.endswith _ _); [done|].
  by destruct (PyStr.rstrip_char _ _).
Qed.

Lemma get_endpoint_trimmed (env : gmap string string) :
  PyStr.trimmed (get_endpoint env) = true.
Proof.
  unfold get_endpoint.
  destruct (PyStr.truthy (PyStr.strip _)) eqn:T; [apply trimmed_strip|].
  set (g := PyStr.strip (environ_get env "OTEL_EXPORTER_OTLP_ENDPOINT")).
  destruct (PyStr.truthy (PyStr.rstrip_char "/" g)) eqn:B; [|done].
  cbn [negb]. apply truthy_true in B.
  assert (exists a, PyStr.head (PyStr.rstrip_char "/" g) = Some a
                    /\ PyStr.isspace a = false) as (a & Ha & Sa).
  { destruct (PyStr.rstrip_char "/" g) as [|a r] eqn:E; [done|].
    exists a. split; [done|].
    apply (trimmed_head g); [apply trimmed_strip|].
    unfold PyStr.rstrip_char in E.
    rewrite <- (rstrip_by_head (Ascii.eqb "/") g); by rewrite E. }
  destruct (PyStr.endswith _ _) eqn:E.
  - apply (trimmed_intro _ a "s"); [done | | done | done].
    by rewrite (endswith_last _ _ E).
  - apply (trimmed_intro _ a "s"); [| | done | done].
    + by rewrite head_append.
    + by rewrite last_append.
Qed.

(** X9: the resolved endpoint is never empty and carries no surrounding
    whitespace, and resolution is idempotent: with the resolved endpoint
    set as the explicit traces endpoint, whatever else the environment
    holds, the same endpoint is resolved. *)
Theorem endpoint_resolution_idempotent (env env' : gmap string string) :
  get_endpoint env <> ""
  /\ PyStr.strip (get_endpoint env) = get_endpoint env
  /\ get_endpoint
       (<["OTEL_EXPORTER_OTLP_TRACES_ENDPOINT" := get_endpoint env]> env')
     = get_endpoint env.
Proof.
  split; [apply get_endpoint_nonempty|].
  split; [apply strip_trimmed, get_endpoint_trimmed|].
  apply get_endpoint_explicit.
  - apply lookup_insert_eq.
  - apply get_endpoint_nonempty.
  - apply get_endpoint_trimmed.
Qed.

Lemma rstrip_by_replicate (p : ascii -> bool) (c : ascii) (n : nat) :
  p c = true -> PyStr.rstrip_by p (replicate_char n c) = "".
Proof.
  intros Hp. induction n as [|n IH]; [done|].
  cbn [replicate_char PyStr.rstrip_by]. by rewrite IH, Hp.
Qed.

Lemma rstrip_by_append_replicate (p : ascii -> bool) (c : ascii) (n : nat)
    (s : string) :
  p c = true ->
  PyStr.rstrip_by p (s +:+ replicate_char n c) = PyStr.rstrip_by p s.
Proof.
  intros Hp. induction s as [|a r IH].
  - by apply rstrip_by_replicate.
  - change (String a r +:+ replicate_char n c)
      with (String a (r +:+ replicate_char n c)).
    cbn [PyStr.rstrip_by]. by rewrite IH.
Qed.

Lemma trimmed_append_slashes (g : string) (n : nat) :
  PyStr.trimmed g = true ->
  PyStr.trimmed (g +:+ replicate_char n "/") = true.
Proof.
  intros Hg. destruct n as [|n].
  - replace (g +:+ replicate_char 0 "/") with g; [done|].
    clear Hg. induction g as [|a r IH]; [done|].
    change (String a r +:+ replicate_char 0 "/")
      with (String a (r +:+ replicate_char 0 "/")). by rewrite <- IH.
  - assert (PyStr.last (g +:+ replicate_char (S n) "/") = Some "/"%char)
      as Hl.
    { rewrite last_append by done. clear. induction n as [|n IH]; [done|].
      exact IH. }
    destruct g as [|a r].
    + apply (trimmed_intro _ "/" "/"); done.
    + apply (trimmed_intro _ a "/"); [done | done | | done].
      by apply (trimmed_head (String a r)).
Qed.

(** X10: trailing slashes on the generic endpoint do not matter: for a
    value without surrounding whitespace, any number of slashes appended
    to it resolves to the same endpoint. *)
Theorem endpoint_trailing_slashes (env : gmap string string) (g : string)
    (n : nat) :
  PyStr.trimmed g = true ->
  get_endpoint
    (<["OTEL_EXPORTER_OTLP_ENDPOINT" := g +:+ replicate_char n "/"]> env)
  = get_endpoint (<["OTEL_EXPORTER_OTLP_ENDPOINT" := g]> env).
Proof.
  intros Hg. unfold get_endpoint, environ_get.
  rewrite !lookup_insert_eq. rewrite !lookup_insert_ne by done.
  cbn [default from_option id].
  rewrite (strip_trimmed _ (trimmed_append_slashes g n Hg)).
  rewrite (strip_trimmed g Hg).
  unfold PyStr.rstrip_char. by rewrite rstrip_by_append_replicate.
Qed.

Lemma endpoint_trailing_slashes_witness :
  get_endpoint {[ "OTEL_EXPORTER_OTLP_ENDPOINT" := "http://collector:4318///" ]}
  = get_endpoint {[ "OTEL_EXPORTER_OTLP_ENDPOINT" := "http://collector:4318" ]}.
Proof.
  pose proof (endpoint_trailing_slashes ∅ "http://collector:4318" 3 eq_refl)
    as P.
  rewrite !insert_empty in P. exact P.
Defined.

(** X11: the exporter a host builds from its environment posts every
    request to the resolved endpoint, which is not empty.  It holds the
    header mapping of the environment when that is not empty; when it
    is empty the factory is given [None], and the exporter holds the
    mapping the library constructor falls back to. *)
Theorem exporter_from_env_target (sdk : SdkSettings)
    (parse : string -> gmap string string) (env : gmap string string)
    (z : Codecs) (serialized_data : bytes) (timeout_sec : option seconds)
    (w : World) :
  let self := exporter_from_env sdk parse env in
  _endpoint self = get_endpoint env
  /\ _endpoint self <> ""
  /\ Forall (fun r => url r = get_endpoint env)
       (sent (Root._export z self serialized_data timeout_sec) w
        ++ sent (Langgraph._export z self serialized_data timeout_sec) w)
  /\ (get_headers parse env <> ∅ -> _headers self = get_headers parse env)
  /\ (get_headers parse env = ∅ -> _headers self = sdk_headers sdk).
Proof.
  intros self. subst self.
  rewrite root_export_sent, langgraph_export_sent.
  unfold exporter_from_env, create_otlp_exporter_no_ssl, or_None.
  cbn [_endpoint _headers].
  split; [done|]. split; [apply get_endpoint_nonempty|]. split.
  - destruct (connection_failed _); repeat constructor.
  - repeat case_decide; naive_solver.
Qed.

(** ** The workflow nodes: what they do to the console *)

Lemma console_app_fresh_l (c : Workflow.Console) :
  console_app fresh_console c = c.
Proof. by destruct c. Qed.

Lemma console_app_fresh_r (c : Workflow.Console) :
  console_app c fresh_console = c.
Proof. destruct c. unfold console_app. cbn. by rewrite !app_nil_r. Qed.

Lemma console_app_assoc (a b c : Workflow.Console) :
  console_app (console_app a b) c = console_app a (console_app b c).
Proof. unfold console_app. cbn. by rewrite !app_assoc. Qed.

Lemma appends_only_ret {A} (a : A) : appends_only (ret a).
Proof. intros c. unfold ret. cbn. by rewrite console_app_fresh_r. Qed.

Lemma appends_only_raise {A} (e : exn) : appends_only (@raise _ A e).
Proof. intros c. unfold raise. cbn. by rewrite console_app_fresh_r. Qed.

Lemma appends_only_lift {A} (o : outcome A) : appends_only (Workflow.lift o).
Proof. intros c. unfold Workflow.lift. cbn. by rewrite console_app_fresh_r. Qed.

Lemma appends_only_say (line : list Workflow.Piece) :
  appends_only (Workflow.say line).
Proof.
  intros c. unfold Workflow.say, modify, console_app. cbn.
  by rewrite app_nil_r.
Qed.

Lemma appends_only_create (llm : Workflow.LLMRequest ->
                                 outcome Workflow.ChatCompletion)
    (r : Workflow.LLMRequest) :
  appends_only (Workflow.create_completion llm r).
Proof.
  intros c. unfold Workflow.create_completion, console_app. cbn.
  by rewrite app_nil_r.
Qed.

Lemma appends_only_bind {A B} (m : M Workflow.Console A)
    (k : A -> M Workflow.Console B) :
  appends_only m -> (forall a, appends_only (k a)) ->
  appends_only (bind m k).
Proof.
  intros Hm Hk c. unfold bind. rewrite (Hm c).
  destruct (m fresh_console) as [[a|e] d]; cbn [fst snd].
  - rewrite (Hk a (console_app c d)), (Hk a d).
    cbn [fst snd]. by rewrite console_app_assoc.
  - done.
Qed.

Lemma appends_only_try {A} (m : M Workflow.Console A) (h : handler)
    (k : exn -> M Workflow.Console A) :
  appends_only m -> (forall e, appends_only (k e)) ->
  appends_only (try_excepts m [(h, k)]).
Proof.
  intros Hm Hk c. unfold try_excepts. rewrite (Hm c).
  destruct (m fresh_console) as [[a|e] d]; cbn [fst snd dispatch]; [done|].
  destruct (isinstance e h).
  - rewrite (Hk e (console_app c d)), (Hk e d).
    cbn [fst snd]. by rewrite console_app_assoc.
  - by unfold raise.
Qed.

Lemma appends_only_map_M {A B} (f : A -> M Workflow.Console B) (l : list A) :
  (forall x, appends_only (f x)) -> appends_only (Workflow.map_M f l).
Proof.
  intros Hf. induction l as [|x l IH]; cbn [Workflow.map_M].
  - apply appends_only_ret.
  - apply appends_only_bind; [apply Hf|]. intros y.
    apply appends_only_bind; [apply IH|]. intros ys. apply appends_only_ret.
Qed.

Create HintDb console discriminated.
#[local] Hint Resolve appends_only_ret appends_only_raise appends_only_lift
  appends_only_say appends_only_create appends_only_map_M : console.
#[local] Hint Extern 2 (appends_only (bind _ _)) =>
  apply appends_only_bind; [|intros ?] : console.
#[local] Hint Extern 2 (appends_only (try_excepts _ _)) =>
  apply appends_only_try; [|intros ?] : console.
#[local] Hint Extern 3 (appends_only (match ?x with _ => _ end)) =>
  destruct x : console.
#[local] Hint Extern 3 (appends_only (if ?x then _ else _)) =>
  destruct x : console.

Section WorkflowConsole.
Context (env : gmap string string).
Context (llm : Workflow.LLMRequest -> outcome Workflow.ChatCompletion).
Context (json_loads : string -> outcome Workflow.value).

Lemma appends_only_call (query : string) :
  appends_only
    (Workflow._call_local_llm_if_configured env llm json_loads query).
Proof.
  unfold Workflow._call_local_llm_if_configured, Workflow.convert_tool_call,
    sys_exit.
  auto 20 with console.
Qed.

End WorkflowConsole.

(** ** The agent node *)

Lemma str_or_nonempty (s other : string) :
  other <> "" -> Workflow.str_or s other <> "".
Proof.
  intros Ho. unfold Workflow.str_or.
  destruct (PyStr.truthy s) eqn:E; [by apply truthy_true | done].
Qed.

Lemma try_excepts_contains {S A} (m : M S A) (k : exn -> M S A) (s : S)
    (e : exn) :
  (forall e' s', exists a s'', k e' s' = (Return a, s'')) ->
  fst (try_excepts m [(HException, k)] s) = Raise e ->
  isinstance e HException = false.
Proof.
  intros Hk. unfold try_excepts.
  destruct (m s) as [[a|e'] s']; cbn [fst dispatch]; [done|].
  destruct (isinstance e' HException) eqn:E.
  - destruct (Hk e' s') as (a & s'' & ->). done.
  - unfold raise. cbn. by intros [= <-].
Qed.

Section WorkflowNodes.
Context (env : gmap string string).
Context (llm : Workflow.LLMRequest -> outcome Workflow.ChatCompletion).
Context (json_loads : string -> outcome Workflow.value).

Abbreviation call :=
  (Workflow._call_local_llm_if_configured env llm json_loads).
Abbreviation agent := (Workflow.agent_node env llm json_loads).

Lemma call_unconfigured (query : string) (c : Workflow.Console) :
  PyStr.strip (environ_get env "OPENAI_BASE_URL") = "" ->
  call query c
  = (Return None,
     console_app c
       {| Workflow.printed :=
            [[Workflow.Lit
                ("[workflow] Local LLM not configured "
                 +:+ "(OPENAI_BASE_URL unset), using synthetic response")]];
          Workflow.llm_requests := [] |}).
Proof.
  intros E. unfold Workflow._call_local_llm_if_configured.
  rewrite E. cbn [PyStr.truthy PyStr.is_empty negb].
  unfold bind, Workflow.say, modify, ret, console_app. cbn.
  by rewrite app_nil_r.
Qed.

(** X13: without a base URL ([OPENAI_BASE_URL] unset, empty or blank) the
    LLM is never called: the helper prints one line and returns [None],
    and the agent node returns the synthetic assistant message, for every
    query and every state. *)
Theorem llm_not_configured (query : string) (state : Workflow.State)
    (c : Workflow.Console) :
  PyStr.strip (environ_get env "OPENAI_BASE_URL") = "" ->
  call query c
  = (Return None,
     console_app c
       {| Workflow.printed :=
            [[Workflow.Lit
                ("[workflow] Local LLM not configured "
                 +:+ "(OPENAI_BASE_URL unset), using synthetic response")]];
          Workflow.llm_requests := [] |})
  /\ fst (agent state c) = Return (agent_returns Workflow.synthetic_output)
  /\ Workflow.llm_requests (snd (agent state c)) = Workflow.llm_requests c.
Proof.
  intros E. split; [by apply call_unconfigured|].
  unfold Workflow.agent_node, bind, Workflow.say, modify.
  rewrite (call_unconfigured _ _ E). cbn. by rewrite app_nil_r.
Qed.

(** X14: no [Exception] escapes the helper or the agent node: when the
    LLM call, the access to the first choice or the parsing of a tool
    call's arguments raises one, the helper prints a line with its
    message and returns [None], and the agent node falls back to the
    synthetic assistant message. *)
Theorem llm_failure_contained (query : string) (state : Workflow.State)
    (c : Workflow.Console) :
  (forall e, fst (call query c) = Raise e -> isinstance e HException = false)
  /\ (forall e, fst (agent state c) = Raise e ->
                isinstance e HException = false)
  /\ (forall e,
        PyStr.strip (environ_get env "OPENAI_BASE_URL") <> "" ->
        llm {| Workflow.req_base_url :=
                 PyStr.strip (environ_get env "OPENAI_BASE_URL");
               Workflow.req_api_key :=
                 default "lm-studio" (env !! "OPENAI_API_KEY");
               Workflow.req_model := default "local" (env !! "OPENAI_MODEL");
               Workflow.req_content := query |} = Raise e ->
        isinstance e HException = true ->
        fst (call query c) = Return None
        /\ last (Workflow.printed (snd (call query c)))
           = Some [Workflow.Lit "[workflow] Local LLM call failed: ";
                   Workflow.Lit (exn_msg e)]).
Proof.
  assert (forall q c0 e, fst (call q c0) = Raise e ->
                         isinstance e HException = false) as Hc.
  { intros q c0 e. unfold Workflow._call_local_llm_if_configured.
    destruct (PyStr.truthy _); cbn [negb]; [|done].
    unfold bind at 1. unfold Workflow.say at 1. unfold modify at 1.
    apply try_excepts_contains. intros e' s'. by eexists _, _. }
  split; [apply Hc|]. split.
  - intros e. unfold Workflow.agent_node, bind, Workflow.say, modify.
    destruct (call _ _) as [[o|e'] c'] eqn:E; [done|].
    cbn. intros [= <-]. exact (Hc _ _ e' (f_equal fst E)).
  - intros e Hb Hl Hx. apply truthy_true in Hb.
    unfold Workflow._call_local_llm_if_configured.
    rewrite Hb. cbn [negb].
    unfold bind, try_excepts, Workflow.say, modify,
      Workflow.create_completion, ret.
    cbn [Workflow.printed Workflow.llm_requests]. rewrite Hl.
    cbn [dispatch]. rewrite Hx. cbn. by rewrite last_snoc.
Qed.

Lemma convert_all_shape (l : list Workflow.ToolCall) (c c' : Workflow.Console)
    (ys : list Workflow.value) :
  Workflow.map_M (Workflow.convert_tool_call json_loads) l c
    = (Return ys, c') ->
  length ys = length l /\ Forall is_tool_call ys.
Proof.
  revert c c' ys. induction l as [|tc l IH]; intros c c' ys.
  - cbn. by intros [= <- _].
  - cbn [Workflow.map_M]. unfold bind at 1.
    unfold Workflow.convert_tool_call at 1. unfold bind at 1.
    unfold Workflow.lift at 1.
    destruct (json_loads _) as [a|e]; [|done]. unfold ret at 1.
    unfold bind at 1.
    destruct (Workflow.map_M _ l c) as [[zs|e] c1] eqn:E; [|done].
    destruct (IH _ _ _ E) as [Hl Hf]. unfold ret. intros [= <- _].
    split; [cbn; by rewrite Hl|]. constructor; [|done].
    eexists _, _, _, _. split; [reflexivity|]. by simplify_map_eq.
Qed.

Lemma call_shape (query : string) (c : Workflow.Console)
    (d : gmap string Workflow.value) :
  fst (call query c) = Return (Some d) ->
  exists content calls m,
    d = {[ "content" := Workflow.VStr content;
           "tool_calls" := Workflow.VList calls;
           "model" := Workflow.VStr m ]}
    /\ calls <> [] /\ Forall is_tool_call calls /\ m <> "".
Proof.
  unfold Workflow._call_local_llm_if_configured.
  destruct (PyStr.truthy _); cbn [negb]; [|done].
  unfold bind at 1. unfold Workflow.say at 1. unfold modify at 1.
  unfold try_excepts. unfold bind at 1. unfold Workflow.create_completion.
  destruct (llm _) as [resp|e].
  2:{ cbn [dispatch]. by destruct (isinstance e HException). }
  unfold bind at 1. unfold Workflow.lift at 1.
  destruct (Workflow.choices resp) as [|message rest]; [done|].
  unfold bind at 1. unfold Workflow.say at 1. unfold modify at 1.
  unfold bind at 1.
  assert (Workflow.str_or (Workflow.model resp) Workflow.DEFAULT_MODEL <> "")
    as Hm by (by apply str_or_nonempty).
  destruct (default [] (Workflow.tool_calls message)) as [|tc tcs] eqn:Et.
  - unfold ret. cbn [fst]. intros [= <-]. eexists _, _, _.
    split; [reflexivity|]. split; [done|]. split; [|done].
    constructor; [|done]. eexists _, _, _, _. split; [reflexivity|].
    by vm_compute.
  - destruct (Workflow.map_M _ (tc :: tcs) _) as [[ys|e] c1] eqn:E.
    + destruct (convert_all_shape _ _ _ _ E) as [Hl Hf].
      unfold ret. cbn [fst]. intros [= <-]. eexists _, _, _.
      split; [reflexivity|]. split; [|done].
      intros ->. cbn in Hl. lia.
    + cbn [dispatch]. by destruct (isinstance e HException).
Qed.

(** X15: whenever the agent node returns, it returns the one key
    [agent_output], holding a content string, a model name that is not
    empty and a list of tool calls that is not empty, each of them a
    dictionary with an id, a name and arguments; this holds whatever the
    LLM answered. *)
Theorem agent_output_shape (state : Workflow.State) (c : Workflow.Console)
    (u : Workflow.State) :
  fst (agent state c) = Return u ->
  exists d content calls m,
    u = agent_returns d
    /\ d !! "content" = Some (Workflow.VStr content)
    /\ d !! "tool_calls" = Some (Workflow.VList calls)
    /\ d !! "model" = Some (Workflow.VStr m)
    /\ calls <> [] /\ Forall is_tool_call calls /\ m <> "".
Proof.
  unfold Workflow.agent_node, bind, Workflow.say, modify.
  destruct (call _ _) as [[[d|]|e] c'] eqn:E; [| |done].
  - destruct (call_shape _ _ d (f_equal fst E))
      as (content & calls & m & -> & Hc & Hf & Hm).
    unfold ret. cbn. intros [= <-]. eexists _, content, calls, m.
    split; [reflexivity|]. by simplify_map_eq.
  - unfold ret. cbn. intros [= <-].
    eexists _, "", [Workflow.synthetic_tool_call], Workflow.DEFAULT_MODEL.
    split; [reflexivity|]. repeat split; try done.
    constructor; [|done]. eexists _, _, _, _. split; [reflexivity|].
    by vm_compute.
Qed.

(** ** The tools node *)

Lemma tools_node_run (state : Workflow.State) (c : Workflow.Console) :
  Workflow.tools_node state c
  = match Workflow.elements (Workflow.tool_calls_of state) with
    | Raise e => (Raise e, c)
    | Return calls =>
        match Workflow.first_weather_call calls with
        | Raise e => (Raise e, c)
        | Return found =>
            let args := match found with
                        | Some (a, _) => a
                        | None => Workflow.VDict Workflow.TOOL_ARGS
                        end in
            let tool_name := match found with
                             | Some (_, n) => n
                             | None => Workflow.VStr Workflow.TOOL_NAME
                             end in
            let c' :=
              console_app c
                {| Workflow.printed :=
                     [[Workflow.Lit "[workflow] tools_node called, tool=";
                       Workflow.Shown tool_name;
                       Workflow.Lit ", arguments="; Workflow.Shown args]];
                   Workflow.llm_requests := [] |} in
            match Workflow.weather_result args with
            | Return r => (Return (tools_returns r), c')
            | Raise e => (Raise e, c')
            end
        end
    end.
Proof.
  unfold Workflow.tools_node, bind, Workflow.lift, Workflow.say, modify, ret,
    console_app.
  destruct (Workflow.elements _) as [calls|e]; [|done].
  destruct (Workflow.first_weather_call calls) as [found|e]; [|done].
  cbn [Workflow.printed Workflow.llm_requests]. rewrite app_nil_r.
  by destruct (Workflow.weather_result _).
Qed.

Lemma weather_result_shape (args : Workflow.value)
    (r : gmap string Workflow.value) :
  Workflow.weather_result args = Return r ->
  exists a, args = Workflow.VDict a
    /\ r = <["location" := default (Workflow.VStr "Paris") (a !! "location")]>
            Workflow.TOOL_RESULT.
Proof. destruct args; try done. cbn. intros [= <-]. by eexists. Qed.

(** X16: whenever the tools node returns, it returns the one key
    [tool_result], a dictionary with exactly the keys [temp], [unit] and
    [location], where [temp] is 18 and [unit] is celsius; it has printed
    one line and made no request. *)
Theorem tool_result_shape (state : Workflow.State) (c : Workflow.Console)
    (u : Workflow.State) :
  fst (Workflow.tools_node state c) = Return u ->
  exists r location,
    u = tools_returns r
    /\ r !! "temp" = Some (Workflow.VInt 18)
    /\ r !! "unit" = Some (Workflow.VStr "celsius")
    /\ r !! "location" = Some location
    /\ dom r = {[ "temp"; "unit"; "location" ]}
    /\ length (Workflow.printed (snd (Workflow.tools_node state c)))
       = S (length (Workflow.printed c))
    /\ Workflow.llm_requests (snd (Workflow.tools_node state c))
       = Workflow.llm_requests c.
Proof.
  rewrite tools_node_run.
  destruct (Workflow.elements _) as [calls|e]; [|done].
  destruct (Workflow.first_weather_call calls) as [found|e]; [|done].
  cbv zeta.
  destruct (Workflow.weather_result _) as [r|e] eqn:E; [|done].
  destruct (weather_result_shape _ _ E) as (a & _ & ->).
  cbn [fst snd]. intros [= <-]. eexists _, _. split; [reflexivity|].
  unfold Workflow.TOOL_RESULT.
  split; [by simplify_map_eq|]. split; [by simplify_map_eq|].
  split; [by simplify_map_eq|]. split.
  - rewrite !dom_insert_L, dom_singleton_L. set_solver.
  - unfold console_app. cbn. rewrite length_app, app_nil_r. cbn.
    split; [lia | done].
Qed.

Lemma first_weather_call_skips (pre post : list Workflow.value)
    (d : gmap string Workflow.value) :
  Forall is_other_call pre ->
  Workflow.is_tool_name (d !! "name") = true ->
  Workflow.first_weather_call (pre ++ Workflow.VDict d :: post)
  = Return (Some (Workflow.value_or
                    (default Workflow.VNone (d !! "arguments"))
                    (Workflow.VDict Workflow.TOOL_ARGS),
                  default (Workflow.VStr Workflow.TOOL_NAME) (d !! "name"))).
Proof.
  intros Hpre Hd. induction Hpre as [|v pre (d' & -> & Hn) _ IH].
  - cbn. by rewrite Hd.
  - cbn. by rewrite Hn.
Qed.

Lemma truthy_dict (a : gmap string Workflow.value) :
  a <> ∅ -> Workflow.truthy (Workflow.VDict a) = true.
Proof.
  intros Hne. unfold Workflow.truthy. apply Nat.ltb_lt.
  destruct (decide (size a = 0)) as [E|E]; [|lia].
  by apply map_size_empty_iff in E.
Qed.

(** X17: the tools node answers the first tool call named
    [get_weather]: calls with another name in front of it are passed
    over and whatever follows it is not looked at.  With arguments that
    are a dictionary the location of the result is their [location], or
    Paris without one; with no arguments, or empty ones, it is Paris;
    with arguments that are neither empty nor a dictionary the node
    raises, after printing its line. *)
Theorem tools_node_first_match (state : Workflow.State)
    (c : Workflow.Console) (out d : gmap string Workflow.value)
    (pre post : list Workflow.value) :
  Workflow.agent_output state = Some out ->
  out !! "tool_calls" = Some (Workflow.VList (pre ++ Workflow.VDict d :: post)) ->
  Forall is_other_call pre ->
  Workflow.is_tool_name (d !! "name") = true ->
  let given := default Workflow.VNone (d !! "arguments") in
  let run := Workflow.tools_node state c in
  (forall a, given = Workflow.VDict a -> a <> ∅ ->
     fst run = Return (tools_returns
                 (<["location" := default (Workflow.VStr "Paris")
                                    (a !! "location")]>
                    Workflow.TOOL_RESULT)))
  /\ (Workflow.truthy given = false ->
      fst run = Return (tools_returns
                  (<["location" := Workflow.VStr "Paris"]>
                     Workflow.TOOL_RESULT)))
  /\ (Workflow.truthy given = true -> (forall a, given <> Workflow.VDict a) ->
      fst run = Raise (Workflow.AttributeError given "get")
      /\ length (Workflow.printed (snd run))
         = S (length (Workflow.printed c))).
Proof.
  intros Ho Ht Hpre Hd given run. subst run.
  rewrite tools_node_run. unfold Workflow.tool_calls_of.
  rewrite Ho. cbn [default from_option id]. rewrite Ht.
  cbn [default from_option id].
  assert (Workflow.value_or
            (Workflow.VList (pre ++ Workflow.VDict d :: post))
            (Workflow.VList
               [Workflow.VDict
                  {[ "name" := Workflow.VStr Workflow.TOOL_NAME;
                     "arguments" := Workflow.VDict Workflow.TOOL_ARGS ]}])
          = Workflow.VList (pre ++ Workflow.VDict d :: post)) as ->.
  { unfold Workflow.value_or. cbn. by destruct pre. }
  cbn [Workflow.elements].
  rewrite (first_weather_call_skips pre post d Hpre Hd). fold given.
  cbv zeta. unfold Workflow.value_or. clearbody given.
  split; [|split].
  - intros a Ha Hne. rewrite Ha.
    by rewrite (truthy_dict a Hne).
  - intros ->. done.
  - intros Hg Hnd. rewrite Hg.
    destruct given as [| b | n | s | l | a];
      try (by destruct (Hnd a));
      cbn [Workflow.weather_result fst snd]; unfold console_app;
      cbn [Workflow.printed]; rewrite length_app; cbn [length];
      (split; [done | lia]).
Qed.

(** X18: when [tool_calls] holds something that is neither empty nor a
    list (a number, a string, a dictionary), the tools node raises an
    [Exception] before it prints anything. *)
Theorem tools_node_bad_container (state : Workflow.State)
    (c : Workflow.Console) (out : gmap string Workflow.value)
    (v : Workflow.value) :
  Workflow.agent_output state = Some out ->
  out !! "tool_calls" = Some v ->
  Workflow.truthy v = true ->
  (forall l, v <> Workflow.VList l) ->
  exists e, Workflow.tools_node state c = (Raise e, c)
            /\ isinstance e HException = true.
Proof.
  intros Ho Hv Ht Hl. rewrite tools_node_run. unfold Workflow.tool_calls_of.
  rewrite Ho. cbn [default from_option id]. rewrite Hv.
  cbn [default from_option id]. unfold Workflow.value_or. rewrite Ht.
  destruct v as [| b | n | s | l | d]; try done.
  - by eexists.
  - by eexists.
  - destruct s as [|a r]; [done|]. by eexists.
  - by destruct (Hl l).
  - cbn [Workflow.elements].
    destruct (map_to_list d) as [|kv rest] eqn:E.
    + apply map_to_list_empty_iff in E. subst d. cbn in Ht.
      by rewrite map_size_empty in Ht.
    + by eexists.
Qed.

(** X19: without a base URL a run of the workflow returns, for every
    query, the state made of the query (the default one for a missing or
    empty query), the synthetic assistant message and the weather of
    Paris; it prints three lines and makes no request. *)
Theorem run_one_synthetic (query : option string) (c : Workflow.Console) :
  PyStr.strip (environ_get env "OPENAI_BASE_URL") = "" ->
  let q := Workflow.str_or (default "" query) Workflow.USER_QUERY in
  Workflow.run_one env llm json_loads query c
  = (Return
       {| Workflow.user_query := Some q;
          Workflow.agent_output := Some Workflow.synthetic_output;
          Workflow.tool_result :=
            Some (<["location" := Workflow.VStr "Paris"]>
                    Workflow.TOOL_RESULT);
          Workflow.messages := None |},
     console_app c
       {| Workflow.printed :=
            [[Workflow.Lit "[workflow] agent_node called, user_query=";
              Workflow.Repr (Workflow.snippet 80 q)];
             [Workflow.Lit
                ("[workflow] Local LLM not configured "
                 +:+ "(OPENAI_BASE_URL unset), using synthetic response")];
             [Workflow.Lit "[workflow] tools_node called, tool=";
              Workflow.Shown (Workflow.VStr Workflow.TOOL_NAME);
              Workflow.Lit ", arguments=";
              Workflow.Shown (Workflow.VDict Workflow.TOOL_ARGS)]];
          Workflow.llm_requests := [] |})
  /\ q <> "".
Proof.
  intros E q. split; [|by apply str_or_nonempty].
  unfold Workflow.run_one, Workflow.invoke. fold q.
  unfold bind at 1. unfold Workflow.agent_node. unfold bind at 1.
  unfold Workflow.say at 1. unfold modify at 1. unfold bind at 1.
  rewrite (call_unconfigured _ _ E). unfold ret at 1.
  unfold bind at 1. rewrite tools_node_run.
  assert (Workflow.query_of
            {| Workflow.user_query := Some q; Workflow.agent_output := None;
               Workflow.tool_result := None; Workflow.messages := None |}
          = q) as ->.
  { unfold Workflow.query_of. cbn [Workflow.user_query default from_option id].
    subst q. unfold Workflow.str_or at 1.
    destruct (PyStr.truthy (Workflow.str_or _ _)) eqn:T; [done|].
    apply truthy_false in T. by destruct (str_or_nonempty (default "" query)
                                           Workflow.USER_QUERY). }
  set (st := Workflow.update _ _).
  assert (Workflow.elements (Workflow.tool_calls_of st)
          = Return [Workflow.synthetic_tool_call]) as ->
    by (by vm_compute).
  assert (Workflow.first_weather_call [Workflow.synthetic_tool_call]
          = Return (Some (Workflow.VDict Workflow.TOOL_ARGS,
                          Workflow.VStr Workflow.TOOL_NAME))) as ->
    by (by vm_compute).
  cbv zeta.
  assert (Workflow.weather_result (Workflow.VDict Workflow.TOOL_ARGS)
          = Return (<["location" := Workflow.VStr "Paris"]>
                      Workflow.TOOL_RESULT)) as ->
    by (by vm_compute).
  subst st. unfold ret, console_app.
  cbn [Workflow.printed Workflow.llm_requests Workflow.update tools_returns
       Workflow.user_query Workflow.agent_output Workflow.tool_result
       Workflow.messages from_option].
  by rewrite !app_nil_r, <- !app_assoc.
Qed.

(** ** agent_confident.py against workflow.py *)

Lemma first_weather_args_call (calls : list Workflow.value) :
  Confident.first_weather_args calls
  = match Workflow.first_weather_call calls with
    | Return found => Return (fst <$> found)
    | Raise e => Raise e
    end.
Proof.
  induction calls as [|tc calls IH]; [done|].
  cbn [Confident.first_weather_args Workflow.first_weather_call].
  destruct tc; try done. by destruct (Workflow.is_tool_name _).
Qed.

Lemma confident_tools_node_result (state : Workflow.State)
    (c c' : Workflow.Console) :
  fst (Confident.tools_node state c) = fst (Workflow.tools_node state c')
  /\ Workflow.llm_requests (snd (Confident.tools_node state c))
     = Workflow.llm_requests c
  /\ Workflow.llm_requests (snd (Workflow.tools_node state c'))
     = Workflow.llm_requests c'.
Proof.
  rewrite tools_node_run.
  unfold Confident.tools_node, bind, Workflow.lift, Workflow.say, modify, ret.
  destruct (Workflow.elements _) as [calls|e]; [|done].
  rewrite first_weather_args_call.
  destruct (Workflow.first_weather_call calls) as [[[a n]|]|e]; cbn;
    try done; try (destruct (Workflow.weather_result _)); cbn;
    by rewrite ?app_nil_r.
Qed.

Lemma confident_agent_node_result (state : Workflow.State)
    (c c' : Workflow.Console) :
  Workflow.llm_requests c = Workflow.llm_requests c' ->
  fst (Confident.agent_node env llm json_loads state c) = fst (agent state c')
  /\ Workflow.llm_requests
       (snd (Confident.agent_node env llm json_loads state c))
     = Workflow.llm_requests (snd (agent state c')).
Proof.
  intros Hc.
  unfold Confident.agent_node, Workflow.agent_node, bind, Workflow.say,
    modify.
  rewrite (appends_only_call env llm json_loads (Workflow.query_of state)
             {| Workflow.printed := Workflow.printed c ++ _;
                Workflow.llm_requests := Workflow.llm_requests c |}).
  rewrite (appends_only_call env llm json_loads (Workflow.query_of state)
             {| Workflow.printed := Workflow.printed c' ++ _;
                Workflow.llm_requests := Workflow.llm_requests c' |}).
  destruct (fst (call _ fresh_console)); cbn; by rewrite Hc.
Qed.

(** X20: the nodes of agent_confident.py do what the nodes of
    workflow.py do: on every state, and from consoles that have seen the
    same requests, the agent nodes return the same value (or raise the
    same exception) and make the same requests, the tools nodes return
    the same value or raise the same exception, and so do whole runs. *)
Theorem confident_matches_workflow (state : Workflow.State)
    (query : option string) (c : Workflow.Console) :
  fst (Confident.agent_node env llm json_loads state c) = fst (agent state c)
  /\ fst (Confident.tools_node state c) = fst (Workflow.tools_node state c)
  /\ fst (Confident.run_one env llm json_loads query c)
     = fst (Workflow.run_one env llm json_loads query c)
  /\ Workflow.llm_requests (snd (Confident.run_one env llm json_loads query c))
     = Workflow.llm_requests
         (snd (Workflow.run_one env llm json_loads query c)).
Proof.
  split; [by apply confident_agent_node_result|].
  split; [by apply confident_tools_node_result|].
  unfold Confident.run_one, Workflow.run_one, Workflow.invoke.
  set (initial := {| Workflow.user_query := _ |}).
  unfold bind at 1 3 5 7.
  destruct (confident_agent_node_result initial c c eq_refl) as [Ha Hr].
  destruct (Confident.agent_node env llm json_loads initial c) as [o1 c1].
  destruct (agent initial c) as [o2 c2].
  cbn [fst snd] in Ha, Hr. subst o2.
  destruct o1 as [a|e]; [|done].
  unfold bind.
  destruct (confident_tools_node_result (Workflow.update initial a) c1 c2)
    as (Ht & H1 & H2).
  destruct (Confident.tools_node _ c1) as [o3 c3].
  destruct (Workflow.tools_node _ c2) as [o4 c4].
  cbn [fst snd] in Ht, H1, H2. subst o4.
  destruct o3; cbn; split; congruence.
Qed.

(** X21: the host of agent_confident.py needs its key: with
    [CONFIDENT_API_KEY] unset, empty or blank it prints the message of
    the [ValueError] and ends with status 1 without running the workflow
    (no node prints, no request is made).  With the key, it ends with
    status 0 after the closing line when the run returns, and with status
    1 after a line with the message when the run raises an
    [Exception]. *)
Theorem confident_main_exit (c : Workflow.Console) :
  let run := Confident.run_one env llm json_loads None in
  let main := Confident.main env llm json_loads c in
  (PyStr.strip (environ_get env "CONFIDENT_API_KEY") = "" ->
   exit_status (fst main) = 1%Z
   /\ snd main
      = console_app c
          {| Workflow.printed :=
               [[Workflow.Lit
                   "Set CONFIDENT_API_KEY for Confident AI tracing."]];
             Workflow.llm_requests := [] |})
  /\ (PyStr.strip (environ_get env "CONFIDENT_API_KEY") <> "" ->
      (forall u, fst (run c) = Return u ->
         exit_status (fst main) = 0%Z
         /\ last (Workflow.printed (snd main))
            = Some [Workflow.Lit
                      ("Confident AI trace (agent + tools spans) sent. "
                       +:+ "Check the Observatory.")])
      /\ (forall e, fst (run c) = Raise e -> isinstance e HException = true ->
           exit_status (fst main) = 1%Z
           /\ last (Workflow.printed (snd main))
              = Some [Workflow.Lit "Failed: "; Workflow.Lit (exn_msg e)])).
Proof.
  intros run main. subst run main. unfold Confident.main, Confident._setup_tracing.
  split.
  - intros ->. cbn [PyStr.truthy PyStr.is_empty negb].
    unfold bind, Workflow.say, modify, sys_exit, raise, console_app. cbn.
    by rewrite app_nil_r.
  - intros Hk%truthy_true. rewrite Hk. cbn [negb].
    unfold try_excepts, bind.
    destruct (Confident.run_one env llm json_loads None c) as [[u|e] c'];
      cbn [fst]; split.
    + intros u' _. unfold Workflow.say, modify. cbn. by rewrite last_snoc.
    + done.
    + done.
    + intros e' [= <-] Hx. cbn [dispatch]. rewrite Hx.
      unfold Workflow.say, modify, sys_exit, raise. cbn. by rewrite last_snoc.
Qed.

End WorkflowNodes.

(** ** Concrete runs of the workflow *)

Lemma llm_not_configured_witness :
  fst (Workflow.agent_node {[ "OPENAI_BASE_URL" := "   " ]} llm_down
         json_loads_sample Workflow.empty_state fresh_console)
  = Return (agent_returns Workflow.synthetic_output).
Proof.
  exact (proj1 (proj2 (llm_not_configured {[ "OPENAI_BASE_URL" := "   " ]}
                         llm_down json_loads_sample "" Workflow.empty_state
                         fresh_console eq_refl))).
Defined.

Lemma llm_failure_contained_witness :
  fst (Workflow._call_local_llm_if_configured
         {[ "OPENAI_BASE_URL" := "http://localhost:1234/v1" ]}
         llm_down json_loads_sample "hello" fresh_console)
  = Return None.
Proof.
  refine (proj1 (proj2 (proj2 (llm_failure_contained
            {[ "OPENAI_BASE_URL" := "http://localhost:1234/v1" ]}
            llm_down json_loads_sample "hello" Workflow.empty_state
            fresh_console)) connection_refused _ eq_refl eq_refl)).
  vm_compute. discriminate.
Defined.

Lemma agent_output_shape_witness :
  exists d calls,
    fst (Workflow.agent_node
           {[ "OPENAI_BASE_URL" := "http://localhost:1234/v1" ]}
           (llm_answering
              [ {| Workflow.tc_id := "call_1";
                   Workflow.tc_function :=
                     {| Workflow.fn_name := "get_weather";
                        Workflow.fn_arguments := oslo_document |} |} ])
           json_loads_sample Workflow.empty_state fresh_console)
    = Return (agent_returns d)
    /\ d !! "tool_calls" = Some (Workflow.VList calls) /\ calls <> [].
Proof.
  set (run := Workflow.agent_node _ _ _ _ _).
  assert (fst run = Return (match fst run with
                            | Return u => u
                            | Raise _ => Workflow.empty_state
                            end)) as E by (vm_compute; reflexivity).
  destruct (agent_output_shape _ _ _ _ _ _ E)
    as (d & content & calls & m & Hu & _ & Ht & _ & Hne & _).
  exists d, calls. split; [exact (eq_trans E (f_equal Return Hu)) | done].
Defined.

Lemma tool_result_shape_witness :
  exists r,
    fst (Workflow.tools_node (agent_returns Workflow.synthetic_output)
           fresh_console) = Return (tools_returns r)
    /\ r !! "temp" = Some (Workflow.VInt 18).
Proof.
  set (run := Workflow.tools_node _ _).
  assert (fst run = Return (match fst run with
                            | Return u => u
                            | Raise _ => Workflow.empty_state
                            end)) as E by (vm_compute; reflexivity).
  destruct (tool_result_shape _ _ _ E) as (r & location & Hu & Ht & _).
  exists r. split; [exact (eq_trans E (f_equal Return Hu)) | done].
Defined.

Lemma tools_node_first_match_witness :
  let other : gmap string Workflow.value :=
    {[ "name" := Workflow.VStr "search" ]} in
  let oslo : gmap string Workflow.value :=
    {[ "name" := Workflow.VStr "get_weather";
       "arguments" :=
         Workflow.VDict {[ "location" := Workflow.VStr "Oslo" ]} ]} in
  let state :=
    agent_returns
      {[ "tool_calls" :=
           Workflow.VList ([Workflow.VDict other]
                           ++ Workflow.VDict oslo :: [Workflow.VInt 7]) ]} in
  fst (Workflow.tools_node state fresh_console)
  = Return (tools_returns
              (<["location" := Workflow.VStr "Oslo"]> Workflow.TOOL_RESULT)).
Proof.
  intros other oslo state.
  pose proof (tools_node_first_match state fresh_console _ oslo
                [Workflow.VDict other] [Workflow.VInt 7] eq_refl eq_refl) as P.
  assert (Forall is_other_call [Workflow.VDict other]) as Hpre.
  { constructor; [|constructor]. exists other. by split. }
  specialize (P Hpre eq_refl). cbv zeta in P. destruct P as (P & _ & _).
  refine (P {[ "location" := Workflow.VStr "Oslo" ]} eq_refl _).
  intros E. apply (f_equal (fun m => m !! "location")) in E.
  vm_compute in E. discriminate E.
Defined.

Lemma tools_node_bad_container_witness :
  exists e,
    Workflow.tools_node
      (agent_returns {[ "tool_calls" := Workflow.VInt 7 ]}) fresh_console
    = (Raise e, fresh_console).
Proof.
  pose proof (tools_node_bad_container
                (agent_returns {[ "tool_calls" := Workflow.VInt 7 ]})
                fresh_console {[ "tool_calls" := Workflow.VInt 7 ]}
                (Workflow.VInt 7) eq_refl) as P.
  destruct P as (e & He & _);
    [by vm_compute | reflexivity | intros l; discriminate|].
  by exists e.
Defined.

Lemma run_one_synthetic_witness :
  fst (Workflow.run_one ∅ llm_down json_loads_sample (Some "") fresh_console)
  = Return
      {| Workflow.user_query := Some Workflow.USER_QUERY;
         Workflow.agent_output := Some Workflow.synthetic_output;
         Workflow.tool_result :=
           Some (<["location" := Workflow.VStr "Paris"]>
                   Workflow.TOOL_RESULT);
         Workflow.messages := None |}.
Proof.
  pose proof (run_one_synthetic ∅ llm_down json_loads_sample (Some "")
                fresh_console eq_refl) as P.
  cbv zeta in P. destruct P as [P _]. by rewrite P.
Defined.

Lemma confident_main_exit_witness :
  exit_status (fst (Confident.main ∅ llm_down json_loads_sample fresh_console))
  = 1%Z.
Proof.
  pose proof (confident_main_exit ∅ llm_down json_loads_sample fresh_console)
    as P.
  cbv zeta in P. destruct P as [P _]. exact (proj1 (P eq_refl)).
Defined.

(** An LLM that answers with a [get_weather] call whose arguments parse
    to a list: the agent node hands the call on, the tools node raises,
    and the host of agent_confident.py ends with status 1. *)
Example list_arguments_break_the_run :
  let env : gmap string string :=
    {[ "OPENAI_BASE_URL" := "http://localhost:1234/v1";
       "CONFIDENT_API_KEY" := "key" ]} in
  let llm :=
    llm_answering
      [ {| Workflow.tc_id := "call_1";
           Workflow.tc_function :=
             {| Workflow.fn_name := "get_weather";
                Workflow.fn_arguments := "[1]" |} |} ] in
  fst (Workflow.run_one env llm json_loads_sample None fresh_console)
  = Raise (Workflow.AttributeError (Workflow.VList [Workflow.VInt 1]) "get")
  /\ exit_status (fst (Confident.main env llm json_loads_sample fresh_console))
     = 1%Z.
Proof. vm_compute. done. Qed.

(** With arguments that do not parse, the helper gives up on the LLM
    answer and the run goes on with the synthetic call. *)
Example unparsable_arguments_fall_back :
  let env : gmap string string :=
    {[ "OPENAI_BASE_URL" := "http://localhost:1234/v1" ]} in
  let llm :=
    llm_answering
      [ {| Workflow.tc_id := "call_1";
           Workflow.tc_function :=
             {| Workflow.fn_name := "get_weather";
                Workflow.fn_arguments := "{oops" |} |} ] in
  Workflow.tool_result
    <$> (match fst (Workflow.run_one env llm json_loads_sample None
                      fresh_console) with
         | Return u => Some u
         | Raise _ => None
         end)
  = Some (Some (<["location" := Workflow.VStr "Paris"]>
                  Workflow.TOOL_RESULT)).
Proof. vm_compute. reflexivity. Qed.

Lemma logging_export_log_witness :
  map args
    (Langgraph.logger
       (snd (Langgraph.logging_export reference_batch
               (Langgraph.wrap_exporter_with_logging
                  (scripted [Return FAILURE])))))
  = [[AResult FAILURE; AInt 2]].
Proof.
  pose proof (@logging_export_log Scripted Scripted_exporter reference_batch
                (Langgraph.wrap_exporter_with_logging
                   (scripted [Return FAILURE]))) as P.
  cbv zeta in P. destruct P as (new & Hl & _ & Hf & _).
  rewrite Hl. exact (proj2 (Hf eq_refl)).
Defined.

Lemma exporter_from_env_target_witness :
  _headers (exporter_from_env sdk_defaults parse_pairs
              {[ "OTEL_EXPORTER_OTLP_HEADERS" := "a=1" ]})
  = {[ "a" := "1" ]}.
Proof.
  pose proof (exporter_from_env_target sdk_defaults parse_pairs
                {[ "OTEL_EXPORTER_OTLP_HEADERS" := "a=1" ]} framing [] None
                (world_of [] (Return accepted))) as P.
  cbv zeta in P. destruct P as (_ & _ & _ & P & _).
  rewrite P; [reflexivity|]. vm_compute. discriminate.
Defined.

(** ** What is printed of a long text *)

(** X22: the cut applied to the query and to the LLM's content before
    they are printed keeps a text of at most [n] characters as it is and
    replaces a longer one by its first [n] characters followed by three
    dots, so that at most [n + 3] characters are printed (83 of a query,
    203 of a content). *)
Theorem snippet_bounds (n : nat) (s : string) :
  (String.length (Workflow.snippet n s) <= n + 3)%nat
  /\ ((String.length s <= n)%nat -> Workflow.snippet n s = s)
  /\ ((n < String.length s)%nat ->
      Workflow.snippet n s = PyStr.take n s +:+ "..."
      /\ String.length (Workflow.snippet n s) = (n + 3)%nat).
Proof.
  unfold Workflow.snippet.
  destruct (n <? String.length s)%nat eqn:E.
  - apply Nat.ltb_lt in E.
    rewrite length_append, length_take.
    change (String.length "...") with 3%nat.
    split; [lia|]. split; [lia|]. intros _. split; [done | lia].
  - apply Nat.ltb_ge in E. split; [lia|]. split; [done | lia].
Qed.

Lemma snippet_bounds_witness :
  String.length (Workflow.snippet 80 (replicate_char 200 "q")) = 83%nat.
Proof.
  refine (proj2 (proj2 (proj2 (snippet_bounds 80 (replicate_char 200 "q"))) _)).
  vm_compute. lia.
Defined.

(** ** Tool calls of the LLM *)

Section ToolCalls.
Context (env : gmap string string).
Context (llm : Workflow.LLMRequest -> outcome Workflow.ChatCompletion).
Context (json_loads : string -> outcome Workflow.value).

Lemma str_or_empty (s : string) : Workflow.str_or s "" = s.
Proof.
  unfold Workflow.str_or. destruct (PyStr.truthy s) eqn:E; [done|].
  by apply truthy_false in E.
Qed.

Lemma convert_all_ok (parsed : Workflow.ToolCall -> Workflow.value)
    (l : list Workflow.ToolCall) (c : Workflow.Console) :
  (forall tc, tc ∈ l ->
     json_loads (Workflow.str_or
                   (Workflow.fn_arguments (Workflow.tc_function tc)) "{}")
     = Return (parsed tc)) ->
  Workflow.map_M (Workflow.convert_tool_call json_loads) l c
  = (Return
       (map (fun tc =>
               Workflow.VDict
                 {[ "id" := Workflow.VStr (Workflow.tc_id tc);
                    "name" := Workflow.VStr
                                (Workflow.fn_name (Workflow.tc_function tc));
                    "arguments" := parsed tc ]}) l),
     c).
Proof.
  intros Hp. induction l as [|tc l IH]; [done|].
  cbn [Workflow.map_M map]. unfold bind at 1.
  unfold Workflow.convert_tool_call at 1. unfold bind at 1.
  unfold Workflow.lift at 1. rewrite (Hp tc) by set_solver.
  unfold ret at 1. unfold bind at 1.
  rewrite IH by (intros tc' Hin; apply Hp; set_solver). done.
Qed.

(** X23: when the LLM answers with tool calls and the arguments of each
    parse, the helper makes one request and hands the calls on in their
    order, each with its id, its name and its parsed arguments (an empty
    arguments string is parsed as [{}]), next to the content (empty when
    there is none) and the model name of the response (the default model
    when it has none). *)
Theorem llm_tool_calls_passed_on (query : string) (c : Workflow.Console)
    (resp : Workflow.ChatCompletion) (message : Workflow.Message)
    (rest : list Workflow.Message) (tcs : list Workflow.ToolCall)
    (parsed : Workflow.ToolCall -> Workflow.value) :
  let request :=
    {| Workflow.req_base_url :=
         PyStr.strip (environ_get env "OPENAI_BASE_URL");
       Workflow.req_api_key := default "lm-studio" (env !! "OPENAI_API_KEY");
       Workflow.req_model := default "local" (env !! "OPENAI_MODEL");
       Workflow.req_content := query |} in
  let run :=
    Workflow._call_local_llm_if_configured env llm json_loads query c in
  PyStr.strip (environ_get env "OPENAI_BASE_URL") <> "" ->
  llm request = Return resp ->
  Workflow.choices resp = message :: rest ->
  Workflow.tool_calls message = Some tcs ->
  tcs <> [] ->
  (forall tc, tc ∈ tcs ->
     json_loads (Workflow.str_or
                   (Workflow.fn_arguments (Workflow.tc_function tc)) "{}")
     = Return (parsed tc)) ->
  fst run
  = Return (Some
      {[ "content" := Workflow.VStr (default "" (Workflow.content message));
         "tool_calls" :=
           Workflow.VList
             (map (fun tc =>
                     Workflow.VDict
                       {[ "id" := Workflow.VStr (Workflow.tc_id tc);
                          "name" :=
                            Workflow.VStr
                              (Workflow.fn_name (Workflow.tc_function tc));
                          "arguments" := parsed tc ]}) tcs);
         "model" :=
           Workflow.VStr (Workflow.str_or (Workflow.model resp)
                                          Workflow.DEFAULT_MODEL) ]})
  /\ Workflow.llm_requests (snd run) = Workflow.llm_requests c ++ [request].
Proof.
  intros request run Hb Hl Hc Ht Hne Hp. subst run.
  apply truthy_true in Hb.
  assert (exists c',
            Workflow._call_local_llm_if_configured env llm json_loads query c
            = (Return (Some
                 {[ "content" :=
                      Workflow.VStr (default "" (Workflow.content message));
                    "tool_calls" :=
                      Workflow.VList
                        (map (fun tc =>
                                Workflow.VDict
                                  {[ "id" := Workflow.VStr (Workflow.tc_id tc);
                                     "name" :=
                                       Workflow.VStr
                                         (Workflow.fn_name
                                            (Workflow.tc_function tc));
                                     "arguments" := parsed tc ]}) tcs);
                    "model" :=
                      Workflow.VStr (Workflow.str_or (Workflow.model resp)
                                       Workflow.DEFAULT_MODEL) ]}), c')
            /\ Workflow.llm_requests c' = Workflow.llm_requests c ++ [request])
    as (c' & -> & Hc'); [|done].
  unfold Workflow._call_local_llm_if_configured. rewrite Hb. cbn [negb].
  unfold bind at 1. unfold Workflow.say at 1. unfold modify at 1.
  unfold try_excepts. unfold bind at 1. unfold Workflow.create_completion.
  fold request. rewrite Hl.
  unfold bind at 1. unfold Workflow.lift at 1. rewrite Hc.
  unfold bind at 1. unfold Workflow.say at 1. unfold modify at 1.
  unfold bind at 1. rewrite Ht. cbn [default from_option id].
  destruct tcs as [|tc tcs']; [done|].
  rewrite (convert_all_ok parsed (tc :: tcs') _ Hp).
  unfold ret. rewrite str_or_empty. eexists. split; reflexivity.
Qed.

End ToolCalls.

Lemma llm_tool_calls_passed_on_witness :
  let env : gmap string string :=
    {[ "OPENAI_BASE_URL" := "http://localhost:1234/v1" ]} in
  let tc :=
    {| Workflow.tc_id := "call_1";
       Workflow.tc_function :=
         {| Workflow.fn_name := "get_weather";
            Workflow.fn_arguments := "" |} |} in
  Workflow.llm_requests
    (snd (Workflow._call_local_llm_if_configured env (llm_answering [tc])
            json_loads_sample "hello" fresh_console))
  = [ {| Workflow.req_base_url := "http://localhost:1234/v1";
         Workflow.req_api_key := "lm-studio";
         Workflow.req_model := "local";
         Workflow.req_content := "hello" |} ].
Proof.
  intros env tc.
  pose proof (llm_tool_calls_passed_on env (llm_answering [tc])
                json_loads_sample "hello" fresh_console
                {| Workflow.choices :=
                     [ {| Workflow.content := None;
                          Workflow.tool_calls := Some [tc] |} ];
                   Workflow.model := "local-model" |}
                {| Workflow.content := None;
                   Workflow.tool_calls := Some [tc] |}
                [] [tc] (fun _ => Workflow.VDict ∅)) as P.
  cbv zeta in P.
  refine (proj2 (P _ eq_refl eq_refl eq_refl _ _)).
  - vm_compute. discriminate.
  - discriminate.
  - intros tc' Hin. apply list_elem_of_singleton in Hin. by subst tc'.
Defined.

(** An LLM that asks for the weather of Oslo gets it. *)
Example oslo_end_to_end :
  let env : gmap string string :=
    {[ "OPENAI_BASE_URL" := "http://localhost:1234/v1" ]} in
  let llm :=
    llm_answering
      [ {| Workflow.tc_id := "call_1";
           Workflow.tc_function :=
             {| Workflow.fn_name := "get_weather";
                Workflow.fn_arguments := oslo_document |} |} ] in
  Workflow.tool_result
    <$> (match fst (Workflow.run_one env llm json_loads_sample None
                      fresh_console) with
         | Return u => Some u
         | Raise _ => None
         end)
  = Some (Some (<["location" := Workflow.VStr "Oslo"]>
                  Workflow.TOOL_RESULT)).
Proof. vm_compute. reflexivity. Qed.
